(** * Resume matcher: the matching engine of [main.py]

    A shallow embedding of the helper functions and of the request handler
    [index] of [main.py], and the properties of the matching pipeline
    proved about them.

    Conventions of the embedding.
    - A Python [str] is a Rocq [string]; one [ascii] holds one code point
      below 256, and the character classes are Python's on that range.
    - A Python [float] is an IEEE-754 binary64 datum, [spec_float], with the
      arithmetic of [SpecFloat] at precision 53 and maximal exponent 1024.
    - A Python exception is the [Raise] outcome of the [result] type.
    - The capabilities of the libraries the program calls (the spaCy model,
      the PDF and DOCX readers, the file copy) are the fields of [world]. *)

From Stdlib Require Import ZArith Ascii String List Bool Lia.
From Stdlib Require Import Floats.SpecFloat.
From Stdlib Require Import Sorting.Sorted Sorting.Permutation.
From Stdlib Require Import Numbers.DecimalString.
From Stdlib Require Import Numbers.DecimalPos Numbers.DecimalN.
From stdpp Require Import base decidable countable gmap strings.
Import ListNotations.

Local Open Scope string_scope.
Local Open Scope list_scope.
Local Open Scope Z_scope.

(** ** Python exceptions *)

Inductive exn := ValueError | IndexError.

Inductive result (A : Type) :=
| Ok (a : A)
| Raise (e : exn).
Arguments Ok {A} a.
Arguments Raise {A} e.

Definition bind {A B : Type} (r : result A) (k : A -> result B) : result B :=
  match r with
  | Ok a => k a
  | Raise e => Raise e
  end.

Notation "'let!' x ':=' r 'in' k" := (bind r (fun x => k))
  (at level 10, x name, r at level 100, k at level 200).

Fixpoint mapM {A B : Type} (f : A -> result B) (l : list A) : result (list B) :=
  match l with
  | [] => Ok []
  | a :: l' => let! b := f a in let! bs := mapM f l' in Ok (b :: bs)
  end.

(** ** Python floats *)

Module PyFloat.

Definition prec : Z := 53.
Definition emax : Z := 1024.

Definition float := spec_float.

Definition zero : float := S754_zero false.
Definition nan : float := S754_nan.

Definition add : float -> float -> float := SFadd prec emax.
Definition div : float -> float -> float := SFdiv prec emax.

(** [a < b], [a > b], [a >= b] and [a == b]; each is false when an
    operand is NaN. *)
Definition lt (a b : float) : bool := SFltb a b.
Definition gt (a b : float) : bool := SFltb b a.
Definition ge (a b : float) : bool :=
  match SFcompare a b with
  | Some (Gt | Eq) => true
  | _ => false
  end.
Definition eq (a b : float) : bool := SFeqb a b.

Definition is_nan (a : float) : bool :=
  match a with S754_nan => true | _ => false end.

(** The double nearest to [(-1)^s * n / d] (ties to even): what
    [strtod] returns for a decimal numeral of that value. *)
Definition of_ratio (s : bool) (n : Z) (d : positive) : float :=
  match n with
  | Zpos p => SFdiv prec emax (S754_finite s p 0) (S754_finite false d 0)
  | _ => S754_zero s
  end.

(** [float(n)] for a non-negative integer literal. *)
Definition of_Z (n : Z) : float := of_ratio false n 1.

(** [m * 2^e * 10^nd] rounded to an integer, ties to even: the digits
    [dtoa] produces in mode 3. *)
Definition scaled_round (m : positive) (e : Z) (nd : nat) : Z :=
  let num := Zpos m * 10 ^ Z.of_nat nd in
  if 0 <=? e then num * 2 ^ e
  else
    let d := 2 ^ (- e) in
    let q := num / d in
    match (2 * (num mod d)) ?= d with
    | Lt => q
    | Gt => q + 1
    | Eq => if Z.even q then q else q + 1
    end.

(** [round(x, nd)] for [0 <= nd]: infinities and NaN round to themselves,
    a finite [x] is printed with [nd] decimals and read back. *)
Definition round (x : float) (nd : nat) : float :=
  match x with
  | S754_finite s m e =>
      of_ratio s (scaled_round m e nd) (Z.to_pos (10 ^ Z.of_nat nd))
  | _ => x
  end.

Definition digits (n : Z) : string :=
  NilZero.string_of_uint (N.to_uint (Z.to_N n)).

(** [s] padded on the left with ["0"] up to [width] characters. *)
Definition zero_pad (width : nat) (s : string) : string :=
  match width - String.length s with
  | O => s
  | S k => String.append (string_of_list_ascii (repeat "0"%char (S k))) s
  end%nat.

(** [format(x, ".{nd}f")] for [0 < nd]. *)
Definition format_f (x : float) (nd : nat) : string :=
  let sign (s : bool) := if s then "-" else "" in
  match x with
  | S754_nan => "nan"
  | S754_infinity s => String.append (sign s) "inf"
  | S754_zero s =>
      String.append (sign s) (String.append "0." (zero_pad nd ""))
  | S754_finite s m e =>
      let n := scaled_round m e nd in
      let p := 10 ^ Z.of_nat nd in
      String.append (sign s)
        (String.append (digits (n / p))
           (String.append "." (zero_pad nd (digits (n mod p)))))
  end.

End PyFloat.

(** ** Python strings *)

Module PyStr.

Definition code (c : ascii) : N := N_of_ascii c.

Definition between (lo hi : N) (c : ascii) : bool :=
  ((lo <=? code c) && (code c <=? hi))%N.

(** [\d] and [str.isdecimal]: below 256 only the ASCII digits. *)
Definition is_digit (c : ascii) : bool := between 48 57 c.

(** [\s], [str.isspace] and the characters [str.strip] and [str.split]
    remove: TAB to CR, FS to US, space, NEL and NBSP. *)
Definition is_space (c : ascii) : bool :=
  between 9 13 c || between 28 32 c
  || (code c =? 133)%N || (code c =? 160)%N.

(** [\w]: the alphanumeric code points and the underscore. *)
Definition is_word (c : ascii) : bool :=
  between 48 57 c || between 65 90 c || between 97 122 c
  || (code c =? 95)%N
  || (code c =? 170)%N || between 178 179 c || (code c =? 181)%N
  || between 185 186 c || between 188 190 c
  || between 192 214 c || between 216 246 c || between 248 255 c.

(** [str.lower] on one code point. *)
Definition lower_char (c : ascii) : ascii :=
  if between 65 90 c || (between 192 222 c && negb (code c =? 215)%N)
  then ascii_of_N (code c + 32)
  else c.

Definition chars (s : string) : list ascii := list_ascii_of_string s.
Definition str (cs : list ascii) : string := string_of_list_ascii cs.

Definition lower (s : string) : string := str (map lower_char (chars s)).

Fixpoint lstrip_chars (p : ascii -> bool) (cs : list ascii) : list ascii :=
  match cs with
  | c :: cs' => if p c then lstrip_chars p cs' else cs
  | [] => []
  end.

Definition strip_chars (p : ascii -> bool) (cs : list ascii) : list ascii :=
  rev (lstrip_chars p (rev (lstrip_chars p cs))).

(** [s.strip()] *)
Definition strip (s : string) : string := str (strip_chars is_space (chars s)).

(** [c in s] for a one-character [c]. *)
Definition contains (c : ascii) (s : string) : bool :=
  existsb (Ascii.eqb c) (chars s).

(** The text before and the text after the last [sep], if there is one. *)
Fixpoint rsplit_last (sep : ascii) (cs : list ascii)
  : option (list ascii * list ascii) :=
  match cs with
  | [] => None
  | c :: cs' =>
      match rsplit_last sep cs' with
      | Some (a, b) => Some (c :: a, b)
      | None => if Ascii.eqb c sep then Some ([], cs') else None
      end
  end.

(** [s.rsplit(sep, 1)] *)
Definition rsplit1 (sep : ascii) (s : string) : list string :=
  match rsplit_last sep (chars s) with
  | Some (a, b) => [str a; str b]
  | None => [s]
  end.

(** [l[i]] *)
Definition item {A : Type} (l : list A) (i : nat) : result A :=
  match nth_error l i with
  | Some a => Ok a
  | None => Raise IndexError
  end.

(** The words of [s.split()]; [cur] is the current word, reversed. *)
Fixpoint split_ws (cs cur : list ascii) : list (list ascii) :=
  match cs with
  | [] => match cur with [] => [] | _ => [rev cur] end
  | c :: cs' =>
      if is_space c
      then match cur with
           | [] => split_ws cs' []
           | _ => rev cur :: split_ws cs' []
           end
      else split_ws cs' (c :: cur)
  end.

(** [sep.join(words)] *)
Fixpoint join (sep : list ascii) (words : list (list ascii)) : list ascii :=
  match words with
  | [] => []
  | [w] => w
  | w :: ws => w ++ sep ++ join sep ws
  end.

(** Python's [sorted(l)] on a list: a stable sort that only asks [<],
    here by insertion; where [<] orders the elements every stable sort
    returns this list. [insert x l] puts [x] in front of the first element
    that is not below it. *)
Fixpoint insert {A : Type} (lt : A -> A -> bool) (x : A) (l : list A) : list A :=
  match l with
  | [] => [x]
  | y :: l' => if lt y x then y :: insert lt x l' else x :: l
  end.

Fixpoint sorted {A : Type} (lt : A -> A -> bool) (l : list A) : list A :=
  match l with
  | [] => []
  | x :: l' => insert lt x (sorted lt l')
  end.

(** [sorted(l, key=key, reverse=True)]: the list is reversed, sorted
    upwards and reversed again, which keeps equal keys in their order. *)
Definition sorted_reverse {A K : Type} (lt : K -> K -> bool) (key : A -> K)
    (l : list A) : list A :=
  rev (sorted (fun a b => lt (key a) (key b)) (rev l)).

(** *** [float(s)] *)

(** [digit (["_"] digit)*] after its first digit; [acc] holds the digits
    read so far, last one first. *)
Fixpoint digitpart_tail (cs acc : list ascii) : list ascii * list ascii :=
  match cs with
  | c :: cs' =>
      if is_digit c then digitpart_tail cs' (c :: acc)
      else if Ascii.eqb c "_" then
        match cs' with
        | d :: cs'' =>
            if is_digit d then digitpart_tail cs'' (d :: acc) else (acc, cs)
        | [] => (acc, cs)
        end
      else (acc, cs)
  | [] => (acc, cs)
  end.

Definition digitpart (cs : list ascii) : option (list ascii * list ascii) :=
  match cs with
  | c :: cs' =>
      if is_digit c
      then let '(ds, r) := digitpart_tail cs' [c] in Some (rev ds, r)
      else None
  | [] => None
  end.

Definition digit_value (c : ascii) : Z := Z.of_N (code c) - 48.

Definition Z_of_digits (ds : list ascii) : Z :=
  fold_left (fun n c => 10 * n + digit_value c) ds 0.

(** [number ::= [digitpart] "." digitpart | digitpart ["."]]: the digits
    before the point, the digits after it and what follows. *)
Definition number (cs : list ascii)
  : option (list ascii * list ascii * list ascii) :=
  match digitpart cs with
  | Some (ip, r) =>
      match r with
      | "."%char :: r' =>
          match digitpart r' with
          | Some (fp, r'') => Some (ip, fp, r'')
          | None => Some (ip, [], r')
          end
      | _ => Some (ip, [], r)
      end
  | None =>
      match cs with
      | "."%char :: r' =>
          match digitpart r' with
          | Some (fp, r'') => Some ([], fp, r'')
          | None => None
          end
      | _ => None
      end
  end.

Definition take_sign (cs : list ascii) : bool * list ascii :=
  match cs with
  | "+"%char :: r => (false, r)
  | "-"%char :: r => (true, r)
  | _ => (false, cs)
  end.

(** [exponent ::= ("e" | "E") [sign] digitpart], up to the end of the
    text; no exponent is the exponent 0. *)
Definition exponent (cs : list ascii) : option Z :=
  match cs with
  | [] => Some 0
  | c :: r =>
      if Ascii.eqb (lower_char c) "e" then
        let '(neg, r') := take_sign r in
        match digitpart r' with
        | Some (ds, []) =>
            Some (if neg : bool then - Z_of_digits ds else Z_of_digits ds)
        | _ => None
        end
      else None
  end.

(** The double of the decimal numeral [ip.fp e ex]. *)
Definition decimal_value (neg : bool) (ip fp : list ascii) (ex : Z) : PyFloat.float :=
  let m := Z_of_digits (ip ++ fp) in
  let scale := Z.of_nat (length fp) - ex in
  if 0 <=? scale
  then PyFloat.of_ratio neg m (Z.to_pos (10 ^ scale))
  else PyFloat.of_ratio neg (m * 10 ^ (- scale)) 1.

(** The characters [float] removes at both ends of its argument: TAB to
    CR and the space and, as it first turns every other white space into a
    space, NEL and NBSP. FS to US are below 127, which [float] leaves as
    they are, and are no spaces for it. *)
Definition is_float_space (c : ascii) : bool :=
  between 9 13 c || (code c =? 32)%N
  || (code c =? 133)%N || (code c =? 160)%N.

(** [float(s)]: [None] stands for [ValueError]. *)
Definition float_of_chars (cs : list ascii) : option PyFloat.float :=
  let '(neg, body) := take_sign (strip_chars is_float_space cs) in
  let word := str (map lower_char body) in
  if String.eqb word "inf" || String.eqb word "infinity"
  then Some (S754_infinity neg)
  else if String.eqb word "nan" then Some S754_nan
  else
    match number body with
    | Some (ip, fp, r) =>
        match exponent r with
        | Some ex => Some (decimal_value neg ip fp ex)
        | None => None
        end
    | None => None
    end.

Definition py_float (s : string) : result PyFloat.float :=
  match float_of_chars (chars s) with
  | Some x => Ok x
  | None => Raise ValueError
  end.

(** [max(l)] on a non-empty list of floats: the first of the largest. *)
Definition py_max (x : PyFloat.float) (l : list PyFloat.float) : PyFloat.float :=
  fold_left (fun best y => if PyFloat.gt y best then y else best) l x.

End PyStr.

Import PyStr.

(** ** Regular expressions

    The fragment of Python's [re] the program uses: literals, [\d], [\s],
    greedy [?], [*] and [+] on one character, [\b], concatenation,
    alternation and a capturing group, matched by backtracking in [re]'s
    order (greedy first, alternatives left to right). *)

Module Re.

Inductive atom :=
| Lit (c : ascii)
| Digit
| Space.

Inductive regex :=
| Eps
| One (a : atom)
| Opt (a : atom)
| Star (a : atom)
| Plus (a : atom)
| WordB
| Seq (r1 r2 : regex)
| Alt (r1 r2 : regex)
| Group (r : regex).

(** The literal text [s] as a pattern. *)
Definition Str (s : string) : regex :=
  fold_right (fun c r => Seq (One (Lit c)) r) Eps (chars s).

Declare Scope re_scope.
Delimit Scope re_scope with re.
Bind Scope re_scope with regex.
Infix "⋅" := Seq (at level 41, right associativity) : re_scope.
Infix "∣" := Alt (at level 51, right associativity) : re_scope.

(** A position in the subject: the text before it (last character
    first), the text from it on, and what group 1 holds so far. *)
Record mstate := MState {
  seen : list ascii;
  rest : list ascii;
  group1 : option (list ascii)
}.

Section Matcher.
(** [re.IGNORECASE] *)
Variable icase : bool.

Definition atom_match (a : atom) (c : ascii) : bool :=
  match a with
  | Lit l =>
      if icase then Ascii.eqb (lower_char c) (lower_char l)
      else Ascii.eqb c l
  | Digit => is_digit c
  | Space => is_space c
  end.

Definition word_at (cs : list ascii) : bool :=
  match cs with
  | c :: _ => is_word c
  | [] => false
  end.

Context {R : Type}.

(** [a*] then [k]: the longest run first. *)
Fixpoint star (a : atom) (k : mstate -> option R)
    (sn rs : list ascii) (g : option (list ascii)) : option R :=
  match rs with
  | c :: rs' =>
      if atom_match a c then
        match star a k (c :: sn) rs' g with
        | Some x => Some x
        | None => k (MState sn rs g)
        end
      else k (MState sn rs g)
  | [] => k (MState sn rs g)
  end.

Definition one (a : atom) (k : mstate -> option R) (s : mstate) : option R :=
  match rest s with
  | c :: rs' =>
      if atom_match a c then k (MState (c :: seen s) rs' (group1 s))
      else None
  | [] => None
  end.

Definition or_else (x y : option R) : option R :=
  match x with
  | Some _ => x
  | None => y
  end.

Fixpoint run (r : regex) (k : mstate -> option R) (s : mstate) : option R :=
  match r with
  | Eps => k s
  | One a => one a k s
  | Opt a => or_else (one a k s) (k s)
  | Star a => star a k (seen s) (rest s) (group1 s)
  | Plus a => one a (fun s' => star a k (seen s') (rest s') (group1 s')) s
  | WordB =>
      if xorb (word_at (seen s)) (word_at (rest s)) then k s else None
  | Seq r1 r2 => run r1 (run r2 k) s
  | Alt r1 r2 => or_else (run r1 k s) (run r2 k s)
  | Group r' =>
      run r'
        (fun s' =>
           let n := (length (seen s') - length (seen s))%nat in
           k (MState (seen s') (rest s') (Some (rev (firstn n (seen s'))))))
        s
  end.
End Matcher.

(** The match of [r] that starts at the position [(sn, rs)]. *)
Definition match_at (icase : bool) (r : regex) (sn rs : list ascii)
  : option mstate :=
  run icase r Some (MState sn rs None).

(** [re.search(r, text)] as a truth value. *)
Fixpoint search_from (icase : bool) (r : regex) (sn rs : list ascii) : bool :=
  match match_at icase r sn rs with
  | Some _ => true
  | None =>
      match rs with
      | [] => false
      | c :: rs' => search_from icase r (c :: sn) rs'
      end
  end.

Definition search (icase : bool) (r : regex) (text : string) : bool :=
  search_from icase r [] (chars text).

Definition group_text (s : mstate) : string :=
  match group1 s with
  | Some g => str g
  | None => ""
  end.

(** [re.findall] for a pattern with one group: scan from the left, and
    go on after each match (one character further after an empty one). *)
Fixpoint findall_from (fuel : nat) (icase : bool) (r : regex)
    (sn rs : list ascii) : list string :=
  match fuel with
  | O => []
  | S fuel' =>
      match match_at icase r sn rs with
      | Some s' =>
          group_text s' ::
            (if (length (rest s') <? length rs)%nat
             then findall_from fuel' icase r (seen s') (rest s')
             else match rs with
                  | [] => []
                  | c :: rs' => findall_from fuel' icase r (c :: sn) rs'
                  end)
      | None =>
          match rs with
          | [] => []
          | c :: rs' => findall_from fuel' icase r (c :: sn) rs'
          end
      end
  end.

Definition findall (icase : bool) (r : regex) (text : string) : list string :=
  findall_from (S (String.length text)) icase r [] (chars text).

End Re.

Import Re.

(** ** Helper functions of [main.py] *)

Definition ALLOWED_EXTENSIONS : gset string := {[ "pdf"; "docx" ]}.

Definition allowed_file (filename : string) : bool :=
  contains "." filename &&
  match item (rsplit1 "." filename) 1 with
  | Ok ext => bool_decide (lower ext ∈ ALLOWED_EXTENSIONS)
  | Raise _ => false
  end.

(** The years pattern: group 1 holds digits, an optional point and more
    digits; spaces, an optional plus sign, spaces and "year" or "years"
    follow. *)
Definition year_pattern : regex :=
  (Group (Plus Digit ⋅ Opt (Lit ".") ⋅ Star Digit)
   ⋅ Star Space ⋅ Opt (Lit "+") ⋅ Star Space ⋅ Str "year" ⋅ Opt (Lit "s"))%re.

(** The months pattern: group 1 holds digits; spaces, an optional plus
    sign, spaces and "month" or "months" follow. *)
Definition month_pattern : regex :=
  (Group (Plus Digit)
   ⋅ Star Space ⋅ Opt (Lit "+") ⋅ Star Space ⋅ Str "month" ⋅ Opt (Lit "s"))%re.

(** [total_experience] starts as the integer 0, which is kept here as the
    float 0.0: the two are equal for [+], [<] and [round]. [max] of an
    empty list would raise [ValueError]. *)
Definition find_experience (text : string) : result PyFloat.float :=
  let year_matches := findall true year_pattern text in
  let month_matches := findall true month_pattern text in
  let total_experience := PyFloat.zero in
  let! total_experience :=
    match year_matches with
    | [] => Ok total_experience
    | _ :: _ =>
        let! nums := mapM py_float year_matches in
        match nums with
        | x :: l => Ok (py_max x l)
        | [] => Raise ValueError
        end
    end in
  let! total_experience :=
    match month_matches with
    | [] => Ok total_experience
    | _ :: _ =>
        let! nums := mapM py_float month_matches in
        match nums with
        | x :: l =>
            Ok (PyFloat.add total_experience
                  (PyFloat.div (py_max x l) (PyFloat.of_Z 12)))
        | [] => Raise ValueError
        end
    end in
  Ok (PyFloat.round total_experience 1).

Definition ug_patterns : list regex :=
  [ (Str "bachelor" ⋅ Star Space ⋅ Str "of" ⋅ Star Space ⋅ Str "technology")%re;
    (Str "bachelor" ⋅ Star Space ⋅ Str "of" ⋅ Star Space ⋅ Str "engineering")%re;
    (WordB
     ⋅ Group ((One (Lit "b") ⋅ Opt (Lit ".") ⋅ One (Lit "e") ⋅ Opt (Lit "."))
              ∣ (One (Lit "b") ⋅ Opt (Lit ".") ⋅ Str "tech" ⋅ Opt (Lit "."))
              ∣ (One (Lit "b") ⋅ Opt (Lit ".") ⋅ Str "sc" ⋅ Opt (Lit "."))
              ∣ Str "bca" ∣ Str "bba")
     ⋅ WordB)%re;
    (WordB ⋅ Group (Str "bachelor" ∣ Str "undergraduate" ∣ Str "diploma")
     ⋅ WordB)%re ].

Definition masters_patterns : list regex :=
  [ (Str "master" ⋅ Star Space ⋅ Str "of" ⋅ Star Space ⋅ Str "science")%re;
    (Str "master" ⋅ Star Space ⋅ Str "of" ⋅ Star Space ⋅ Str "technology")%re;
    (WordB
     ⋅ Group ((One (Lit "m") ⋅ Opt (Lit ".") ⋅ One (Lit "s") ⋅ Opt (Lit "."))
              ∣ (One (Lit "m") ⋅ Opt (Lit ".") ⋅ One (Lit "e") ⋅ Opt (Lit "."))
              ∣ (One (Lit "m") ⋅ Opt (Lit ".") ⋅ Str "tech" ⋅ Opt (Lit "."))
              ∣ Str "mca" ∣ Str "mba")
     ⋅ WordB)%re;
    (WordB
     ⋅ Group (Str "master" ∣ Str "postgraduate"
              ∣ (Str "pg" ⋅ Star Space ⋅ Str "diploma"))
     ⋅ WordB)%re ].

Definition pg_patterns : list regex :=
  [ (WordB
     ⋅ Group ((Str "ph" ⋅ Opt (Lit ".") ⋅ One (Lit "d"))
              ∣ Str "doctorate" ∣ Str "doctoral")
     ⋅ WordB)%re ].

Definition find_education (text : string) : gset string :=
  let education_found : gset string := ∅ in
  let text_lower := lower text in
  let education_found :=
    if existsb (fun pattern => search false pattern text_lower) ug_patterns
    then education_found ∪ {[ "UG" ]} else education_found in
  let education_found :=
    if existsb (fun pattern => search false pattern text_lower) masters_patterns
    then education_found ∪ {[ "Masters" ]} else education_found in
  let education_found :=
    if existsb (fun pattern => search false pattern text_lower) pg_patterns
    then education_found ∪ {[ "PG" ]} else education_found in
  education_found.

(** ** The libraries around the program *)

(** What the program gets from spaCy, PyPDF2, python-docx and the file
    system. [NLP_MODEL] is [None] when the model failed to load, otherwise
    the similarity of the documents of two texts. A reader gives [None]
    when it raises. [copy_error src dst] is the message of the error
    [shutil.copy] raises, if it does. A copy that raises may have
    truncated, partly written or fully written its destination before:
    [failed_copy_leaves src dst bytes old] is what the destination holds
    after such a copy, [bytes] being what the source holds and [old] what
    the destination held. *)
Record world := World {
  NLP_MODEL : option (string -> string -> PyFloat.float);
  pdf_pages : string -> option (list string);
  docx_paragraphs : string -> option (list string);
  copy_error : string -> string -> option string;
  failed_copy_leaves :
    string -> string -> option string -> option string -> option string
}.

(** The flashed messages (category, text), the upload folder and the match
    folder, each from file name to bytes. *)
Record effects := Effects {
  flashes : list (string * string);
  upload_folder : gmap string string;
  match_folder : gmap string string
}.

Definition flash (message category : string) (fx : effects) : effects :=
  Effects (flashes fx ++ [(category, message)]) (upload_folder fx) (match_folder fx).

Record FileStorage := { filename : string; stream : string }.

(** [file.save(file_path)] *)
Definition save (file : FileStorage) (file_path : string) (fx : effects) : effects :=
  Effects (flashes fx) (<[file_path := stream file]> (upload_folder fx)) (match_folder fx).

(** [shutil.copy(src, dst)] from the upload folder to the match folder:
    the message of the error, if the copy raises, and the new effects. A
    copy that raises changes nothing but its destination, which it leaves
    as the world says. *)
Definition shutil_copy (w : world) (src dst : string) (fx : effects)
  : option string * effects :=
  match copy_error w src dst with
  | Some e =>
      (Some e,
       Effects (flashes fx) (upload_folder fx)
         (partial_alter
            (failed_copy_leaves w src dst (upload_folder fx !! src))
            dst (match_folder fx)))
  | None =>
      match upload_folder fx !! src with
      | Some bytes =>
          (None,
           Effects (flashes fx) (upload_folder fx)
             (<[dst := bytes]> (match_folder fx)))
      | None => (Some "[Errno 2] No such file or directory", fx)
      end
  end.

(** *** [werkzeug.utils.secure_filename], on a POSIX host *)

(** [unicodedata.normalize("NFKD", c).encode("ascii", "ignore")] for one
    code point below 256. *)
Definition nfkd_ascii (c : ascii) : list ascii :=
  let n := code c in
  let at_ (k : N) := (n =? k)%N in
  if (n <? 128)%N then [c]
  else if at_ 160%N || at_ 168%N || at_ 175%N || at_ 180%N || at_ 184%N then chars " "
  else if at_ 170%N then chars "a"
  else if at_ 178%N then chars "2"
  else if at_ 179%N then chars "3"
  else if at_ 185%N then chars "1"
  else if at_ 186%N then chars "o"
  else if at_ 188%N then chars "14"
  else if at_ 189%N then chars "12"
  else if at_ 190%N then chars "34"
  else if between 192 197 c then chars "A"
  else if at_ 199%N then chars "C"
  else if between 200 203 c then chars "E"
  else if between 204 207 c then chars "I"
  else if at_ 209%N then chars "N"
  else if between 210 214 c then chars "O"
  else if between 217 220 c then chars "U"
  else if at_ 221%N then chars "Y"
  else if between 224 229 c then chars "a"
  else if at_ 231%N then chars "c"
  else if between 232 235 c then chars "e"
  else if between 236 239 c then chars "i"
  else if at_ 241%N then chars "n"
  else if between 242 246 c then chars "o"
  else if between 249 252 c then chars "u"
  else if at_ 253%N || at_ 255%N then chars "y"
  else [].

(** The characters the expression "[^A-Za-z0-9_.-]" keeps. *)
Definition filename_char (c : ascii) : bool :=
  between 65 90 c || between 97 122 c || between 48 57 c
  || Ascii.eqb c "_" || Ascii.eqb c "." || Ascii.eqb c "-".

Definition secure_filename (filename : string) : string :=
  let filename := flat_map nfkd_ascii (chars filename) in
  let filename :=
    map (fun c => if Ascii.eqb c "/" then " "%char else c) filename in
  let filename := join (chars "_") (split_ws filename []) in
  let filename := List.filter filename_char filename in
  str (strip_chars (fun c => Ascii.eqb c "." || Ascii.eqb c "_") filename).

(** *** Text extraction *)

(** The file at [file_path] is the entry of that name in the upload
    folder; a file that cannot be opened or read gives the empty text. *)
Definition extract_text_from_pdf (w : world) (fx : effects) (file_path : string)
  : string :=
  match upload_folder fx !! file_path with
  | Some pdf_file =>
      match pdf_pages w pdf_file with
      | Some pages =>
          fold_left
            (fun text page_text =>
               if String.eqb page_text "" then text
               else String.append text page_text)
            pages ""
      | None => ""
      end
  | None => ""
  end.

Definition extract_text_from_docx (w : world) (fx : effects) (file_path : string)
  : string :=
  match upload_folder fx !! file_path with
  | Some doc =>
      match docx_paragraphs w doc with
      | Some paragraphs =>
          str (join (chars (String "010"%char "")) (map chars paragraphs))
      | None => ""
      end
  | None => ""
  end.

Definition extract_text_from_file (w : world) (fx : effects)
    (file_path filename : string) : result string :=
  let! extension := item (rsplit1 "." filename) 1 in
  let extension := lower extension in
  if String.eqb extension "pdf" then Ok (extract_text_from_pdf w fx file_path)
  else if String.eqb extension "docx" then Ok (extract_text_from_docx w fx file_path)
  else Ok "".

(** *** Grading *)

Record grade := Grade { passed : bool; similarity_score : PyFloat.float }.

Definition grade_resume_nlp (resume_text : string) (criteria : gmap string string)
    (nlp_model : option (string -> string -> PyFloat.float))
    (similarity_threshold : PyFloat.float) : grade :=
  match criteria !! "requirements_text", nlp_model with
  | Some requirements_text, Some model =>
      if String.eqb requirements_text "" then Grade false PyFloat.zero
      else
        let score := model resume_text requirements_text in
        if PyFloat.ge score similarity_threshold
        then Grade true (PyFloat.round score 3)
        else Grade false (PyFloat.round score 3)
  | _, _ => Grade false PyFloat.zero
  end.

(** ** The request handler *)

Inductive http_method := GET | POST.

(** [files] and [form] are the multi-dictionaries of the request: a key
    that is present has at least one value. *)
Record request := Request {
  method : http_method;
  files : gmap string (list FileStorage);
  form : gmap string (list string)
}.

(** [d.get(key)] and [d.getlist(key)] *)
Definition get (d : gmap string (list string)) (key : string) : option string :=
  match d !! key with
  | Some (v :: _) => Some v
  | _ => None
  end.

Definition getlist {A : Type} (d : gmap string (list A)) (key : string) : list A :=
  match d !! key with
  | Some l => l
  | None => []
  end.

(** One entry of [results]. *)
Record candidate := Candidate {
  original_filename : string;
  new_filename : string;
  score : PyFloat.float;
  experience : PyFloat.float;
  education : list string
}.

Inductive response :=
| Render (results : option (list candidate))
| Redirect.

(** The variables the loop over the files updates. *)
Record loop_state := LoopState {
  results : list candidate;
  match_counter : nat;
  loop_fx : effects
}.

(** The format of [new_filename]: the counter on six digits, the score
    with two decimals, the extension. *)
Definition format_new_filename (match_counter : nat)
    (similarity_score : PyFloat.float) (file_extension : string) : string :=
  String.append (PyFloat.zero_pad 6 (PyFloat.digits (Z.of_nat match_counter)))
    (String.append "_"
       (String.append (PyFloat.format_f similarity_score 2)
          (String.append "." file_extension))).

Section Loop.
Variable w : world.
Variable requirements_text : string.
Variable similarity_threshold : PyFloat.float.
Variable filters_enabled : bool.
Variable min_experience : PyFloat.float.
Variable required_education : gset string.

(** The body of [for file in files]; [continue] is [Ok st]. *)
Definition loop_body (file : FileStorage) (st : loop_state) : result loop_state :=
  if negb (String.eqb (filename file) "") && allowed_file (filename file) then
    let original_filename := secure_filename (filename file) in
    let file_path := original_filename in
    let fx := save file file_path (loop_fx st) in
    let st := LoopState (results st) (match_counter st) fx in
    let! resume_text := extract_text_from_file w fx file_path original_filename in
    if String.eqb resume_text "" then Ok st
    else
      let! candidate_experience := find_experience resume_text in
      let candidate_education := find_education resume_text in
      if filters_enabled && PyFloat.lt candidate_experience min_experience
      then Ok st
      else if filters_enabled
              && negb (bool_decide (required_education ⊆ candidate_education))
      then Ok st
      else
        let nlp_criteria : gmap string string :=
          {[ "requirements_text" := requirements_text ]} in
        let nlp_grade :=
          grade_resume_nlp resume_text nlp_criteria (NLP_MODEL w)
            similarity_threshold in
        if passed nlp_grade then
          let match_counter := S (match_counter st) in
          let! file_extension := item (rsplit1 "." original_filename) 1 in
          let new_filename :=
            format_new_filename match_counter (similarity_score nlp_grade)
              file_extension in
          let new_filepath := new_filename in
          let fx :=
            match shutil_copy w file_path new_filepath fx with
            | (None, fx') => fx'
            | (Some e, fx') =>
                flash
                  (String.append "Could not copy "
                     (String.append original_filename
                        (String.append ". Reason: " e)))
                  "error" fx'
            end in
          Ok (LoopState
                (results st ++
                   [Candidate original_filename new_filename
                      (similarity_score nlp_grade) candidate_experience
                      (sorted String.ltb (elements candidate_education))])
                match_counter fx)
        else Ok st
  else Ok st.

Fixpoint loop (files : list FileStorage) (st : loop_state) : result loop_state :=
  match files with
  | [] => Ok st
  | file :: files' => let! st' := loop_body file st in loop files' st'
  end.
End Loop.

Definition index (w : world) (req : request) (fx : effects)
  : result (response * effects) :=
  match NLP_MODEL w with
  | None =>
      Ok (Render None,
          flash "The NLP model failed to load. Please check the console and restart the server."
            "error" fx)
  | Some _ =>
      match method req with
      | GET => Ok (Render None, fx)
      | POST =>
          match files req !! "resumes" with
          | None => Ok (Redirect, flash "No resume file part in the request." "error" fx)
          | Some _ =>
              let files := getlist (files req) "resumes" in
              let requirements_text :=
                strip (default "" (get (form req) "requirements")) in
              let! similarity_threshold :=
                match get (form req) "threshold" with
                | Some s => py_float s
                | None => Ok (PyFloat.of_ratio false 6 10)
                end in
              let filters_enabled :=
                bool_decide (get (form req) "criteria_toggle" = Some "on") in
              let min_experience_str := default "0" (get (form req) "experience") in
              let required_education : gset string :=
                list_to_set (getlist (form req) "education") in
              if match files with
                 | [] => true
                 | file :: _ => String.eqb (filename file) ""
                 end
              then Ok (Redirect, flash "No resumes selected for uploading." "error" fx)
              else if String.eqb requirements_text ""
              then Ok (Redirect, flash "Job description cannot be empty." "error" fx)
              else
                let min_experience :=
                  if filters_enabled then
                    if String.eqb min_experience_str "" then Ok PyFloat.zero
                    else py_float min_experience_str
                  else Ok PyFloat.zero in
                match min_experience with
                | Raise _ =>
                    Ok (Redirect,
                        flash "Please enter a valid number for experience." "error" fx)
                | Ok min_experience =>
                    let! st :=
                      loop w requirements_text similarity_threshold
                        filters_enabled min_experience required_education
                        files (LoopState [] 0 fx) in
                    let sorted_results :=
                      sorted_reverse PyFloat.lt score (results st) in
                    Ok (Render (Some sorted_results), loop_fx st)
                end
          end
      end
  end.

(** * Vocabulary of the statements *)

(** [x] is a number of sign [s]: a zero, an infinity or a finite value
    with that sign bit, and not NaN. *)
Definition has_sign (s : bool) (x : PyFloat.float) : Prop :=
  match x with
  | S754_nan => False
  | S754_zero s' | S754_infinity s' | S754_finite s' _ _ => s' = s
  end.

(** ** What a match of a pattern consumes *)

(** From [s] to [s'] the matcher reads the text [t] and leaves group 1
    alone. *)
Definition consumes (t : list ascii) (s s' : mstate) : Prop :=
  rest s = t ++ rest s' /\ seen s' = rev t ++ seen s /\ group1 s' = group1 s.

Definition with_group (s m : mstate) : mstate :=
  MState (seen m) (rest m)
    (Some (rev (firstn (length (seen m) - length (seen s)) (seen m)))).

(** The positions a match of [r] started at [s] can end at. *)
Fixpoint reach (icase : bool) (r : regex) (s s' : mstate) : Prop :=
  match r with
  | Eps => s' = s
  | One a => exists c, atom_match icase a c = true /\ consumes [c] s s'
  | Opt a => (exists c, atom_match icase a c = true /\ consumes [c] s s') \/ s' = s
  | Star a => exists t, forallb (atom_match icase a) t = true /\ consumes t s s'
  | Plus a =>
      exists c t, atom_match icase a c = true
                  /\ forallb (atom_match icase a) t = true
                  /\ consumes (c :: t) s s'
  | WordB => s' = s
  | Seq r1 r2 => exists m, reach icase r1 s m /\ reach icase r2 m s'
  | Alt r1 r2 => reach icase r1 s s' \/ reach icase r2 s s'
  | Group r' => exists m, reach icase r' s m /\ s' = with_group s m
  end.

Fixpoint no_group (r : regex) : bool :=
  match r with
  | Seq r1 r2 | Alt r1 r2 => no_group r1 && no_group r2
  | Group _ => false
  | _ => true
  end.

(** A numeral: digits, then possibly a point and more digits. *)
Definition numeral (cs : list ascii) : Prop :=
  exists ds fs (point : bool),
    ds <> [] /\ forallb is_digit ds = true /\ forallb is_digit fs = true
    /\ cs = ds ++ (if point then "."%char :: fs else []).

(** ** The experience formula of the specification *)

(** The number a matched numeral stands for. *)
Definition matched_number (s : string) : PyFloat.float :=
  match float_of_chars (chars s) with
  | Some x => x
  | None => PyFloat.nan
  end.

(** The largest of the matched numbers, 0 when there is none. *)
Definition max_or_zero (l : list PyFloat.float) : PyFloat.float :=
  match l with
  | [] => PyFloat.zero
  | x :: l' => py_max x l'
  end.

(** [round(Y + M/12, 1)] with [Y] the largest number of years and [M] the
    largest number of months the text mentions. *)
Definition spec_experience (text : string) : PyFloat.float :=
  let Y := max_or_zero (map matched_number (findall true year_pattern text)) in
  let M := max_or_zero (map matched_number (findall true month_pattern text)) in
  PyFloat.round (PyFloat.add Y (PyFloat.div M (PyFloat.of_Z 12))) 1.

(** ** The education groups of the specification *)

(** Some pattern of the group matches somewhere in the lowercased text. *)
Definition group_matches (patterns : list regex) (text : string) : bool :=
  existsb (fun pattern => search false pattern (lower text)) patterns.

(** What one group adds to the result, whatever the other groups do. *)
Definition group_label (patterns : list regex) (label text : string) : gset string :=
  if group_matches patterns text then {[ label ]} else ∅.

Definition spec_education (text : string) : gset string :=
  group_label ug_patterns "UG" text
  ∪ group_label masters_patterns "Masters" text
  ∪ group_label pg_patterns "PG" text.

(** ** The grade of an unavailable comparison *)

(** The criteria carry no usable requirements text, or there is no model. *)
Definition comparison_unavailable (criteria : gmap string string)
    (nlp_model : option (string -> string -> PyFloat.float)) : Prop :=
  nlp_model = None
  \/ criteria !! "requirements_text" = None
  \/ criteria !! "requirements_text" = Some "".

(** ** One step of the loop *)

(** The hard filters as the loop tests them: when enabled, the experience
    is not below the minimum and the required labels are among the
    education levels. *)
Definition filters_keep (filters_enabled : bool) (min_experience : PyFloat.float)
    (required_education : gset string)
    (experience_years : PyFloat.float) (education_levels : gset string) : Prop :=
  filters_enabled = true ->
  PyFloat.lt experience_years min_experience = false
  /\ required_education ⊆ education_levels.

(** The hard filters as the specification words them: when enabled, the
    experience is at least the minimum and the required labels are among
    the education levels. *)
Definition filters_pass (filters_enabled : bool) (min_experience : PyFloat.float)
    (required_education : gset string)
    (experience_years : PyFloat.float) (education_levels : gset string) : Prop :=
  filters_enabled = true ->
  PyFloat.ge experience_years min_experience = true
  /\ required_education ⊆ education_levels.

(** The step ends normally and appends one entry to [results]. *)
Definition produces_result (st : loop_state) (r : result loop_state) : Prop :=
  exists st' c, r = Ok st' /\ results st' = results st ++ [c].

(** The step ends normally and leaves [results] and the counter alone. *)
Definition skips (st : loop_state) (r : result loop_state) : Prop :=
  exists st', r = Ok st' /\ results st' = results st
              /\ match_counter st' = match_counter st.

(** A small world for the examples: the model finds a resume of [n]
    characters similar to any requirements at [(50 + n) / 100], a document
    holds its text as its bytes, on one page or in one paragraph, and
    every copy succeeds. *)
Definition example_model (resume requirements : string) : PyFloat.float :=
  PyFloat.of_ratio false (50 + Z.of_nat (String.length resume)) 100.

Definition example_world : world :=
  World (Some example_model)
    (fun bytes => Some [bytes]) (fun bytes => Some [bytes]) (fun _ _ => None)
    (fun _ _ _ old => old).

Definition no_effects : effects := Effects [] ∅ ∅.

(** A POST of the given files and form fields. *)
Definition post (uploads : list FileStorage) (fields : list (string * string))
  : request :=
  Request POST {[ "resumes" := uploads ]}
    (list_to_map (map (fun kv => (fst kv, [snd kv])) fields)).

(** ** The order of the floats *)

(** A number as a triple that the lexicographic order of the integers
    compares as [SFcompare] compares the number; the two zeros get the
    same triple. *)
Definition rank (x : PyFloat.float) : Z * Z * Z :=
  match x with
  | S754_infinity true => (-2, 0, 0)
  | S754_finite true m e => (-1, - e, Zneg m)
  | S754_zero _ => (0, 0, 0)
  | S754_finite false m e => (1, e, Zpos m)
  | S754_infinity false => (2, 0, 0)
  | S754_nan => (3, 0, 0)
  end.

Definition lex (a b : Z * Z * Z) : comparison :=
  let '(a1, a2, a3) := a in
  let '(b1, b2, b3) := b in
  match a1 ?= b1 with
  | Eq => match a2 ?= b2 with
          | Eq => a3 ?= b3
          | c => c
          end
  | c => c
  end.

Definition lex_lt (a b : Z * Z * Z) : Prop :=
  let '(a1, a2, a3) := a in
  let '(b1, b2, b3) := b in
  a1 < b1 \/ (a1 = b1 /\ (a2 < b2 \/ (a2 = b2 /\ a3 < b3))).

(** ** The results of a run *)

Definition score_ok (c : candidate) : Prop := PyFloat.is_nan (score c) = false.

(** The entry at position [n], counted from 0, of the accepted documents
    carries the name of the match number [n + 1]. *)
Definition named_from (base : nat) (l : list candidate) : Prop :=
  forall n c,
    l !! n = Some c ->
    exists ext,
      item (rsplit1 "." (original_filename c)) 1 = Ok ext
      /\ new_filename c = format_new_filename (S (base + n)) (score c) ext.

Definition named_in_order (l : list candidate) : Prop := named_from 0 l.

(** The message flashed for an accepted document whose copy failed. *)
Definition copy_report (copy_error : string -> string -> option string)
    (c : candidate) : list (string * string) :=
  match copy_error (original_filename c) (new_filename c) with
  | Some e =>
      [("error",
        String.append "Could not copy "
          (String.append (original_filename c) (String.append ". Reason: " e)))]
  | None => []
  end.

(** The response of a run, without its effects. *)
Definition response_of (r : result (response * effects)) : result response :=
  match r with
  | Ok (resp, _) => Ok resp
  | Raise e => Raise e
  end.

(** Two states of the loop that differ at most in the flashes and in the
    match folder. *)
Definition same_progress (a b : loop_state) : Prop :=
  results a = results b
  /\ match_counter a = match_counter b
  /\ upload_folder (loop_fx a) = upload_folder (loop_fx b).

Definition same_outcome (ra rb : result loop_state) : Prop :=
  match ra, rb with
  | Ok a, Ok b => same_progress a b
  | Raise e1, Raise e2 => e1 = e2
  | _, _ => False
  end.

(** ** Requests the handler turns away *)

(** No file came with the request, or the first one has no name. *)
Definition no_documents (req : request) : Prop :=
  match files req !! "resumes" with
  | None | Some [] => True
  | Some (file :: _) => filename file = ""
  end.

Definition requirements_empty (req : request) : Prop :=
  strip (default "" (get (form req) "requirements")) = "".

(** The filters are enabled and the experience field holds a text that is
    not empty and that [float] rejects. *)
Definition experience_rejected (req : request) : Prop :=
  get (form req) "criteria_toggle" = Some "on"
  /\ exists s, get (form req) "experience" = Some s
               /\ s <> "" /\ py_float s = Raise ValueError.

(** The threshold field is absent or holds a text that [float] reads. *)
Definition threshold_numeric (req : request) : Prop :=
  match get (form req) "threshold" with
  | Some s => exists x, py_float s = Ok x
  | None => True
  end.

(** The handler answers without touching the folders and without
    results; when the model is loaded and the request is a POST, it
    redirects with one error flash. *)
Definition refused (w : world) (req : request) (fx : effects)
    (r : result (response * effects)) : Prop :=
  (exists resp fx',
     r = Ok (resp, fx')
     /\ (resp = Redirect \/ resp = Render None)
     /\ upload_folder fx' = upload_folder fx
     /\ match_folder fx' = match_folder fx)
  /\ (NLP_MODEL w <> None -> method req = POST ->
      exists message, r = Ok (Redirect, flash message "error" fx)).

(** ** Examples *)

(** A resume of 15 characters and one of 22 characters. *)
Definition junior_upload : FileStorage :=
  {| filename := "junior.docx"; stream := "1 year of work." |}.

Definition senior_upload : FileStorage :=
  {| filename := "senior.pdf"; stream := "5 years, B.Tech degree" |}.

Definition example_request : request :=
  post [ junior_upload; senior_upload ]
    [ ("requirements", "python developer"); ("threshold", "0.6") ].

(** The same uploads with the filters on: two years and UG required. *)
Definition filtered_request : request :=
  post [ junior_upload; senior_upload ]
    [ ("requirements", "python developer"); ("threshold", "0.6");
      ("criteria_toggle", "on"); ("experience", "2"); ("education", "UG") ].

(** The example request with a text that is no number in the experience
    field, the filters being off. *)
Definition unchecked_experience_request : request :=
  post [ junior_upload; senior_upload ]
    [ ("requirements", "python developer"); ("threshold", "0.6");
      ("experience", "abc") ].

(** The same text with the filters on. *)
Definition rejected_experience_request : request :=
  post [ junior_upload; senior_upload ]
    [ ("requirements", "python developer"); ("threshold", "0.6");
      ("criteria_toggle", "on"); ("experience", "abc") ].

(** The example request with the filters on and the experience field
    "nan", which [float] reads as NaN. *)
Definition nan_experience_request : request :=
  post [ junior_upload; senior_upload ]
    [ ("requirements", "python developer"); ("threshold", "0.6");
      ("criteria_toggle", "on"); ("experience", "nan") ].

(** The request with the experience field set to [s]. *)
Definition with_experience (s : string) (req : request) : request :=
  Request (method req) (files req) (<[ "experience" := [s] ]> (form req)).

(** A world whose model finds every similarity 0.6004, and a request with
    that threshold. *)
Definition fine_score_world : world :=
  World (Some (fun _ _ => PyFloat.of_ratio false 6004 10000))
    (pdf_pages example_world) (docx_paragraphs example_world)
    (copy_error example_world) (failed_copy_leaves example_world).

Definition fine_threshold_request : request :=
  post [ senior_upload ]
    [ ("requirements", "python developer"); ("threshold", "0.6004") ].

(** The same world, but every copy fails, leaving an empty file. *)
Definition failing_copy_world : world :=
  World (NLP_MODEL example_world) (pdf_pages example_world)
    (docx_paragraphs example_world) (fun _ _ => Some "disk full")
    (fun _ _ _ _ => Some "").

Definition results_of (r : result (response * effects)) : list candidate :=
  match r with
  | Ok (Render (Some rs), _) => rs
  | _ => []
  end.

Definition effects_of (r : result (response * effects)) : effects :=
  match r with
  | Ok (_, fx) => fx
  | Raise _ => no_effects
  end.

(** The first entry of the rendered list of a run. *)
Definition first_result (r : result (response * effects)) : candidate :=
  hd (Candidate "" "" PyFloat.nan PyFloat.nan []) (results_of r).

(** A run returns a result whose recorded score is below the threshold of
    the run. *)
Definition recorded_below_threshold (w : world) (req : request) : Prop :=
  exists c s thr,
    get (form req) "threshold" = Some s
    /\ py_float s = Ok thr
    /\ In c (results_of (index w req no_effects))
    /\ PyFloat.lt (score c) thr = true.


(** ** The configuration of a run *)

(** What [index] reads from the form before the loop. *)
Definition requirements_of (req : request) : string :=
  strip (default "" (get (form req) "requirements")).

Definition threshold_of (req : request) : result PyFloat.float :=
  match get (form req) "threshold" with
  | Some s => py_float s
  | None => Ok (PyFloat.of_ratio false 6 10)
  end.

Definition filters_of (req : request) : bool :=
  bool_decide (get (form req) "criteria_toggle" = Some "on").

Definition min_experience_of (req : request) : result PyFloat.float :=
  if filters_of req then
    if String.eqb (default "0" (get (form req) "experience")) ""
    then Ok PyFloat.zero
    else py_float (default "0" (get (form req) "experience"))
  else Ok PyFloat.zero.

Definition required_of (req : request) : gset string :=
  list_to_set (getlist (form req) "education").

(** The text the loop extracts from an upload: the upload is saved under
    its sanitized name and read back. *)
Definition document_text (w : world) (file : FileStorage) : result string :=
  extract_text_from_file w
    (save file (secure_filename (filename file)) no_effects)
    (secure_filename (filename file)) (secure_filename (filename file)).

(** The three labels, as [sorted] orders them. *)
Definition EDUCATION_LABELS : list string := ["Masters"; "PG"; "UG"].

(** The entry [c] of [results] is what the loop makes of the upload [file]
    when it is the [n]-th accepted document. *)
Definition accepted_from (w : world) (requirements_text : string)
    (thr : PyFloat.float) (filters_enabled : bool) (minexp : PyFloat.float)
    (reqedu : gset string) (n : nat) (file : FileStorage) (c : candidate) : Prop :=
  exists text model ext,
    allowed_file (filename file) = true
    /\ original_filename c = secure_filename (filename file)
    /\ item (rsplit1 "." (original_filename c)) 1 = Ok ext
    /\ new_filename c = format_new_filename n (score c) ext
    /\ document_text w file = Ok text
    /\ text <> ""
    /\ find_experience text = Ok (experience c)
    /\ education c = sorted String.ltb (elements (find_education text))
    /\ NLP_MODEL w = Some model
    /\ PyFloat.ge (model text requirements_text) thr = true
    /\ score c = PyFloat.round (model text requirements_text) 3
    /\ (filters_enabled = true ->
        PyFloat.lt (experience c) minexp = false
        /\ reqedu ⊆ find_education text).

(** What the loop does to the match folder for an accepted upload. *)
Definition store_match (w : world) (m : gmap string string)
    (p : FileStorage * candidate) : gmap string string :=
  match copy_error w (original_filename (snd p)) (new_filename (snd p)) with
  | None => <[new_filename (snd p) := stream (fst p)]> m
  | Some _ =>
      partial_alter
        (failed_copy_leaves w (original_filename (snd p)) (new_filename (snd p))
           (Some (stream (fst p))))
        (new_filename (snd p)) m
  end.

(** What the loop puts in the upload folder for an upload. *)
Definition store_upload (m : gmap string string) (file : FileStorage)
  : gmap string string :=
  if allowed_file (filename file)
  then <[secure_filename (filename file) := stream file]> m
  else m.

(** The match number a new file name starts with: the digits before its
    first underscore. *)
Fixpoint before_underscore (cs : list ascii) : list ascii :=
  match cs with
  | [] => []
  | c :: cs' => if Ascii.eqb c "_" then [] else c :: before_underscore cs'
  end.

Definition counter_of_name (name : string) : option N :=
  match NilZero.uint_of_string (str (before_underscore (chars name))) with
  | Some d => Some (N.of_uint d)
  | None => None
  end.

(** The same states of the loop but for the effects. *)
Definition same_results (a b : loop_state) : Prop :=
  results a = results b /\ match_counter a = match_counter b.

Definition same_results_outcome (ra rb : result loop_state) : Prop :=
  match ra, rb with
  | Ok a, Ok b => same_results a b
  | Raise e1, Raise e2 => e1 = e2
  | _, _ => False
  end.

(** A request of files that [allowed_file] refuses. *)
Definition notes_request : request :=
  post [ {| filename := "notes.txt"; stream := "5 years, B.Tech" |};
         {| filename := "README"; stream := "PhD" |} ]
    [ ("requirements", "python developer"); ("threshold", "0.6") ].

(** The example request with the threshold "nan". *)
Definition nan_threshold_request : request :=
  post [ junior_upload; senior_upload ]
    [ ("requirements", "python developer"); ("threshold", "nan") ].

(** A request whose threshold is no number. *)
Definition bad_threshold_request : request :=
  post [ senior_upload ]
    [ ("requirements", "python developer"); ("threshold", "high") ].

(** The filtered request with a label that no text yields. *)
Definition unknown_label_request : request :=
  post [ junior_upload; senior_upload ]
    [ ("requirements", "python developer"); ("threshold", "0.6");
      ("criteria_toggle", "on"); ("experience", "0"); ("education", "Doctorate") ].

(** A position of the matcher in the lowercased subject. *)
Definition lower_state (s : mstate) : mstate :=
  MState (map lower_char (seen s)) (map lower_char (rest s))
    (option_map (map lower_char) (group1 s)).

(** * Properties *)

(** ** Floats: signs and the order *)

Module FloatFacts.
Import PyFloat.

Lemma has_sign_not_nan s x : has_sign s x -> is_nan x = false.
Proof. destruct x; simpl; intros H; auto; contradiction. Qed.

Lemma shr_1_nonneg mrs : 0 <= shr_m mrs -> 0 <= shr_m (shr_1 mrs).
Proof.
  destruct mrs as [m r t]; simpl.
  destruct m as [|[p|p|]|[p|p|]]; simpl; lia.
Qed.

Lemma iter_pos_shr_1_nonneg p :
  forall mrs, 0 <= shr_m mrs -> 0 <= shr_m (SpecFloat.iter_pos shr_1 p mrs).
Proof.
  induction p as [p IH|p IH|]; simpl; intros mrs H.
  - apply IH, IH, shr_1_nonneg, H.
  - apply IH, IH, H.
  - apply shr_1_nonneg, H.
Qed.

Lemma shr_fexp_nonneg m e l :
  0 <= m -> 0 <= shr_m (fst (shr_fexp prec emax m e l)).
Proof.
  intros H. unfold shr_fexp, shr.
  assert (H0 : 0 <= shr_m (shr_record_of_loc m l)).
  { destruct l as [|[]]; simpl; exact H. }
  destruct (fexp prec emax (Zdigits2 m + e) - e) as [|p|p]; simpl; auto.
  apply iter_pos_shr_1_nonneg, H0.
Qed.

Lemma round_nearest_even_nonneg m l : 0 <= m -> 0 <= round_nearest_even m l.
Proof.
  intros H. destruct l as [|[]]; simpl; try lia.
  destruct (Z.even m); lia.
Qed.

Lemma binary_round_aux_sign s m e l :
  0 <= m -> has_sign s (binary_round_aux prec emax s m e l).
Proof.
  intros H. unfold binary_round_aux.
  pose proof (shr_fexp_nonneg m e l H) as H1.
  destruct (shr_fexp prec emax m e l) as [mrs1 e1]; simpl in H1.
  pose proof (round_nearest_even_nonneg (shr_m mrs1) (loc_of_shr_record mrs1) H1) as H2.
  pose proof (shr_fexp_nonneg _ e1 loc_Exact H2) as H3.
  destruct (shr_fexp prec emax _ e1 loc_Exact) as [mrs2 e2]; simpl in H3.
  destruct (shr_m mrs2) as [|p|p]; simpl; auto; try lia.
  destruct (e2 <=? emax - prec); simpl; reflexivity.
Qed.

Lemma SFdiv_finite_sign sx mx ex sy my ey :
  has_sign (xorb sx sy)
    (SFdiv prec emax (S754_finite sx mx ex) (S754_finite sy my ey)).
Proof.
  unfold SFdiv, SFdiv_core_binary.
  set (m' := match _ - _ - _ with Z0 => _ | Zpos _ => _ | Zneg _ => _ end).
  assert (Hm : 0 <= m').
  { subst m'. destruct (_ - _ - _); try lia. apply Z.shiftl_nonneg. lia. }
  pose proof (Z.div_pos m' (Zpos my) Hm ltac:(lia)) as Hq.
  unfold Z.div in Hq.
  destruct (Z.div_eucl m' (Zpos my)) as [q r].
  apply binary_round_aux_sign, Hq.
Qed.

Lemma of_ratio_sign s n d : has_sign s (of_ratio s n d).
Proof.
  unfold of_ratio. destruct n; simpl; auto.
  replace s with (xorb s false) at 1 by (destruct s; reflexivity).
  apply SFdiv_finite_sign.
Qed.

Lemma div_finite_sign x my ey :
  has_sign false x -> has_sign false (div x (S754_finite false my ey)).
Proof.
  destruct x as [s|s| |s m e]; simpl; intros H; try contradiction; subst.
  - reflexivity.
  - reflexivity.
  - apply (SFdiv_finite_sign false m e false my ey).
Qed.

Lemma add_sign x y :
  has_sign false x -> has_sign false y -> has_sign false (add x y).
Proof.
  destruct x as [sx|sx| |sx mx ex]; destruct y as [sy|sy| |sy my ey]; simpl;
    intros Hx Hy; try contradiction; subst; try reflexivity.
  unfold binary_normalize, cond_Zopp.
  destruct (Z.pos _ + Z.pos _) as [|p|p] eqn:E; try lia.
  unfold binary_round.
  destruct (shl_align p _ _) as [mz ez].
  apply binary_round_aux_sign. lia.
Qed.

Lemma round_sign s x nd : has_sign s x -> has_sign s (round x nd).
Proof.
  destruct x as [s'|s'| |s' m e]; simpl; intros H; auto.
  subst. apply of_ratio_sign.
Qed.

(** [x + 0.0] and [0.0 + x] are [x], the negative zero apart. *)
Lemma add_zero_r x : has_sign false x -> add x zero = x.
Proof.
  destruct x as [s|s| |s m e]; simpl; intros H; try contradiction; subst;
    reflexivity.
Qed.

Lemma add_zero_l x : has_sign false x -> add zero x = x.
Proof.
  destruct x as [s|s| |s m e]; simpl; intros H; try contradiction; subst;
    reflexivity.
Qed.

(** Without NaN, [a >= b] is the negation of [a < b]. *)
Lemma ge_not_lt a b :
  is_nan a = false -> is_nan b = false -> ge a b = negb (lt a b).
Proof.
  unfold ge, lt, SFltb.
  destruct a as [sa|sa| |sa ma ea]; destruct b as [sb|sb| |sb mb eb];
    simpl; try discriminate; intros _ _;
    repeat match goal with
      | |- context [if ?s then _ else _] => destruct s
      | |- context [match ?c with Eq => _ | Lt => _ | Gt => _ end] => destruct c
      end; reflexivity.
Qed.

Lemma ge_refl a : is_nan a = false -> ge a a = true.
Proof.
  unfold ge. destruct a as [s|s| |s m e]; simpl; try discriminate; intros _.
  - reflexivity.
  - destruct s; reflexivity.
  - rewrite Z.compare_refl, Pos.compare_cont_refl. destruct s; reflexivity.
Qed.

Lemma ge_true_not_nan a b : ge a b = true -> is_nan a = false /\ is_nan b = false.
Proof.
  unfold ge. destruct a, b; simpl; try discriminate; auto.
Qed.

End FloatFacts.

(** ** The matcher *)

Module ReFacts.

Lemma consumes_nil s : consumes [] s s.
Proof. repeat split. Qed.

Lemma star_sound {R} icase a (k : mstate -> option R) rs :
  forall sn g x,
    star icase a k sn rs g = Some x ->
    exists s', reach icase (Star a) (MState sn rs g) s' /\ k s' = Some x.
Proof.
  induction rs as [|c rs IH]; simpl; intros sn g x H.
  - exists (MState sn [] g). split; [|exact H].
    exists []. split; [reflexivity|apply consumes_nil].
  - assert (Hstop : k (MState sn (c :: rs) g) = Some x ->
                    exists s', (exists t, forallb (atom_match icase a) t = true
                                          /\ consumes t (MState sn (c :: rs) g) s')
                               /\ k s' = Some x).
    { intros Hk. exists (MState sn (c :: rs) g). split; [|exact Hk].
      exists []. split; [reflexivity|apply consumes_nil]. }
    destruct (atom_match icase a c) eqn:Hc; [|auto].
    destruct (star icase a k (c :: sn) rs g) as [y|] eqn:Hs; [|auto].
    injection H as ->.
    destruct (IH _ _ _ Hs) as (s' & (t & Ht & Hr & Hsn & Hg) & Hk).
    simpl in Hr, Hsn, Hg.
    exists s'. split; [|exact Hk].
    exists (c :: t). split; [simpl; rewrite Hc; exact Ht|].
    repeat split; simpl.
    + now rewrite Hr.
    + now rewrite Hsn, <- List.app_assoc.
    + exact Hg.
Qed.

Lemma one_sound {R} icase a (k : mstate -> option R) s x :
  one icase a k s = Some x ->
  exists s', reach icase (One a) s s' /\ k s' = Some x.
Proof.
  unfold one. destruct s as [sn rs g]; simpl.
  destruct rs as [|c rs]; [discriminate|].
  destruct (atom_match icase a c) eqn:Hc; [|discriminate].
  intros H. eexists. split; [|exact H].
  exists c. split; [exact Hc|]. repeat split.
Qed.

Lemma run_sound {R} icase r :
  forall (k : mstate -> option R) s x,
    run icase r k s = Some x ->
    exists s', reach icase r s s' /\ k s' = Some x.
Proof.
  induction r as [|a|a|a|a| |r1 IH1 r2 IH2|r1 IH1 r2 IH2|r IH];
    simpl; intros k s x H.
  - eauto.
  - apply one_sound, H.
  - unfold or_else in H.
    destruct (one icase a k s) as [y|] eqn:H1.
    + injection H as ->. destruct (one_sound _ _ _ _ _ H1) as (s' & Hr & Hk).
      exists s'. split; [left; exact Hr|exact Hk].
    + exists s. split; [right; reflexivity|exact H].
  - destruct s as [sn rs g]. apply star_sound, H.
  - destruct (one_sound _ _ _ _ _ H) as (m & (c & Hc & Hr1 & Hs1 & Hg1) & Hk).
    destruct m as [sn rs g]; simpl in *.
    destruct (star_sound _ _ _ _ _ _ _ Hk)
      as (s' & (t & Ht & Hr2 & Hs2 & Hg2) & Hk').
    simpl in *. exists s'. split; [|exact Hk'].
    exists c, t. repeat split; auto.
    + now rewrite Hr1, Hr2.
    + simpl. now rewrite Hs2, Hs1, <- List.app_assoc.
    + now rewrite Hg2.
  - destruct (xorb _ _); [eauto|discriminate].
  - destruct (IH1 _ _ _ H) as (m & Hr1 & Hk).
    destruct (IH2 _ _ _ Hk) as (s' & Hr2 & Hk').
    exists s'. split; [exists m; auto|exact Hk'].
  - unfold or_else in H.
    destruct (run icase r1 k s) as [y|] eqn:H1.
    + injection H as ->. destruct (IH1 _ _ _ H1) as (s' & Hr & Hk). eauto.
    + destruct (IH2 _ _ _ H) as (s' & Hr & Hk). eauto.
  - destruct (IH _ _ _ H) as (m & Hr & Hk).
    exists (with_group s m). split; [exists m; auto|exact Hk].
Qed.

Lemma reach_no_group icase r :
  no_group r = true -> forall s s', reach icase r s s' -> group1 s' = group1 s.
Proof.
  induction r as [|a|a|a|a| |r1 IH1 r2 IH2|r1 IH1 r2 IH2|r IH];
    simpl; intros Hn s s' H.
  - now subst.
  - destruct H as (c & _ & _ & _ & Hg). exact Hg.
  - destruct H as [(c & _ & _ & _ & Hg) | ->]; auto.
  - destruct H as (t & _ & _ & _ & Hg). exact Hg.
  - destruct H as (c & t & _ & _ & _ & _ & Hg). exact Hg.
  - now subst.
  - apply andb_true_iff in Hn as [Hn1 Hn2].
    destruct H as (m & H1 & H2).
    rewrite (IH2 Hn2 _ _ H2). apply (IH1 Hn1 _ _ H1).
  - apply andb_true_iff in Hn as [Hn1 Hn2].
    destruct H as [H|H]; auto.
  - discriminate.
Qed.

(** The text a group holds is the text its pattern consumed. *)
Lemma with_group_text s m t :
  seen m = rev t ++ seen s -> group1 (with_group s m) = Some t.
Proof.
  intros H. unfold with_group; simpl. rewrite H.
  rewrite length_app, Nat.add_sub.
  rewrite firstn_app, Nat.sub_diag, firstn_all. simpl.
  now rewrite app_nil_r, rev_involutive.
Qed.

(** [findall] does not run out of fuel. *)
Lemma findall_from_fuel icase r fuel :
  forall sn rs extra,
    (length rs < fuel)%nat ->
    findall_from (fuel + extra) icase r sn rs = findall_from fuel icase r sn rs.
Proof.
  induction fuel as [|fuel IH]; intros sn rs extra Hlt; [lia|].
  simpl.
  destruct (match_at icase r sn rs) as [s'|].
  - f_equal. destruct (length (rest s') <? length rs)%nat eqn:E.
    + apply Nat.ltb_lt in E. apply IH. lia.
    + destruct rs as [|c rs]; [reflexivity|]. apply IH. simpl in Hlt. lia.
  - destruct rs as [|c rs]; [reflexivity|]. apply IH. simpl in Hlt. lia.
Qed.

Lemma findall_from_Forall (P : string -> Prop) icase r :
  (forall sn rs s', match_at icase r sn rs = Some s' -> P (group_text s')) ->
  forall fuel sn rs, List.Forall P (findall_from fuel icase r sn rs).
Proof.
  intros HP. induction fuel as [|fuel IH]; intros sn rs; simpl.
  - constructor.
  - destruct (match_at icase r sn rs) as [s'|] eqn:E.
    + constructor; [eapply HP, E|].
      destruct (length (rest s') <? length rs)%nat; [apply IH|].
      destruct rs; [constructor|apply IH].
    + destruct rs; [constructor|apply IH].
Qed.

End ReFacts.

(** ** Numerals and [float] *)

Module NumeralFacts.
Import FloatFacts ReFacts.

Ltac each_char c :=
  destruct c as [[] [] [] [] [] [] [] []]; vm_compute; try discriminate;
  try reflexivity; auto.

Lemma point_only d :
  Ascii.eqb (lower_char d) (lower_char ".") = true -> d = "."%char.
Proof. each_char d. Qed.

Lemma digit_not_space c : is_digit c = true -> is_float_space c = false.
Proof. each_char c. Qed.

Lemma digit_not_underscore c : is_digit c = true -> Ascii.eqb c "_" = false.
Proof. each_char c. Qed.

Lemma take_sign_digit c r :
  is_digit c = true -> take_sign (c :: r) = (false, c :: r).
Proof. each_char c. Qed.

Lemma digit_no_keyword c :
  is_digit c = true ->
  Ascii.eqb (lower_char c) "i" = false /\ Ascii.eqb (lower_char c) "n" = false.
Proof. each_char c. Qed.

Lemma eqb_head_false a s b t :
  Ascii.eqb a b = false -> String.eqb (String a s) (String b t) = false.
Proof. simpl. now intros ->. Qed.

Lemma lstrip_chars_head p c cs : p c = false -> lstrip_chars p (c :: cs) = c :: cs.
Proof. simpl. now intros ->. Qed.

Lemma strip_chars_id p cs :
  List.Forall (fun c => p c = false) cs -> strip_chars p cs = cs.
Proof.
  intros H. unfold strip_chars.
  assert (Hl : forall l, List.Forall (fun c => p c = false) l -> lstrip_chars p l = l).
  { intros [|c l] Hf; [reflexivity|]. apply lstrip_chars_head.
    now inversion Hf. }
  rewrite (Hl cs H), Hl, rev_involutive; [reflexivity|].
  now apply List.Forall_rev.
Qed.

Lemma digitpart_tail_digits ds :
  forall acc r,
    forallb is_digit ds = true ->
    (r = [] \/ exists fs, r = "."%char :: fs) ->
    digitpart_tail (ds ++ r) acc = (rev ds ++ acc, r).
Proof.
  induction ds as [|d ds IH]; simpl; intros acc r Hd Hr.
  - destruct Hr as [->|(fs & ->)]; reflexivity.
  - apply andb_true_iff in Hd as [Hd Hds]. rewrite Hd.
    rewrite IH by assumption. now rewrite <- List.app_assoc.
Qed.

Lemma digitpart_digits d ds r :
  forallb is_digit (d :: ds) = true ->
  (r = [] \/ exists fs, r = "."%char :: fs) ->
  digitpart ((d :: ds) ++ r) = Some (d :: ds, r).
Proof.
  simpl. intros Hd Hr. apply andb_true_iff in Hd as [Hd Hds]. rewrite Hd.
  rewrite digitpart_tail_digits by assumption.
  now rewrite rev_app_distr, rev_involutive.
Qed.

Lemma numeral_not_space cs :
  numeral cs -> List.Forall (fun c => is_float_space c = false) cs.
Proof.
  intros (ds & fs & point & _ & Hds & Hfs & ->).
  assert (Hd : forall l, forallb is_digit l = true ->
                         List.Forall (fun c => is_float_space c = false) l).
  { intros l Hl. apply List.Forall_forall. intros c Hc.
    apply digit_not_space. rewrite forallb_forall in Hl. now apply Hl. }
  apply List.Forall_app. split; [now apply Hd|].
  destruct point; [|constructor].
  constructor; [reflexivity|now apply Hd].
Qed.

(** [float] reads every numeral, as a number that is not negative. *)
Lemma float_of_numeral cs :
  numeral cs -> exists x, float_of_chars cs = Some x /\ has_sign false x.
Proof.
  intros Hn. pose proof (numeral_not_space cs Hn) as Hsp.
  destruct Hn as (ds & fs & point & Hne & Hds & Hfs & ->).
  destruct ds as [|d ds]; [contradiction|]. clear Hne.
  unfold float_of_chars. rewrite (strip_chars_id _ _ Hsp).
  pose proof Hds as Hd. simpl in Hd. apply andb_true_iff in Hd as [Hd _].
  change ((d :: ds) ++ ?r) with (d :: (ds ++ r)) at 1.
  rewrite (take_sign_digit d _ Hd).
  destruct (digit_no_keyword d Hd) as [Hi Hnn].
  change (str (map lower_char (d :: ?r)))
    with (String (lower_char d) (str (map lower_char r))).
  rewrite !(eqb_head_false _ _ "i") by exact Hi.
  rewrite (eqb_head_false _ _ "n") by exact Hnn.
  simpl orb. cbv iota.
  assert (Hnum : exists fs', number ((d :: ds) ++ (if point then "."%char :: fs else []))
                             = Some (d :: ds, fs', [])).
  { unfold number. destruct point.
    - rewrite digitpart_digits by eauto.
      destruct fs as [|f fs].
      + exists []. reflexivity.
      + exists (f :: fs).
        rewrite <- (app_nil_r (f :: fs)) at 1.
        rewrite digitpart_digits by auto. reflexivity.
    - exists []. rewrite digitpart_digits by auto. reflexivity. }
  destruct Hnum as (fs' & Hnum).
  change (d :: ds ++ ?r) with ((d :: ds) ++ r).
  rewrite Hnum. simpl exponent. cbv iota.
  eexists. split; [reflexivity|].
  unfold decimal_value. destruct (0 <=? _); apply of_ratio_sign.
Qed.

Lemma py_float_numeral s :
  numeral (chars s) ->
  py_float s = Ok (matched_number s) /\ has_sign false (matched_number s).
Proof.
  intros Hn. destruct (float_of_numeral _ Hn) as (x & Hx & Hs).
  unfold py_float, matched_number. now rewrite Hx.
Qed.

Lemma mapM_py_float l :
  List.Forall (fun s => numeral (chars s)) l ->
  mapM py_float l = Ok (map matched_number l)
  /\ List.Forall (has_sign false) (map matched_number l).
Proof.
  induction 1 as [|s l Hs Hl [IH1 IH2]]; simpl.
  - split; [reflexivity|constructor].
  - destruct (py_float_numeral s Hs) as [-> Hsign]. simpl.
    rewrite IH1. simpl. split; [reflexivity|now constructor].
Qed.

Lemma py_max_sign x l :
  has_sign false x -> List.Forall (has_sign false) l -> has_sign false (py_max x l).
Proof.
  unfold py_max. intros Hx Hl. revert x Hx.
  induction Hl as [|y l Hy Hl IH]; simpl; intros x Hx; [exact Hx|].
  apply IH. destruct (PyFloat.gt y x); assumption.
Qed.

Lemma max_or_zero_sign l :
  List.Forall (has_sign false) l -> has_sign false (max_or_zero l).
Proof.
  destruct 1 as [|x l Hx Hl]; simpl; [reflexivity|now apply py_max_sign].
Qed.

End NumeralFacts.

(** ** [find_experience] *)

Module ExperienceFacts.
Import FloatFacts ReFacts NumeralFacts.

Lemma forallb_digit_app l1 l2 :
  forallb is_digit l1 = true -> forallb is_digit l2 = true ->
  forallb is_digit (l1 ++ l2) = true.
Proof. intros H1 H2. rewrite forallb_app, H1, H2. reflexivity. Qed.

(** Group 1 of a match of the years pattern holds a numeral. *)
Lemma year_group_numeral sn rs s' :
  match_at true year_pattern sn rs = Some s' ->
  exists cs, numeral cs /\ group1 s' = Some cs.
Proof.
  unfold match_at. intros H.
  apply run_sound in H as (s'' & Hr & [= ->]).
  destruct Hr as (m & (m0 & Hg & ->) & Htail).
  apply reach_no_group in Htail; [|reflexivity].
  destruct Hg as (m1 & (c & t & Hc & Ht & _ & Hs1 & _)
                  & m2 & Hopt & (t2 & Ht2 & _ & Hs3 & _)).
  change (is_digit c = true) in Hc.
  change (forallb is_digit t = true) in Ht.
  change (forallb is_digit t2 = true) in Ht2.
  simpl in Hs1.
  destruct Hopt as [(d & Hd & _ & Hs2 & _) | ->].
  - apply (point_only d) in Hd. subst d. simpl in Hs2.
    exists ((c :: t) ++ "."%char :: t2). split.
    + exists (c :: t), t2, true.
      split; [discriminate|]. split; [simpl; now rewrite Hc, Ht|].
      split; [exact Ht2|reflexivity].
    + rewrite Htail. apply with_group_text.
      rewrite Hs3, Hs2, Hs1. simpl.
      rewrite rev_app_distr. simpl. now rewrite <- !List.app_assoc.
  - exists (c :: t ++ t2). split.
    + exists (c :: t ++ t2), [], false.
      split; [discriminate|].
      split; [simpl; rewrite Hc; now apply forallb_digit_app|].
      split; [reflexivity|now rewrite app_nil_r].
    + rewrite Htail. apply with_group_text.
      rewrite Hs3, Hs1. simpl.
      rewrite rev_app_distr. now rewrite <- !List.app_assoc.
Qed.

Lemma month_group_numeral sn rs s' :
  match_at true month_pattern sn rs = Some s' ->
  exists cs, numeral cs /\ group1 s' = Some cs.
Proof.
  unfold match_at. intros H.
  apply run_sound in H as (s'' & Hr & [= ->]).
  destruct Hr as (m & (m0 & Hg & ->) & Htail).
  apply reach_no_group in Htail; [|reflexivity].
  destruct Hg as (c & t & Hc & Ht & _ & Hs1 & _).
  change (is_digit c = true) in Hc.
  change (forallb is_digit t = true) in Ht.
  exists (c :: t). split.
  - exists (c :: t), [], false.
    split; [discriminate|]. split; [simpl; now rewrite Hc, Ht|].
    split; [reflexivity|now rewrite app_nil_r].
  - rewrite Htail. now apply with_group_text.
Qed.

Lemma group_text_numeral s' cs :
  numeral cs -> group1 s' = Some cs -> numeral (chars (group_text s')).
Proof.
  intros Hn Hg. unfold group_text, chars, str. rewrite Hg.
  now rewrite list_ascii_of_string_of_list_ascii.
Qed.

Lemma year_matches_numerals text :
  List.Forall (fun s => numeral (chars s)) (findall true year_pattern text).
Proof.
  apply findall_from_Forall. intros sn rs s' H.
  destruct (year_group_numeral _ _ _ H) as (cs & Hn & Hg).
  eapply group_text_numeral; eauto.
Qed.

Lemma month_matches_numerals text :
  List.Forall (fun s => numeral (chars s)) (findall true month_pattern text).
Proof.
  apply findall_from_Forall. intros sn rs s' H.
  destruct (month_group_numeral _ _ _ H) as (cs & Hn & Hg).
  eapply group_text_numeral; eauto.
Qed.

(** [find_experience] never raises, and computes the formula. *)
Lemma find_experience_spec text :
  find_experience text = Ok (spec_experience text).
Proof.
  unfold find_experience, spec_experience.
  destruct (mapM_py_float _ (year_matches_numerals text)) as [Hy Hys].
  destruct (mapM_py_float _ (month_matches_numerals text)) as [Hm Hms].
  pose proof (max_or_zero_sign _ Hys) as HY.
  pose proof (max_or_zero_sign _ Hms) as HM.
  set (ym := findall true year_pattern text) in *.
  set (mm := findall true month_pattern text) in *.
  assert (E1 : match ym with
               | [] => Ok PyFloat.zero
               | _ :: _ =>
                   let! nums := mapM py_float ym in
                   match nums with
                   | x :: l => Ok (py_max x l)
                   | [] => Raise ValueError
                   end
               end = Ok (max_or_zero (map matched_number ym))).
  { destruct ym as [|y ym']; [reflexivity|]. rewrite Hy. reflexivity. }
  rewrite E1. simpl bind.
  destruct mm as [|mo mm'].
  - simpl. f_equal. f_equal. symmetry. apply add_zero_r, HY.
  - rewrite Hm. reflexivity.
Qed.

Lemma find_experience_sign text :
  exists x, find_experience text = Ok x /\ has_sign false x.
Proof.
  exists (spec_experience text). split; [apply find_experience_spec|].
  unfold spec_experience. apply round_sign, add_sign.
  - apply max_or_zero_sign.
    apply (mapM_py_float _ (year_matches_numerals text)).
  - apply div_finite_sign, max_or_zero_sign.
    apply (mapM_py_float _ (month_matches_numerals text)).
Qed.

End ExperienceFacts.

(** ** [find_education] *)

Module EducationFacts.

Lemma find_education_spec text : find_education text = spec_education text.
Proof.
  unfold find_education, spec_education, group_label.
  change (existsb (fun pattern => search false pattern (lower text)) ?ps)
    with (group_matches ps text).
  destruct (group_matches ug_patterns text),
    (group_matches masters_patterns text),
    (group_matches pg_patterns text); set_solver.
Qed.

Lemma elem_of_group_label patterns label text x :
  x ∈ group_label patterns label text
  <-> x = label /\ group_matches patterns text = true.
Proof.
  unfold group_label. destruct (group_matches patterns text).
  - rewrite elem_of_singleton. split; [now intros ->|now intros [-> _]].
  - rewrite elem_of_empty. split; [contradiction|now intros [_ H]].
Qed.

End EducationFacts.

(** ** [grade_resume_nlp] *)

Module GradeFacts.

Lemma grade_with_model text criteria req model thr :
  criteria !! "requirements_text" = Some req ->
  req <> "" ->
  grade_resume_nlp text criteria (Some model) thr
  = Grade (PyFloat.ge (model text req) thr) (PyFloat.round (model text req) 3).
Proof.
  intros Hc Hreq. unfold grade_resume_nlp. rewrite Hc.
  destruct (String.eqb_spec req ""); [contradiction|].
  destruct (PyFloat.ge (model text req) thr); reflexivity.
Qed.

Lemma grade_unavailable text criteria nlp_model thr :
  comparison_unavailable criteria nlp_model ->
  grade_resume_nlp text criteria nlp_model thr = Grade false PyFloat.zero.
Proof.
  unfold grade_resume_nlp.
  intros [Hm | [Hc | Hc]].
  - rewrite Hm. destruct (criteria !! "requirements_text"); reflexivity.
  - rewrite Hc. reflexivity.
  - rewrite Hc. destruct nlp_model; reflexivity.
Qed.

End GradeFacts.

(** ** The loop over the files *)

Module LoopFacts.
Import FloatFacts ExperienceFacts GradeFacts.

Lemma allowed_file_nonempty name :
  allowed_file name = true -> String.eqb name "" = false.
Proof. destruct name; [discriminate|reflexivity]. Qed.

Lemma loop_body_not_allowed w req thr fe minexp reqedu file st :
  allowed_file (filename file) = false ->
  loop_body w req thr fe minexp reqedu file st = Ok st.
Proof.
  intros H. unfold loop_body. rewrite H, andb_false_r. reflexivity.
Qed.

Lemma results_app_one_ne (l : list candidate) c : l <> l ++ [c].
Proof.
  intros H. apply (f_equal (@length _)) in H.
  rewrite length_app in H. simpl in H. lia.
Qed.

Lemma not_produces_of_skips st r : skips st r -> ~ produces_result st r.
Proof.
  intros (st1 & E1 & Hr & _) (st2 & c & E2 & Hc).
  rewrite E1 in E2. injection E2 as ->.
  rewrite Hr in Hc. exact (results_app_one_ne _ _ Hc).
Qed.

End LoopFacts.

(** ** The order of the floats and the sort *)

Module OrderFacts.
Import FloatFacts.

Lemma lex_Lt a b : lex a b = Lt <-> lex_lt a b.
Proof.
  destruct a as [[a1 a2] a3], b as [[b1 b2] b3]. simpl.
  destruct (Z.compare_spec a1 b1); [|split; [lia|reflexivity]
                                   |split; [discriminate|lia]].
  destruct (Z.compare_spec a2 b2); [|split; [lia|reflexivity]
                                   |split; [discriminate|lia]].
  rewrite Z.compare_lt_iff. lia.
Qed.

Lemma lex_Eq a b : lex a b = Eq <-> a = b.
Proof.
  destruct a as [[a1 a2] a3], b as [[b1 b2] b3]. simpl.
  destruct (Z.compare_spec a1 b1);
    [|split; [discriminate|intros [=]; lia]..].
  destruct (Z.compare_spec a2 b2);
    [|split; [discriminate|intros [=]; lia]..].
  rewrite Z.compare_eq_iff. split; [intros ->; subst; reflexivity|].
  now intros [=].
Qed.

Lemma SFcompare_rank x y :
  PyFloat.is_nan x = false -> PyFloat.is_nan y = false ->
  SFcompare x y = Some (lex (rank x) (rank y)).
Proof.
  destruct x as [sx|sx| |sx mx ex], y as [sy|sy| |sy my ey]; simpl;
    try discriminate; intros _ _;
    try (destruct sx; reflexivity); try (destruct sy; reflexivity);
    try (destruct sx, sy; reflexivity).
  destruct sx, sy; try reflexivity; cbn [rank lex].
  rewrite Z.compare_opp, (Z.compare_antisym ex ey).
  destruct (ex ?= ey); reflexivity.
Qed.

Lemma lt_rank x y :
  PyFloat.is_nan x = false -> PyFloat.is_nan y = false ->
  PyFloat.lt x y = true <-> lex_lt (rank x) (rank y).
Proof.
  intros Hx Hy. unfold PyFloat.lt, SFltb.
  rewrite (SFcompare_rank _ _ Hx Hy), <- lex_Lt.
  destruct (lex (rank x) (rank y)); split; intros H; try discriminate; reflexivity.
Qed.

Lemma eq_rank x y : PyFloat.eq x y = true -> rank x = rank y.
Proof.
  unfold PyFloat.eq, SFeqb. intros H.
  destruct (PyFloat.is_nan x) eqn:Hx; [destruct x; discriminate|].
  destruct (PyFloat.is_nan y) eqn:Hy; [destruct x, y; discriminate|].
  rewrite (SFcompare_rank _ _ Hx Hy) in H. apply lex_Eq.
  destruct (lex (rank x) (rank y)); [reflexivity|discriminate..].
Qed.

Lemma lex_lt_irrefl a : ~ lex_lt a a.
Proof. destruct a as [[a1 a2] a3]. simpl. lia. Qed.

Lemma lex_lt_asym a b : lex_lt a b -> ~ lex_lt b a.
Proof.
  destruct a as [[a1 a2] a3], b as [[b1 b2] b3]. simpl. lia.
Qed.

Lemma lex_le_trans a b c : ~ lex_lt b a -> ~ lex_lt c b -> ~ lex_lt c a.
Proof.
  destruct a as [[a1 a2] a3], b as [[b1 b2] b3], c as [[c1 c2] c3]. simpl. lia.
Qed.

Lemma lt_false_rank x y :
  PyFloat.is_nan x = false -> PyFloat.is_nan y = false ->
  PyFloat.lt x y = false <-> ~ lex_lt (rank x) (rank y).
Proof.
  intros Hx Hy. rewrite <- (lt_rank _ _ Hx Hy).
  destruct (PyFloat.lt x y); split; intros H; try discriminate; auto.
  now contradiction H.
Qed.

(** *** The insertion sort, for an order that is sound on the elements
    that satisfy [ok] *)

Section Sorting.
Context {A : Type} (lt : A -> A -> bool) (ok : A -> Prop).
Hypothesis lt_asym : forall a b, ok a -> ok b -> lt a b = true -> lt b a = false.
Hypothesis le_trans :
  forall a b c, ok a -> ok b -> ok c ->
                lt b a = false -> lt c b = false -> lt c a = false.

Lemma insert_perm x l : Permutation (insert lt x l) (x :: l).
Proof.
  induction l as [|y l IH]; simpl; [reflexivity|].
  destruct (lt y x); [|reflexivity].
  rewrite IH. apply perm_swap.
Qed.

Lemma sorted_perm l : Permutation (sorted lt l) l.
Proof.
  induction l as [|x l IH]; simpl; [reflexivity|].
  rewrite insert_perm. now constructor.
Qed.

Lemma insert_sorted x l :
  ok x -> List.Forall ok l ->
  StronglySorted (fun a b => lt b a = false) l ->
  StronglySorted (fun a b => lt b a = false) (insert lt x l).
Proof.
  intros Hx Hok Hs. induction Hs as [|y l Hs IH Hy]; simpl.
  - repeat constructor.
  - inversion Hok as [|? ? Hoky Hokl]; subst.
    destruct (lt y x) eqn:Hyx.
    + constructor; [now apply IH|].
      rewrite (insert_perm x l). constructor; [|exact Hy].
      now apply lt_asym.
    + constructor; [now constructor|].
      constructor; [exact Hyx|].
      rewrite List.Forall_forall in Hy, Hokl |- *.
      intros z Hz. apply (le_trans x y z); auto.
Qed.

Lemma sorted_sorted l :
  List.Forall ok l -> StronglySorted (fun a b => lt b a = false) (sorted lt l).
Proof.
  induction 1 as [|x l Hx Hl IH]; simpl; [constructor|].
  apply insert_sorted; auto. now rewrite sorted_perm.
Qed.

Lemma insert_filter (p : A -> bool) x l :
  (forall y, In y l -> p x = true -> p y = true -> lt y x = false) ->
  List.filter p (insert lt x l) = List.filter p (x :: l).
Proof.
  induction l as [|y l IH]; intros H; [reflexivity|].
  simpl insert. destruct (lt y x) eqn:Hyx; [|reflexivity].
  simpl. rewrite IH by (intros z Hz; apply H; now right).
  simpl. destruct (p x) eqn:Hpx, (p y) eqn:Hpy; try reflexivity.
  rewrite (H y) in Hyx; [discriminate|now left|reflexivity|exact Hpy].
Qed.

(** The sort is stable: the members of a class of elements that are
    pairwise not below each other keep their order. *)
Lemma sorted_filter (p : A -> bool) l :
  (forall a b, ok a -> ok b -> p a = true -> p b = true -> lt a b = false) ->
  List.Forall ok l ->
  List.filter p (sorted lt l) = List.filter p l.
Proof.
  intros Hp. induction 1 as [|x l Hx Hl IH]; [reflexivity|].
  simpl sorted. rewrite insert_filter.
  - simpl. now rewrite IH.
  - intros y Hy Hpx Hpy. apply Hp; auto.
    rewrite List.Forall_forall in Hl. apply Hl.
    apply (Permutation_in _ (sorted_perm l) Hy).
Qed.

End Sorting.

Lemma StronglySorted_snoc {A} (R : A -> A -> Prop) l x :
  StronglySorted R l -> List.Forall (fun y => R y x) l ->
  StronglySorted R (l ++ [x]).
Proof.
  induction 1 as [|y l Hs IH Hy]; intros Hx; simpl.
  - repeat constructor.
  - inversion Hx; subst. constructor; [now apply IH|].
    apply List.Forall_app. split; [exact Hy|now repeat constructor].
Qed.

Lemma StronglySorted_rev {A} (R : A -> A -> Prop) l :
  StronglySorted R l -> StronglySorted (fun a b => R b a) (rev l).
Proof.
  induction 1 as [|y l Hs IH Hy]; simpl; [constructor|].
  apply StronglySorted_snoc; [exact IH|].
  now apply List.Forall_rev.
Qed.

Lemma StronglySorted_on {A} (R R' : A -> A -> Prop) (ok : A -> Prop) l :
  (forall a b, ok a -> ok b -> R a b -> R' a b) ->
  List.Forall ok l -> StronglySorted R l -> StronglySorted R' l.
Proof.
  intros HR Hok Hs. induction Hs as [|y l Hs IH Hy]; [constructor|].
  inversion Hok as [|? ? Hoky Hokl]; subst.
  constructor; [now apply IH|].
  rewrite List.Forall_forall in Hy, Hokl |- *. intros z Hz. apply HR; auto.
Qed.

(** [sorted(results, key=score, reverse=True)] on scores that are numbers:
    a permutation, with the scores going down, equal scores in their
    order. *)
Lemma sorted_reverse_scores (l : list candidate) :
  List.Forall score_ok l ->
  Permutation l (sorted_reverse PyFloat.lt score l)
  /\ StronglySorted (fun a b => PyFloat.ge (score a) (score b) = true)
       (sorted_reverse PyFloat.lt score l)
  /\ forall v,
       List.filter (fun c => PyFloat.eq (score c) v) (sorted_reverse PyFloat.lt score l)
       = List.filter (fun c => PyFloat.eq (score c) v) l.
Proof.
  intros Hok. unfold sorted_reverse.
  set (lt' := fun a b : candidate => PyFloat.lt (score a) (score b)).
  assert (Hasym : forall a b, score_ok a -> score_ok b ->
                              lt' a b = true -> lt' b a = false).
  { intros a b Ha Hb H. apply (lt_false_rank _ _ Hb Ha).
    apply lex_lt_asym, (lt_rank _ _ Ha Hb), H. }
  assert (Htrans : forall a b c, score_ok a -> score_ok b -> score_ok c ->
                                 lt' b a = false -> lt' c b = false -> lt' c a = false).
  { intros a b c Ha Hb Hc H1 H2. apply (lt_false_rank _ _ Hc Ha).
    apply (lex_le_trans _ (rank (score b))).
    - apply (lt_false_rank _ _ Hb Ha), H1.
    - apply (lt_false_rank _ _ Hc Hb), H2. }
  assert (Hrev : List.Forall score_ok (rev l)) by now apply List.Forall_rev.
  split; [|split].
  - rewrite <- Permutation_rev, (sorted_perm lt' (rev l)), <- Permutation_rev.
    reflexivity.
  - apply (StronglySorted_on (fun a b => lt' a b = false) _ score_ok).
    + intros a b Ha Hb H. rewrite (ge_not_lt _ _ Ha Hb).
      unfold lt' in H. now rewrite H.
    + apply List.Forall_rev.
      now rewrite (sorted_perm lt' (rev l)).
    + apply (StronglySorted_rev (fun a b => lt' b a = false)).
      apply (sorted_sorted lt' score_ok Hasym Htrans), Hrev.
  - intros v. rewrite List.filter_rev.
    rewrite (sorted_filter lt' score_ok); [|..|exact Hrev].
    + now rewrite List.filter_rev, rev_involutive.
    + intros a b Ha Hb Hpa Hpb. apply (lt_false_rank _ _ Ha Hb).
      rewrite (eq_rank _ _ Hpa), (eq_rank _ _ Hpb). apply lex_lt_irrefl.
Qed.

Lemma ge_rank x y :
  PyFloat.is_nan x = false -> PyFloat.is_nan y = false ->
  PyFloat.ge x y = true <-> ~ lex_lt (rank x) (rank y).
Proof.
  intros Hx Hy. rewrite (ge_not_lt _ _ Hx Hy), <- (lt_false_rank _ _ Hx Hy).
  destruct (PyFloat.lt x y); split; intros H; try discriminate; reflexivity.
Qed.

Lemma ge_trans x y z :
  PyFloat.is_nan x = false -> PyFloat.is_nan y = false -> PyFloat.is_nan z = false ->
  PyFloat.ge x y = true -> PyFloat.ge y z = true -> PyFloat.ge x z = true.
Proof.
  intros Hx Hy Hz. rewrite !ge_rank by assumption.
  destruct (rank x) as [[x1 x2] x3], (rank y) as [[y1 y2] y3],
    (rank z) as [[z1 z2] z3]. simpl. lia.
Qed.

(** [max] returns an element of the list that no element exceeds. *)
Lemma py_max_upper l :
  forall x,
    List.Forall (fun y => PyFloat.is_nan y = false) (x :: l) ->
    In (py_max x l) (x :: l)
    /\ List.Forall (fun y => PyFloat.ge (py_max x l) y = true) (x :: l).
Proof.
  unfold py_max. induction l as [|y l IH]; intros x H.
  - inversion H; subst. simpl. split; [now left|].
    constructor; [now apply ge_refl|constructor].
  - inversion H as [|? ? Hx Hyl]; subst. inversion Hyl as [|? ? Hy Hl]; subst.
    simpl fold_left.
    set (b := if PyFloat.gt y x then y else x).
    assert (Hb : PyFloat.is_nan b = false)
      by (unfold b; destruct (PyFloat.gt y x); assumption).
    assert (Hbx : PyFloat.ge b x = true /\ PyFloat.ge b y = true).
    { unfold b, PyFloat.gt. destruct (SFltb x y) eqn:E.
      - split; [|now apply ge_refl].
        apply (ge_rank _ _ Hy Hx), lex_lt_asym, (lt_rank _ _ Hx Hy), E.
      - split; [now apply ge_refl|].
        apply (ge_rank _ _ Hx Hy), (lt_false_rank _ _ Hx Hy), E. }
    assert (Hok : List.Forall (fun y => PyFloat.is_nan y = false) (b :: l))
      by now constructor.
    destruct (IH b Hok) as [Hin Hall].
    set (r := fold_left _ l b) in *.
    assert (Hr : PyFloat.is_nan r = false).
    { rewrite List.Forall_forall in Hok. now apply Hok. }
    inversion Hall as [|? ? Hrb Hrl]; subst. split.
    + destruct Hin as [<-|Hin]; [|now right; right].
      unfold b. destruct (PyFloat.gt y x); [right; now left|now left].
    + constructor; [apply (ge_trans r b x); tauto|].
      constructor; [apply (ge_trans r b y); tauto|exact Hrl].
Qed.

Lemma max_or_zero_upper l :
  List.Forall (has_sign false) l ->
  List.Forall (fun y => PyFloat.ge (max_or_zero l) y = true) l
  /\ (l <> [] -> In (max_or_zero l) l).
Proof.
  intros H. destruct l as [|x l]; [split; [constructor|congruence]|].
  assert (Hn : List.Forall (fun y => PyFloat.is_nan y = false) (x :: l)).
  { eapply List.Forall_impl; [|exact H]. intros y. apply has_sign_not_nan. }
  destruct (py_max_upper l x Hn) as [Hin Hall].
  split; [exact Hall|intros _; exact Hin].
Qed.

End OrderFacts.

(** ** Runs of the loop *)

Module RunFacts.
Import FloatFacts.

Lemma round_not_nan x nd :
  PyFloat.is_nan x = false -> PyFloat.is_nan (PyFloat.round x nd) = false.
Proof.
  destruct x as [s|s| |s m e]; simpl; auto. intros _.
  apply (has_sign_not_nan s), of_ratio_sign.
Qed.

Lemma grade_passed text criteria nlp_model thr :
  passed (grade_resume_nlp text criteria nlp_model thr) = true ->
  exists s,
    PyFloat.ge s thr = true
    /\ similarity_score (grade_resume_nlp text criteria nlp_model thr)
       = PyFloat.round s 3.
Proof.
  unfold grade_resume_nlp.
  destruct (criteria !! "requirements_text") as [req|]; [|discriminate].
  destruct nlp_model as [model|]; [|discriminate].
  destruct (String.eqb req ""); [discriminate|].
  destruct (PyFloat.ge (model text req) thr) eqn:E; [|discriminate].
  intros _. exists (model text req). split; [exact E|reflexivity].
Qed.

(** What a step that ends normally did: nothing to [results], or one new
    entry with the next name and, if its copy failed, one flash. *)
Lemma loop_body_cases w req thr fe minexp reqedu file st st' :
  loop_body w req thr fe minexp reqedu file st = Ok st' ->
  (results st' = results st
   /\ match_counter st' = match_counter st
   /\ flashes (loop_fx st') = flashes (loop_fx st))
  \/ exists c,
       results st' = results st ++ [c]
       /\ match_counter st' = S (match_counter st)
       /\ flashes (loop_fx st')
          = flashes (loop_fx st) ++ copy_report (copy_error w) c
       /\ original_filename c = secure_filename (filename file)
       /\ score_ok c
       /\ exists ext,
            item (rsplit1 "." (original_filename c)) 1 = Ok ext
            /\ new_filename c
               = format_new_filename (S (match_counter st)) (score c) ext.
Proof.
  unfold loop_body.
  destruct (negb (String.eqb (filename file) "") && allowed_file (filename file));
    [|intros [= <-]; left; auto].
  set (name := secure_filename (filename file)).
  destruct (extract_text_from_file w _ name name) as [text|e]; [|discriminate].
  simpl bind.
  destruct (String.eqb text ""); [intros [= <-]; left; auto|].
  destruct (find_experience text) as [x|e]; [|discriminate]. simpl bind.
  destruct (fe && PyFloat.lt x minexp); [intros [= <-]; left; auto|].
  destruct (fe && negb (bool_decide (reqedu ⊆ find_education text)));
    [intros [= <-]; left; auto|].
  destruct (passed _) eqn:Hp; [|intros [= <-]; left; auto].
  destruct (grade_passed _ _ _ _ Hp) as (s & Hs & Hscore).
  destruct (item (rsplit1 "." name) 1) as [ext|e] eqn:Hext; [|discriminate].
  simpl bind. intros [= <-]. right. eexists. simpl.
  split; [reflexivity|]. split; [reflexivity|].
  split; [|split; [reflexivity|split]].
  - unfold shutil_copy, copy_report. simpl.
    destruct (copy_error w name _) as [msg|]; simpl; [reflexivity|].
    rewrite lookup_insert_eq. simpl. now rewrite app_nil_r.
  - unfold score_ok. simpl. rewrite Hscore.
    apply round_not_nan, (ge_true_not_nan _ _ Hs).
  - exists ext. split; [exact Hext|reflexivity].
Qed.

Lemma named_from_cons base c l ext :
  item (rsplit1 "." (original_filename c)) 1 = Ok ext ->
  new_filename c = format_new_filename (S base) (score c) ext ->
  named_from (S base) l ->
  named_from base (c :: l).
Proof.
  intros Hext Hname Hl [|n] c' Hn; simpl in Hn.
  - injection Hn as <-. exists ext. rewrite Nat.add_0_r. auto.
  - destruct (Hl n c' Hn) as (ext' & H1 & H2).
    exists ext'. split; [exact H1|].
    rewrite H2. f_equal. lia.
Qed.

(** What a run of the loop that ends normally did. *)
Lemma loop_run w req thr fe minexp reqedu files :
  forall st st',
    loop w req thr fe minexp reqedu files st = Ok st' ->
    exists new,
      results st' = results st ++ new
      /\ flashes (loop_fx st')
         = flashes (loop_fx st) ++ flat_map (copy_report (copy_error w)) new
      /\ List.Forall score_ok new
      /\ named_from (match_counter st) new
      /\ sublist (map original_filename new)
           (map (fun file => secure_filename (filename file)) files).
Proof.
  induction files as [|file files IH]; simpl; intros st st' H.
  - injection H as <-. exists []. rewrite !app_nil_r.
    repeat split; [constructor| |constructor].
    intros n c Hn. destruct n; discriminate.
  - destruct (loop_body w req thr fe minexp reqedu file st) as [st1|e] eqn:Hb;
      [|discriminate].
    simpl in H. destruct (IH _ _ H) as (new & Hr & Hf & Hok & Hn & Hsub).
    destruct (loop_body_cases _ _ _ _ _ _ _ _ _ Hb)
      as [(Hr1 & Hc1 & Hf1) | (c & Hr1 & Hc1 & Hf1 & Ho & Hcok & ext & Hext & Hname)].
    + exists new. rewrite Hr, Hr1, Hf, Hf1. rewrite Hc1 in Hn.
      repeat split; auto. now apply sublist_cons.
    + exists (c :: new). rewrite Hr, Hr1, Hf, Hf1, <- !List.app_assoc.
      rewrite Hc1 in Hn. simpl.
      split; [reflexivity|]. split; [reflexivity|].
      split; [now constructor|]. split.
      * eapply named_from_cons; eauto.
      * rewrite Ho. now apply sublist_skip.
Qed.

(** A request that renders results ran the loop over its files. *)
Lemma index_render_some w req fx rs fx' :
  index w req fx = Ok (Render (Some rs), fx') ->
  exists rt thr fe minexp reqedu st,
    loop w rt thr fe minexp reqedu (getlist (files req) "resumes")
      (LoopState [] 0 fx) = Ok st
    /\ rs = sorted_reverse PyFloat.lt score (results st)
    /\ fx' = loop_fx st.
Proof.
  unfold index.
  destruct (NLP_MODEL w); [|discriminate].
  destruct (method req); [discriminate|].
  destruct (files req !! "resumes"); [|discriminate].
  destruct (match get (form req) "threshold" with
            | Some s => py_float s
            | None => Ok (PyFloat.of_ratio false 6 10)
            end) as [thr|e]; [|discriminate].
  simpl bind.
  destruct (match getlist (files req) "resumes" with
            | [] => true
            | file :: _ => String.eqb (filename file) ""
            end); [discriminate|].
  destruct (String.eqb _ ""); [discriminate|].
  match goal with
  | |- context [match ?m with Ok _ => _ | Raise _ => _ end] =>
      destruct m as [minexp|e]; [|discriminate]
  end.
  match goal with
  | |- context [bind ?l _] => destruct l as [st|e] eqn:Hl; [|discriminate]
  end.
  simpl bind. intros [= <- <-]. eauto 10.
Qed.

(** The accepted documents of a run that renders results, in the order
    of their submission. *)
Lemma index_accepted w req fx rs fx' :
  index w req fx = Ok (Render (Some rs), fx') ->
  exists accepted,
    rs = sorted_reverse PyFloat.lt score accepted
    /\ flashes fx' = flashes fx ++ flat_map (copy_report (copy_error w)) accepted
    /\ List.Forall score_ok accepted
    /\ named_in_order accepted
    /\ sublist (map original_filename accepted)
         (map (fun file => secure_filename (filename file))
            (getlist (files req) "resumes")).
Proof.
  intros H.
  destruct (index_render_some _ _ _ _ _ H)
    as (rt & thr & fe & minexp & reqedu & st & Hl & -> & ->).
  destruct (loop_run _ _ _ _ _ _ _ _ _ Hl) as (new & Hr & Hf & Hok & Hn & Hsub).
  simpl in Hr, Hf, Hn. exists new. rewrite Hr. auto 10.
Qed.

End RunFacts.

(** ** The copy does not steer the run *)

Module CopyFacts.

Lemma extract_text_same m p d c1 c2 l1 l2 fx1 fx2 path name :
  upload_folder fx1 = upload_folder fx2 ->
  extract_text_from_file (World m p d c1 l1) fx1 path name
  = extract_text_from_file (World m p d c2 l2) fx2 path name.
Proof.
  intros H.
  unfold extract_text_from_file, extract_text_from_pdf, extract_text_from_docx.
  simpl. rewrite H. reflexivity.
Qed.

Lemma upload_folder_after_copy w src dst fx (report : string -> string) :
  upload_folder
    match shutil_copy w src dst fx with
    | (None, fx') => fx'
    | (Some e, fx') => flash (report e) "error" fx'
    end
  = upload_folder fx.
Proof.
  unfold shutil_copy.
  destruct (copy_error w src dst); [reflexivity|].
  destruct (upload_folder fx !! src); reflexivity.
Qed.

Lemma loop_body_same m p d c1 c2 l1 l2 req thr fe minexp reqedu file st1 st2 :
  same_progress st1 st2 ->
  same_outcome
    (loop_body (World m p d c1 l1) req thr fe minexp reqedu file st1)
    (loop_body (World m p d c2 l2) req thr fe minexp reqedu file st2).
Proof.
  intros (Hr & Hc & Hu). unfold loop_body.
  destruct (negb (String.eqb (filename file) "") && allowed_file (filename file));
    [|repeat split; assumption].
  set (name := secure_filename (filename file)).
  assert (Hsave : upload_folder (save file name (loop_fx st1))
                  = upload_folder (save file name (loop_fx st2))).
  { simpl. now rewrite Hu. }
  rewrite (extract_text_same m p d c1 c2 l1 l2 _ _ name name Hsave).
  assert (Hskip : same_outcome
                    (Ok (LoopState (results st1) (match_counter st1)
                           (save file name (loop_fx st1))))
                    (Ok (LoopState (results st2) (match_counter st2)
                           (save file name (loop_fx st2))))).
  { repeat split; assumption. }
  destruct (extract_text_from_file _ _ name name) as [text|e]; [|reflexivity].
  simpl bind.
  destruct (String.eqb text ""); [exact Hskip|].
  destruct (find_experience text) as [x|e]; [|reflexivity]. simpl bind.
  destruct (fe && PyFloat.lt x minexp); [exact Hskip|].
  destruct (fe && negb (bool_decide (reqedu ⊆ find_education text)));
    [exact Hskip|].
  simpl NLP_MODEL.
  destruct (passed _); [|exact Hskip].
  destruct (item (rsplit1 "." name) 1) as [ext|e]; [|reflexivity].
  simpl bind. rewrite Hr, Hc. simpl.
  split; [reflexivity|]. split; [reflexivity|]. simpl.
  now rewrite !upload_folder_after_copy.
Qed.

Lemma loop_same m p d c1 c2 l1 l2 req thr fe minexp reqedu files :
  forall st1 st2,
    same_progress st1 st2 ->
    same_outcome
      (loop (World m p d c1 l1) req thr fe minexp reqedu files st1)
      (loop (World m p d c2 l2) req thr fe minexp reqedu files st2).
Proof.
  induction files as [|file files IH]; simpl; intros st1 st2 H; [exact H|].
  pose proof (loop_body_same m p d c1 c2 l1 l2 req thr fe minexp reqedu file _ _ H) as Hb.
  destruct (loop_body (World m p d c1 l1) req thr fe minexp reqedu file st1),
    (loop_body (World m p d c2 l2) req thr fe minexp reqedu file st2);
    simpl in *; try contradiction; auto.
Qed.

Lemma index_same m p d c1 c2 l1 l2 req fx :
  response_of (index (World m p d c1 l1) req fx)
  = response_of (index (World m p d c2 l2) req fx).
Proof.
  unfold index. simpl NLP_MODEL.
  destruct m as [model|]; [|reflexivity].
  destruct (method req); [reflexivity|].
  destruct (files req !! "resumes"); [|reflexivity].
  destruct (match get (form req) "threshold" with
            | Some s => py_float s
            | None => Ok (PyFloat.of_ratio false 6 10)
            end) as [thr|e]; [|reflexivity].
  simpl bind.
  destruct (match getlist (files req) "resumes" with
            | [] => true
            | file :: _ => String.eqb (filename file) ""
            end); [reflexivity|].
  destruct (String.eqb _ ""); [reflexivity|].
  match goal with
  | |- context [match ?x with Ok _ => _ | Raise _ => _ end] =>
      destruct x as [minexp|e]; [|reflexivity]
  end.
  match goal with
  | |- context [loop _ ?rt ?thr ?fe ?mn ?re ?fs ?st] =>
      pose proof (loop_same (Some model) p d c1 c2 l1 l2 rt thr fe mn re fs st st
                    (conj eq_refl (conj eq_refl eq_refl))) as Hl;
      destruct (loop (World (Some model) p d c1 l1) rt thr fe mn re fs st) as [st1|e1],
        (loop (World (Some model) p d c2 l2) rt thr fe mn re fs st) as [st2|e2];
      simpl in Hl; try contradiction
  end.
  - destruct Hl as (Hr & _). simpl. now rewrite Hr.
  - simpl. now rewrite Hl.
Qed.

End CopyFacts.

(** ** Requests that are turned away *)

Module RefusalFacts.

Lemma refused_redirect w req fx message :
  refused w req fx (Ok (Redirect, flash message "error" fx)).
Proof.
  split.
  - eexists _, _. split; [reflexivity|]. split; [left; reflexivity|].
    split; reflexivity.
  - intros _ _. exists message. reflexivity.
Qed.

Lemma refused_no_results w req fx fx' :
  (NLP_MODEL w = None \/ method req = GET) ->
  upload_folder fx' = upload_folder fx ->
  match_folder fx' = match_folder fx ->
  refused w req fx (Ok (Render None, fx')).
Proof.
  intros H Hu Hm. split.
  - eexists _, _. split; [reflexivity|]. split; [right; reflexivity|].
    split; assumption.
  - intros Hw Hp. destruct H as [H|H]; [contradiction|].
    rewrite H in Hp. discriminate.
Qed.

Lemma get_with_experience s req key :
  key <> "experience" ->
  get (form (with_experience s req)) key = get (form req) key.
Proof.
  intros H. unfold get, with_experience. simpl.
  rewrite lookup_insert_ne by congruence. reflexivity.
Qed.

Lemma getlist_with_experience s req key :
  key <> "experience" ->
  getlist (form (with_experience s req)) key = getlist (form req) key.
Proof.
  intros H. unfold getlist, with_experience. simpl.
  rewrite lookup_insert_ne by congruence. reflexivity.
Qed.

Lemma get_experience s req :
  get (form (with_experience s req)) "experience" = Some s.
Proof. unfold get, with_experience. simpl. now rewrite lookup_insert_eq. Qed.

(** The handler reads the experience field only to parse the minimum, and
    only with the filters on. *)
Lemma index_reads_experience w req s fx :
  (bool_decide (get (form req) "criteria_toggle" = Some "on") = true ->
   (if String.eqb s "" then Ok PyFloat.zero else py_float s)
   = (if String.eqb (default "0" (get (form req) "experience")) ""
      then Ok PyFloat.zero
      else py_float (default "0" (get (form req) "experience")))) ->
  index w (with_experience s req) fx = index w req fx.
Proof.
  intros H. unfold index.
  rewrite get_experience.
  rewrite !get_with_experience by discriminate.
  rewrite getlist_with_experience by discriminate.
  change (method (with_experience s req)) with (method req).
  change (files (with_experience s req)) with (files req).
  destruct (NLP_MODEL w); [|reflexivity].
  destruct (method req); [reflexivity|].
  destruct (files req !! "resumes"); [|reflexivity].
  destruct (match get (form req) "threshold" with
            | Some t => py_float t
            | None => Ok (PyFloat.of_ratio false 6 10)
            end); [|reflexivity].
  simpl bind. cbv zeta.
  destruct (match getlist (files req) "resumes" with
            | [] => true
            | file :: _ => String.eqb (filename file) ""
            end); [reflexivity|].
  destruct (String.eqb (strip (default "" (get (form req) "requirements"))) "");
    [reflexivity|].
  simpl default.
  destruct (bool_decide (get (form req) "criteria_toggle" = Some "on"));
    [|reflexivity].
  now rewrite (H eq_refl).
Qed.

End RefusalFacts.

(** * The matching pipeline *)

(** C1, the claim as stated fails: with the filters on and the experience
    field "nan", which [float] reads as NaN, the minimum is NaN and the
    senior resume of the examples gets its entry although its experience
    is not at least the minimum; the run returns both documents. *)
Lemma nan_minimum_keeps_every_document :
  let st := LoopState [] 0 no_effects in
  let text := "5 years, B.Tech degree" in
  let r :=
    loop_body example_world "python developer" (PyFloat.of_ratio false 6 10)
      true PyFloat.nan ∅ senior_upload st in
  py_float "nan" = Ok PyFloat.nan
  /\ min_experience_of nan_experience_request = Ok PyFloat.nan
  /\ produces_result st r
  /\ PyFloat.ge (spec_experience text) PyFloat.nan = false
  /\ ~ (filters_pass true PyFloat.nan ∅ (spec_experience text) (find_education text)
        /\ PyFloat.ge (example_model text "python developer")
             (PyFloat.of_ratio false 6 10) = true)
  /\ length (results_of (index example_world nan_experience_request no_effects))
     = 2%nat.
Proof.
  intros st text r.
  split; [vm_compute; reflexivity|].
  split; [vm_compute; reflexivity|].
  split.
  { subst r st. unfold produces_result.
    match goal with
    | |- exists st' c, ?run = _ /\ _ =>
        let v := eval vm_compute in run in
        match v with
        | Ok ?st1 => exists st1; change run with v
        end
    end.
    eexists. split; reflexivity. }
  split; [vm_compute; reflexivity|].
  split; [|vm_compute; reflexivity].
  intros [H _]. destruct (H eq_refl) as [H1 _].
  vm_compute in H1. discriminate H1.
Qed.

(** C1, amended. A document with an allowed file name whose extracted text
    is not empty gets an entry in [results] if and only if the filters,
    when enabled, find its experience not below [min_experience] and
    [required_education] included in its education levels, and its
    similarity to the requirements text is at least the threshold. Not
    below the minimum is at least the minimum when the minimum is a
    number; when it is NaN no experience is below it and only the
    education filter is left. The step never raises, and a score equal to
    the threshold is accepted. *)
Theorem result_iff_filters_and_threshold
    w req thr fe minexp reqedu file st model text :
  NLP_MODEL w = Some model ->
  req <> "" ->
  allowed_file (filename file) = true ->
  extract_text_from_file w
    (save file (secure_filename (filename file)) (loop_fx st))
    (secure_filename (filename file)) (secure_filename (filename file))
  = Ok text ->
  text <> "" ->
  let r := loop_body w req thr fe minexp reqedu file st in
  find_experience text = Ok (spec_experience text)
  /\ (produces_result st r
      <-> filters_keep fe minexp reqedu (spec_experience text) (find_education text)
          /\ PyFloat.ge (model text req) thr = true)
  /\ (PyFloat.is_nan minexp = false ->
      (filters_keep fe minexp reqedu (spec_experience text) (find_education text)
       <-> filters_pass fe minexp reqedu (spec_experience text)
             (find_education text)))
  /\ (PyFloat.is_nan minexp = true ->
      (filters_keep fe minexp reqedu (spec_experience text) (find_education text)
       <-> (fe = true -> reqedu ⊆ find_education text)))
  /\ (produces_result st r \/ skips st r)
  /\ (model text req = thr -> PyFloat.is_nan thr = false ->
      filters_keep fe minexp reqedu (spec_experience text) (find_education text) ->
      produces_result st r).
Proof.
  intros Hmodel Hreq Hallowed Hext Htext r.
  pose proof (ExperienceFacts.find_experience_spec text) as Hexp.
  destruct (ExperienceFacts.find_experience_sign text) as (x & Hx & Hsign).
  rewrite Hexp in Hx. injection Hx as <-.
  apply FloatFacts.has_sign_not_nan in Hsign.
  assert (Hitem : exists ext,
             item (rsplit1 "." (secure_filename (filename file))) 1 = Ok ext).
  { unfold extract_text_from_file in Hext.
    destruct (item (rsplit1 "." (secure_filename (filename file))) 1) as [ext|e];
      [eauto|discriminate]. }
  destruct Hitem as (ext & Hitem).
  assert (Hgrade :
            grade_resume_nlp text {[ "requirements_text" := req ]} (NLP_MODEL w) thr
            = Grade (PyFloat.ge (model text req) thr)
                (PyFloat.round (model text req) 3)).
  { rewrite Hmodel. apply GradeFacts.grade_with_model;
      [apply lookup_singleton_eq|exact Hreq]. }
  assert (Htext' : String.eqb text "" = false).
  { destruct (String.eqb_spec text ""); [contradiction|reflexivity]. }
  assert (Hr : r = loop_body w req thr fe minexp reqedu file st) by reflexivity.
  unfold loop_body in Hr.
  rewrite (LoopFacts.allowed_file_nonempty _ Hallowed), Hallowed in Hr.
  simpl negb in Hr. simpl andb in Hr. cbv iota in Hr.
  rewrite Hext in Hr. simpl bind in Hr. rewrite Htext', Hexp in Hr.
  simpl bind in Hr. rewrite Hgrade, Hitem in Hr. simpl in Hr.
  clearbody r.
  assert (Hskip : forall fx, skips st (Ok (LoopState (results st) (match_counter st) fx))).
  { intros fx. eexists. repeat split. }
  assert (Hprod : forall c n fx,
             produces_result st (Ok (LoopState (results st ++ [c]) n fx))).
  { intros c n fx. eexists _, c. split; reflexivity. }
  assert (Hcore :
            (produces_result st r
             <-> filters_keep fe minexp reqedu (spec_experience text)
                   (find_education text)
                 /\ PyFloat.ge (model text req) thr = true)
            /\ (produces_result st r \/ skips st r)).
  { unfold filters_keep. destruct fe; simpl in Hr.
    - destruct (PyFloat.lt (spec_experience text) minexp) eqn:Hlt.
      { subst r. split; [|right; apply Hskip].
        split; [intros H; exfalso; eapply LoopFacts.not_produces_of_skips; eauto|].
        intros [H _]. destruct (H eq_refl) as [H1 _]. discriminate H1. }
      destruct (decide (reqedu ⊆ find_education text)) as [Hsub|Hsub].
      + rewrite (bool_decide_eq_true_2 _ Hsub) in Hr. simpl in Hr.
        destruct (PyFloat.ge (model text req) thr) eqn:Hscore; simpl in Hr; subst r.
        * split; [|left; apply Hprod].
          split; [intros _; split; [intros _; split; [reflexivity|assumption]
                                   |reflexivity]|].
          intros _. apply Hprod.
        * split; [|right; apply Hskip].
          split; [intros H; exfalso; eapply LoopFacts.not_produces_of_skips; eauto|].
          intros [_ H]. discriminate H.
      + rewrite (bool_decide_eq_false_2 _ Hsub) in Hr. simpl in Hr. subst r.
        split; [|right; apply Hskip].
        split; [intros H; exfalso; eapply LoopFacts.not_produces_of_skips; eauto|].
        intros [H _]. destruct (H eq_refl) as [_ H2]. contradiction.
    - destruct (PyFloat.ge (model text req) thr) eqn:Hscore; simpl in Hr; subst r.
      + split; [|left; apply Hprod].
        split; [intros _; split; [discriminate|reflexivity]|].
        intros _. apply Hprod.
      + split; [|right; apply Hskip].
        split; [intros H; exfalso; eapply LoopFacts.not_produces_of_skips; eauto|].
        intros [_ H]. discriminate H. }
  destruct Hcore as [Hiff Htotal].
  split; [exact Hexp|]. split; [exact Hiff|]. split; [|split; [|split]].
  - intros Hmin. unfold filters_keep, filters_pass.
    rewrite (FloatFacts.ge_not_lt _ _ Hsign Hmin).
    destruct (PyFloat.lt (spec_experience text) minexp); simpl;
      split; intros H Hfe; destruct (H Hfe) as [H1 H2];
      solve [discriminate H1 | split; [reflexivity|exact H2]].
  - intros Hmin. unfold filters_keep.
    destruct minexp; try discriminate Hmin.
    assert (Hlt : PyFloat.lt (spec_experience text) S754_nan = false)
      by (destruct (spec_experience text); reflexivity).
    rewrite Hlt. split; [intros H Hfe; exact (proj2 (H Hfe))|].
    intros H Hfe. split; [reflexivity|exact (H Hfe)].
  - exact Htotal.
  - intros E Hn Hk. apply Hiff. split; [exact Hk|].
    rewrite E. apply (FloatFacts.ge_refl _ Hn).
Qed.

(** The senior resume of the examples under the filters: two years and UG
    required, threshold 0.6. *)
Lemma result_iff_filters_and_threshold_witness :
  let st := LoopState [] 0 no_effects in
  let text := "5 years, B.Tech degree" in
  let r :=
    loop_body example_world "python developer" (PyFloat.of_ratio false 6 10)
      true (PyFloat.of_Z 2) {[ "UG" ]} senior_upload st in
  find_experience text = Ok (spec_experience text)
  /\ (produces_result st r
      <-> filters_keep true (PyFloat.of_Z 2) {[ "UG" ]}
            (spec_experience text) (find_education text)
          /\ PyFloat.ge (example_model text "python developer")
               (PyFloat.of_ratio false 6 10) = true)
  /\ (PyFloat.is_nan (PyFloat.of_Z 2) = false ->
      (filters_keep true (PyFloat.of_Z 2) {[ "UG" ]}
         (spec_experience text) (find_education text)
       <-> filters_pass true (PyFloat.of_Z 2) {[ "UG" ]}
             (spec_experience text) (find_education text)))
  /\ (PyFloat.is_nan (PyFloat.of_Z 2) = true ->
      (filters_keep true (PyFloat.of_Z 2) {[ "UG" ]}
         (spec_experience text) (find_education text)
       <-> (true = true -> ({[ "UG" ]} : gset string) ⊆ find_education text)))
  /\ (produces_result st r \/ skips st r)
  /\ (example_model text "python developer" = PyFloat.of_ratio false 6 10 ->
      PyFloat.is_nan (PyFloat.of_ratio false 6 10) = false ->
      filters_keep true (PyFloat.of_Z 2) {[ "UG" ]}
        (spec_experience text) (find_education text) ->
      produces_result st r).
Proof.
  apply (result_iff_filters_and_threshold example_world "python developer"
           (PyFloat.of_ratio false 6 10) true (PyFloat.of_Z 2) {[ "UG" ]}
           senior_upload (LoopState [] 0 no_effects) example_model
           "5 years, B.Tech degree").
  - reflexivity.
  - discriminate.
  - vm_compute. reflexivity.
  - vm_compute. reflexivity.
  - discriminate.
Defined.

(** C2. For every text, [find_experience] returns [round(Y + M/12, 1)] with
    [Y] the largest number the years pattern matches and [M] the largest
    number the months pattern matches, each 0 when there is no match; so
    "3 years 6 months" gives 3.5, "no experience mentioned" gives 0, and
    "2+ years, 5 years" gives 5.0, the largest mention and not the sum. *)
Theorem find_experience_max_years_months :
  (forall text, find_experience text = Ok (spec_experience text))
  /\ (forall text pattern,
        pattern = year_pattern \/ pattern = month_pattern ->
        let numbers := map matched_number (findall true pattern text) in
        List.Forall (fun y => PyFloat.ge (max_or_zero numbers) y = true) numbers
        /\ (numbers <> [] -> In (max_or_zero numbers) numbers))
  /\ find_experience "3 years 6 months" = Ok (PyFloat.of_ratio false 35 10)
  /\ find_experience "no experience mentioned" = Ok PyFloat.zero
  /\ find_experience "2+ years, 5 years" = Ok (PyFloat.of_Z 5).
Proof.
  split; [exact ExperienceFacts.find_experience_spec|].
  split.
  { intros text pattern [-> | ->] numbers; apply OrderFacts.max_or_zero_upper.
    - apply (NumeralFacts.mapM_py_float _
               (ExperienceFacts.year_matches_numerals text)).
    - apply (NumeralFacts.mapM_py_float _
               (ExperienceFacts.month_matches_numerals text)). }
  repeat split; vm_compute; reflexivity.
Qed.

(** In "2+ years, 5 years" the years pattern matches 2 and 5, and the
    largest of them, 5, is one of the two and at least each. *)
Lemma find_experience_max_years_months_witness :
  let numbers :=
    map matched_number (findall true year_pattern "2+ years, 5 years") in
  List.Forall (fun y => PyFloat.ge (max_or_zero numbers) y = true) numbers
  /\ In (max_or_zero numbers) numbers.
Proof.
  destruct (proj1 (proj2 find_experience_max_years_months)
              "2+ years, 5 years" year_pattern (or_introl eq_refl))
    as [Hall Hin].
  split; [exact Hall|].
  apply Hin. vm_compute. discriminate.
Defined.

(** C3. For every text, [find_education] returns the union of the labels of
    the three pattern groups, each group giving its label exactly when one
    of its patterns matches somewhere in the lowercased text, whatever the
    other groups do; a text with "B.Tech" and "PhD" gives exactly UG and
    PG, and one text can show all three. *)
Theorem find_education_union_of_groups :
  (forall text, find_education text = spec_education text)
  /\ (forall text label,
        label ∈ find_education text
        <-> (label = "UG" /\ group_matches ug_patterns text = true)
            \/ (label = "Masters" /\ group_matches masters_patterns text = true)
            \/ (label = "PG" /\ group_matches pg_patterns text = true))
  /\ find_education "B.Tech and PhD" = {[ "UG"; "PG" ]}
  /\ find_education "B.Tech, M.Tech, PhD" = {[ "UG"; "Masters"; "PG" ]}.
Proof.
  split; [exact EducationFacts.find_education_spec|].
  split.
  { intros text label. rewrite EducationFacts.find_education_spec.
    unfold spec_education.
    rewrite !elem_of_union, !EducationFacts.elem_of_group_label. tauto. }
  split.
  - rewrite EducationFacts.find_education_spec.
    unfold spec_education, group_label.
    replace (group_matches ug_patterns "B.Tech and PhD") with true
      by (vm_compute; reflexivity).
    replace (group_matches masters_patterns "B.Tech and PhD") with false
      by (vm_compute; reflexivity).
    replace (group_matches pg_patterns "B.Tech and PhD") with true
      by (vm_compute; reflexivity).
    set_solver.
  - rewrite EducationFacts.find_education_spec.
    unfold spec_education, group_label.
    replace (group_matches ug_patterns "B.Tech, M.Tech, PhD") with true
      by (vm_compute; reflexivity).
    replace (group_matches masters_patterns "B.Tech, M.Tech, PhD") with true
      by (vm_compute; reflexivity).
    replace (group_matches pg_patterns "B.Tech, M.Tech, PhD") with true
      by (vm_compute; reflexivity).
    set_solver.
Qed.

(** C4, the claim as stated fails: with the requirements "job" and the
    threshold 0.6, the grade of a resume when no model is loaded is the
    very grade it gets from a model that finds the similarity 0. *)
Lemma grade_unavailable_same_as_dissimilar :
  grade_resume_nlp "cv" {[ "requirements_text" := "job" ]} None
    (PyFloat.of_ratio false 6 10)
  = grade_resume_nlp "cv" {[ "requirements_text" := "job" ]}
      (Some (fun _ _ => PyFloat.zero)) (PyFloat.of_ratio false 6 10).
Proof. vm_compute. reflexivity. Qed.

(** C4, amended. When the model is unavailable or the requirements text is
    missing or empty, [grade_resume_nlp] raises nothing and returns the
    score 0.0 with [passed] false; a model that finds the similarity 0,
    below the threshold, yields the same grade, so the grade has no side
    channel that tells the two apart. *)
Theorem grade_unavailable_is_plain_zero text criteria nlp_model thr model req :
  comparison_unavailable criteria nlp_model ->
  req <> "" ->
  model text req = PyFloat.zero ->
  PyFloat.ge PyFloat.zero thr = false ->
  grade_resume_nlp text criteria nlp_model thr = Grade false PyFloat.zero
  /\ grade_resume_nlp text {[ "requirements_text" := req ]} (Some model) thr
     = grade_resume_nlp text criteria nlp_model thr.
Proof.
  intros Hu Hreq Hm Hthr.
  rewrite (GradeFacts.grade_unavailable _ _ _ _ Hu).
  split; [reflexivity|].
  rewrite (GradeFacts.grade_with_model text _ req model thr);
    [|apply lookup_singleton_eq|exact Hreq].
  rewrite Hm, Hthr. reflexivity.
Qed.

Lemma grade_unavailable_is_plain_zero_witness :
  grade_resume_nlp "cv" ∅ None (PyFloat.of_ratio false 6 10)
  = Grade false PyFloat.zero
  /\ grade_resume_nlp "cv" {[ "requirements_text" := "job" ]}
       (Some (fun _ _ => PyFloat.zero)) (PyFloat.of_ratio false 6 10)
     = grade_resume_nlp "cv" ∅ None (PyFloat.of_ratio false 6 10).
Proof.
  apply (grade_unavailable_is_plain_zero "cv" ∅ None
           (PyFloat.of_ratio false 6 10) (fun _ _ => PyFloat.zero) "job").
  - left. reflexivity.
  - discriminate.
  - reflexivity.
  - vm_compute. reflexivity.
Defined.

(** C5. In a run that renders results, the n-th accepted document in
    submission order is named by the counter [n] on six digits, an
    underscore, its recorded score with two decimals, a dot and the
    extension of its file name; the names follow the submission order,
    whatever the order of the ranked list, which is a rearrangement of the
    accepted documents. *)
Theorem names_follow_submission_order w req fx rs fx' :
  index w req fx = Ok (Render (Some rs), fx') ->
  exists accepted,
    named_in_order accepted
    /\ sublist (map original_filename accepted)
         (map (fun file => secure_filename (filename file))
            (getlist (files req) "resumes"))
    /\ rs = sorted_reverse PyFloat.lt score accepted
    /\ Permutation accepted rs.
Proof.
  intros H.
  destruct (RunFacts.index_accepted _ _ _ _ _ H)
    as (accepted & -> & _ & Hok & Hn & Hsub).
  exists accepted. repeat split; auto.
  apply (OrderFacts.sorted_reverse_scores accepted Hok).
Qed.

Lemma names_follow_submission_order_witness :
  exists accepted,
    named_in_order accepted
    /\ sublist (map original_filename accepted)
         (map (fun file => secure_filename (filename file))
            (getlist (files example_request) "resumes"))
    /\ results_of (index example_world example_request no_effects)
       = sorted_reverse PyFloat.lt score accepted
    /\ Permutation accepted
         (results_of (index example_world example_request no_effects)).
Proof.
  apply (names_follow_submission_order example_world example_request no_effects
           (results_of (index example_world example_request no_effects))
           (effects_of (index example_world example_request no_effects))).
  vm_compute. reflexivity.
Defined.

(** C6. A run that renders results returns the accepted documents, maybe
    none, sorted by score from high to low, and two results of equal score
    keep their submission order. *)
Theorem results_sorted_by_score_stable w req fx rs fx' :
  index w req fx = Ok (Render (Some rs), fx') ->
  exists accepted,
    named_in_order accepted
    /\ Permutation accepted rs
    /\ StronglySorted (fun a b => PyFloat.ge (score a) (score b) = true) rs
    /\ forall v,
         List.filter (fun c => PyFloat.eq (score c) v) rs
         = List.filter (fun c => PyFloat.eq (score c) v) accepted.
Proof.
  intros H.
  destruct (RunFacts.index_accepted _ _ _ _ _ H)
    as (accepted & -> & _ & Hok & Hn & _).
  exists accepted. split; [exact Hn|].
  apply (OrderFacts.sorted_reverse_scores accepted Hok).
Qed.

Lemma results_sorted_by_score_stable_witness :
  exists accepted,
    named_in_order accepted
    /\ Permutation accepted
         (results_of (index example_world example_request no_effects))
    /\ StronglySorted (fun a b => PyFloat.ge (score a) (score b) = true)
         (results_of (index example_world example_request no_effects))
    /\ forall v,
         List.filter (fun c => PyFloat.eq (score c) v)
           (results_of (index example_world example_request no_effects))
         = List.filter (fun c => PyFloat.eq (score c) v) accepted.
Proof.
  apply (results_sorted_by_score_stable example_world example_request no_effects
           (results_of (index example_world example_request no_effects))
           (effects_of (index example_world example_request no_effects))).
  vm_compute. reflexivity.
Defined.

(** C7, the claim as stated fails: with the filters off, a request whose
    experience field holds "abc", which [float] rejects, is not turned
    away; both of its documents are processed and returned. *)
Lemma non_numeric_experience_runs_with_filters_off :
  get (form unchecked_experience_request) "experience" = Some "abc"
  /\ py_float "abc" = Raise ValueError
  /\ response_of (index example_world unchecked_experience_request no_effects)
     = Ok (Render (Some (results_of
                           (index example_world example_request no_effects))))
  /\ length (results_of (index example_world example_request no_effects)) = 2%nat.
Proof. repeat split; vm_compute; reflexivity. Qed.

(** C7, amended. When the threshold field is absent or numeric, a request
    with no documents, or with an empty requirements text, or with the
    filters enabled and a non-empty experience field that [float]
    rejects, is turned away before any document is processed: the handler
    raises nothing, returns no results and leaves the folders as they
    were, redirecting with an error flash when the model is loaded and the
    request is a POST. With the filters disabled the experience field is
    not read: whatever it holds, the run is the same. And an empty
    experience field counts as 0: the run is the run of the field "0". *)
Theorem invalid_input_is_refused w req fx :
  (threshold_numeric req ->
   no_documents req \/ requirements_empty req \/ experience_rejected req ->
   refused w req fx (index w req fx))
  /\ (filters_of req = false ->
      forall s, index w (with_experience s req) fx = index w req fx)
  /\ index w (with_experience "" req) fx = index w (with_experience "0" req) fx.
Proof.
  split; [|split].
  2:{ intros Hoff s. apply RefusalFacts.index_reads_experience.
      unfold filters_of in Hoff. rewrite Hoff. discriminate. }
  2:{ rewrite <- (RefusalFacts.index_reads_experience w (with_experience "0" req) ""
                    fx).
      - unfold with_experience. simpl. now rewrite insert_insert_eq.
      - intros _. rewrite RefusalFacts.get_experience. vm_compute. reflexivity. }
  intros Hthr H. unfold index.
  destruct (NLP_MODEL w) as [model|] eqn:Hw;
    [|apply RefusalFacts.refused_no_results; auto].
  destruct (method req) eqn:Hmeth;
    [apply RefusalFacts.refused_no_results; auto|].
  destruct (files req !! "resumes") as [l|] eqn:Hfiles;
    [|apply RefusalFacts.refused_redirect].
  unfold threshold_numeric in Hthr.
  assert (Hthr' : exists thr,
             match get (form req) "threshold" with
             | Some s => py_float s
             | None => Ok (PyFloat.of_ratio false 6 10)
             end = Ok thr).
  { destruct (get (form req) "threshold"); [exact Hthr|eauto]. }
  destruct Hthr' as (thr & ->). simpl bind.
  unfold getlist at 1. rewrite Hfiles.
  destruct (match l with
            | [] => true
            | file :: _ => String.eqb (filename file) ""
            end) eqn:E1; [apply RefusalFacts.refused_redirect|].
  destruct (String.eqb (strip (default "" (get (form req) "requirements"))) "")
    eqn:E2; [apply RefusalFacts.refused_redirect|].
  destruct H as [H|[H|H]].
  - unfold no_documents in H. rewrite Hfiles in H.
    destruct l as [|file l]; [discriminate|].
    rewrite H in E1. discriminate.
  - unfold requirements_empty in H. rewrite H in E2. discriminate.
  - destruct H as (Hon & s & Hs & Hne & Hf).
    rewrite Hon, Hs. simpl default.
    rewrite bool_decide_eq_true_2 by reflexivity.
    destruct (String.eqb_spec s ""); [contradiction|].
    rewrite Hf. apply RefusalFacts.refused_redirect.
Qed.

Lemma invalid_input_is_refused_witness :
  refused example_world rejected_experience_request no_effects
    (index example_world rejected_experience_request no_effects).
Proof.
  apply (proj1 (invalid_input_is_refused example_world rejected_experience_request
                  no_effects)).
  - exists (PyFloat.of_ratio false 6 10). vm_compute. reflexivity.
  - right. right. split; [vm_compute; reflexivity|].
    exists "abc". split; [vm_compute; reflexivity|].
    split; [discriminate|vm_compute; reflexivity].
Defined.

(** [float] keeps the separators FS to US, which [str.strip] removes, and
    so rejects a numeral next to one: with the filters on, the experience
    "5" followed by US is turned away, and the threshold "0.6" after FS
    makes the handler raise. NBSP and NEL around a numeral are removed. *)
Example separators_are_no_float_spaces :
  py_float (String "028"%char "0.6") = Raise ValueError
  /\ py_float (String "5"%char (String "031"%char "")) = Raise ValueError
  /\ py_float (String "160"%char (String.append "0.6" (String "133"%char "")))
     = Ok (PyFloat.of_ratio false 6 10)
  /\ strip (String "028"%char "0.6") = "0.6"
  /\ index example_world
       (with_experience (String "5"%char (String "031"%char "")) filtered_request)
       no_effects
     = Ok (Redirect,
           flash "Please enter a valid number for experience." "error" no_effects)
  /\ index example_world
       (post [ senior_upload ]
          [ ("requirements", "python developer");
            ("threshold", String "028"%char "0.6") ])
       no_effects
     = Raise ValueError.
Proof. repeat split; vm_compute; reflexivity. Qed.

(** C8. A copy that fails does not change the answer: two worlds that
    differ only in which copies fail, and in what a failed copy leaves
    behind, give the same response, so the same
    ranked list, and the same exception if the run raises; and a run that
    renders results has flashed one error for each accepted document
    whose copy failed, naming it, and nothing else. *)
Theorem copy_failure_keeps_results m p d c1 c2 l1 l2 req fx :
  response_of (index (World m p d c1 l1) req fx)
  = response_of (index (World m p d c2 l2) req fx)
  /\ forall rs fx',
       index (World m p d c1 l1) req fx = Ok (Render (Some rs), fx') ->
       exists accepted,
         named_in_order accepted
         /\ Permutation accepted rs
         /\ flashes fx' = flashes fx ++ flat_map (copy_report c1) accepted.
Proof.
  split; [apply CopyFacts.index_same|].
  intros rs fx' H.
  destruct (RunFacts.index_accepted _ _ _ _ _ H)
    as (accepted & -> & Hf & Hok & Hn & _).
  exists accepted. split; [exact Hn|]. split; [|exact Hf].
  apply (OrderFacts.sorted_reverse_scores accepted Hok).
Qed.

(** With every copy failing, the example run returns the results of the
    run where every copy succeeds, and has flashed two errors. *)
Lemma copy_failure_keeps_results_witness :
  results_of (index failing_copy_world example_request no_effects)
  = results_of (index example_world example_request no_effects)
  /\ length (flashes (effects_of (index failing_copy_world example_request no_effects)))
     = 2%nat
  /\ exists accepted,
       named_in_order accepted
       /\ Permutation accepted
            (results_of (index failing_copy_world example_request no_effects))
       /\ flashes (effects_of (index failing_copy_world example_request no_effects))
          = flashes no_effects
            ++ flat_map (copy_report (fun _ _ => Some "disk full")) accepted.
Proof.
  split; [vm_compute; reflexivity|].
  split; [vm_compute; reflexivity|].
  apply (proj2 (copy_failure_keeps_results
                  (NLP_MODEL example_world) (pdf_pages example_world)
                  (docx_paragraphs example_world)
                  (fun _ _ => Some "disk full") (fun _ _ => None)
                  (fun _ _ _ _ => Some "") (fun _ _ _ old => old)
                  example_request no_effects)
           (results_of (index failing_copy_world example_request no_effects))
           (effects_of (index failing_copy_world example_request no_effects))).
  vm_compute. reflexivity.
Defined.

(** C9. The grade passes on the exact score: [passed] compares the score
    the model returns with the threshold, and the grade records that score
    rounded to 3 decimals; so a passing grade can record a score below the
    threshold, as the score 0.6004 does under the threshold 0.6004, which
    is recorded as 0.6, in the grade and in the result of the run. *)
Theorem grade_compares_exact_records_rounded text criteria req model thr :
  criteria !! "requirements_text" = Some req ->
  req <> "" ->
  passed (grade_resume_nlp text criteria (Some model) thr)
  = PyFloat.ge (model text req) thr
  /\ similarity_score (grade_resume_nlp text criteria (Some model) thr)
     = PyFloat.round (model text req) 3
  /\ (exists model' thr',
        passed (grade_resume_nlp text criteria (Some model') thr') = true
        /\ PyFloat.lt
             (similarity_score (grade_resume_nlp text criteria (Some model') thr'))
             thr' = true)
  /\ recorded_below_threshold fine_score_world fine_threshold_request.
Proof.
  intros Hc Hreq.
  rewrite (GradeFacts.grade_with_model _ _ _ model thr Hc Hreq).
  split; [reflexivity|]. split; [reflexivity|]. split.
  - exists (fun _ _ => PyFloat.of_ratio false 6004 10000),
      (PyFloat.of_ratio false 6004 10000).
    rewrite (GradeFacts.grade_with_model _ _ _ _ _ Hc Hreq).
    split; vm_compute; reflexivity.
  - unfold recorded_below_threshold. eexists _, "0.6004", _.
    split; [vm_compute; reflexivity|].
    split; [vm_compute; reflexivity|].
    split; [vm_compute; left; reflexivity|].
    vm_compute. reflexivity.
Qed.

Lemma grade_compares_exact_records_rounded_witness :
  let model := fun _ _ : string => PyFloat.of_ratio false 6004 10000 in
  let thr := PyFloat.of_ratio false 6004 10000 in
  let criteria : gmap string string := {[ "requirements_text" := "job" ]} in
  passed (grade_resume_nlp "cv" criteria (Some model) thr)
  = PyFloat.ge (model "cv" "job") thr
  /\ similarity_score (grade_resume_nlp "cv" criteria (Some model) thr)
     = PyFloat.round (model "cv" "job") 3
  /\ (exists model' thr',
        passed (grade_resume_nlp "cv" criteria (Some model') thr') = true
        /\ PyFloat.lt
             (similarity_score (grade_resume_nlp "cv" criteria (Some model') thr'))
             thr' = true)
  /\ recorded_below_threshold fine_score_world fine_threshold_request.
Proof.
  apply (grade_compares_exact_records_rounded "cv"
           {[ "requirements_text" := "job" ]} "job"
           (fun _ _ => PyFloat.of_ratio false 6004 10000)
           (PyFloat.of_ratio false 6004 10000)).
  - reflexivity.
  - discriminate.
Defined.

(** C10, the code at the failing input. A file named ".pdf" passes
    [allowed_file], its sanitized name is "pdf" with no dot left, and
    the extension lookup of the text extraction raises [IndexError]:
    the loop step raises, and so does the whole request. *)
Theorem dot_pdf_passes_guard_then_raises :
  allowed_file ".pdf" = true
  /\ secure_filename ".pdf" = "pdf"
  /\ (forall w req thr fe minexp reqedu bytes st,
        loop_body w req thr fe minexp reqedu
          {| filename := ".pdf"; stream := bytes |} st
        = Raise IndexError)
  /\ index example_world
       (post [ {| filename := ".pdf"; stream := "5 years, B.Tech" |} ]
          [ ("requirements", "python developer"); ("threshold", "0.6") ])
       no_effects
     = Raise IndexError.
Proof.
  split; [vm_compute; reflexivity|].
  split; [vm_compute; reflexivity|].
  split.
  - intros w req thr fe minexp reqedu bytes st.
    unfold loop_body. simpl filename.
    replace (negb (String.eqb ".pdf" "") && allowed_file ".pdf") with true
      by (vm_compute; reflexivity).
    replace (secure_filename ".pdf") with "pdf" by (vm_compute; reflexivity).
    reflexivity.
  - vm_compute. reflexivity.
Qed.

(** The two example runs: without filters both resumes are accepted, named
    in submission order and ranked by score; with the filters only the
    senior resume is. *)
Example example_runs :
  map (fun c => (original_filename c, new_filename c))
    (results_of (index example_world example_request no_effects))
  = [ ("senior.pdf", "000002_0.72.pdf"); ("junior.docx", "000001_0.65.docx") ]
  /\ map (fun c => (original_filename c, new_filename c, education c))
       (results_of (index example_world filtered_request no_effects))
     = [ ("senior.pdf", "000001_0.72.pdf", ["UG"]) ].
Proof. split; vm_compute; reflexivity. Qed.

(** * Further properties *)

(** ** Steps and runs in detail *)

Module StepFacts.
Import FloatFacts.

Lemma guard_allowed name :
  negb (String.eqb name "") && allowed_file name = allowed_file name.
Proof.
  destruct (allowed_file name) eqn:E; [|apply andb_false_r].
  now rewrite (LoopFacts.allowed_file_nonempty _ E).
Qed.

(** The text extracted after the save does not depend on what the folders
    held. *)
Lemma extract_after_save w file name fx :
  extract_text_from_file w (save file name fx) name name
  = extract_text_from_file w (save file name no_effects) name name.
Proof.
  unfold extract_text_from_file, extract_text_from_pdf, extract_text_from_docx.
  simpl. now rewrite !lookup_insert_eq.
Qed.

Lemma grade_passed_model text req nlp_model thr :
  passed (grade_resume_nlp text {[ "requirements_text" := req ]} nlp_model thr)
  = true ->
  exists model,
    nlp_model = Some model
    /\ PyFloat.ge (model text req) thr = true
    /\ similarity_score
         (grade_resume_nlp text {[ "requirements_text" := req ]} nlp_model thr)
       = PyFloat.round (model text req) 3.
Proof.
  unfold grade_resume_nlp. rewrite lookup_singleton_eq.
  destruct nlp_model as [model|]; [|discriminate].
  destruct (String.eqb req ""); [discriminate|].
  destruct (PyFloat.ge (model text req) thr) eqn:E; [|discriminate].
  intros _. exists model. auto.
Qed.

(** A text that is not empty was read from a name with the extension pdf
    or docx. *)
Lemma extract_nonempty w fx path name text :
  extract_text_from_file w fx path name = Ok text ->
  text <> "" ->
  exists ext,
    item (rsplit1 "." name) 1 = Ok ext
    /\ (lower ext = "pdf" \/ lower ext = "docx").
Proof.
  unfold extract_text_from_file.
  destruct (item (rsplit1 "." name) 1) as [ext|e]; [|discriminate]. simpl.
  intros H Hne. exists ext. split; [reflexivity|].
  destruct (String.eqb_spec (lower ext) "pdf"); [now left|].
  destruct (String.eqb_spec (lower ext) "docx"); [now right|].
  injection H as <-. contradiction.
Qed.

(** What a step that ends normally did, with its effects. *)
Lemma loop_body_inv w rt thr fe minexp reqedu file st st' :
  loop_body w rt thr fe minexp reqedu file st = Ok st' ->
  upload_folder (loop_fx st') = store_upload (upload_folder (loop_fx st)) file
  /\ ((results st' = results st
       /\ match_counter st' = match_counter st
       /\ match_folder (loop_fx st') = match_folder (loop_fx st))
      \/ exists c,
           accepted_from w rt thr fe minexp reqedu (S (match_counter st)) file c
           /\ results st' = results st ++ [c]
           /\ match_counter st' = S (match_counter st)
           /\ match_folder (loop_fx st')
              = store_match w (match_folder (loop_fx st)) (file, c)).
Proof.
  unfold loop_body, store_upload. rewrite guard_allowed.
  destruct (allowed_file (filename file)) eqn:Hallowed;
    [|intros [= <-]; split; [reflexivity|left; auto]].
  set (name := secure_filename (filename file)).
  destruct (extract_text_from_file w _ name name) as [text|e] eqn:Hext;
    [|discriminate].
  simpl bind.
  destruct (String.eqb_spec text "") as [|Htext];
    [intros [= <-]; split; [reflexivity|left; auto]|].
  destruct (find_experience text) as [x|e] eqn:Hx; [|discriminate]. simpl bind.
  destruct fe; simpl andb.
  - destruct (PyFloat.lt x minexp) eqn:Hlt;
      [intros [= <-]; split; [reflexivity|left; auto]|].
    destruct (decide (reqedu ⊆ find_education text)) as [Hsub|Hsub].
    2:{ rewrite (bool_decide_eq_false_2 _ Hsub). simpl.
        intros [= <-]; split; [reflexivity|left; auto]. }
    rewrite (bool_decide_eq_true_2 _ Hsub). simpl negb. cbv iota.
    destruct (passed _) eqn:Hp; [|intros [= <-]; split; [reflexivity|left; auto]].
    destruct (grade_passed_model _ _ _ _ Hp) as (model & Hm & Hs & Hscore).
    destruct (extract_nonempty _ _ _ _ _ Hext Htext) as (ext & Hitem & Hlow).
    rewrite Hitem. simpl bind. intros [= <-]. simpl.
    split.
    { unfold shutil_copy. destruct (copy_error w name _); [reflexivity|].
      simpl. now rewrite lookup_insert_eq. }
    right. eexists. split; [|split; [reflexivity|split; [reflexivity|]]].
    + exists text, model, ext. simpl. rewrite Hscore.
      repeat split; auto.
      unfold document_text.
      rewrite <- (extract_after_save w file _ (loop_fx st)). exact Hext.
    + unfold store_match, shutil_copy. simpl.
      destruct (copy_error w name _); simpl; now rewrite lookup_insert_eq.
  - destruct (passed _) eqn:Hp; [|intros [= <-]; split; [reflexivity|left; auto]].
    destruct (grade_passed_model _ _ _ _ Hp) as (model & Hm & Hs & Hscore).
    destruct (extract_nonempty _ _ _ _ _ Hext Htext) as (ext & Hitem & Hlow).
    rewrite Hitem. simpl bind. intros [= <-]. simpl.
    split.
    { unfold shutil_copy. destruct (copy_error w name _); [reflexivity|].
      simpl. now rewrite lookup_insert_eq. }
    right. eexists. split; [|split; [reflexivity|split; [reflexivity|]]].
    + exists text, model, ext. simpl. rewrite Hscore.
      repeat split; auto; try discriminate.
      unfold document_text.
      rewrite <- (extract_after_save w file _ (loop_fx st)). exact Hext.
    + unfold store_match, shutil_copy. simpl.
      destruct (copy_error w name _); simpl; now rewrite lookup_insert_eq.
Qed.

(** What a run of the loop that ends normally did: the accepted uploads
    with their entries, in submission order. *)
Lemma loop_pairs w rt thr fe minexp reqedu files :
  forall st st',
    loop w rt thr fe minexp reqedu files st = Ok st' ->
    exists pairs : list (FileStorage * candidate),
      results st' = results st ++ map snd pairs
      /\ sublist (map fst pairs) files
      /\ (forall i p,
            pairs !! i = Some p ->
            accepted_from w rt thr fe minexp reqedu
              (S (match_counter st + i)) (fst p) (snd p))
      /\ match_folder (loop_fx st')
         = fold_left (store_match w) pairs (match_folder (loop_fx st))
      /\ upload_folder (loop_fx st')
         = fold_left store_upload files (upload_folder (loop_fx st)).
Proof.
  induction files as [|file files IH]; simpl; intros st st' H.
  - injection H as <-. exists []. simpl. rewrite app_nil_r.
    split; [reflexivity|]. split; [constructor|].
    split; [|split; reflexivity]. intros i p Hi. destruct i; discriminate.
  - destruct (loop_body w rt thr fe minexp reqedu file st) as [st1|e] eqn:Hb;
      [|discriminate].
    simpl in H. destruct (IH _ _ H) as (pairs & Hr & Hsub & Hacc & Hm & Hu).
    destruct (loop_body_inv _ _ _ _ _ _ _ _ _ Hb)
      as (Hu1 & [(Hr1 & Hc1 & Hm1) | (c & Hc & Hr1 & Hc1 & Hm1)]).
    + exists pairs. rewrite Hr, Hr1, Hm, Hm1, Hu, Hu1.
      split; [reflexivity|]. split; [now apply sublist_cons|].
      split; [|split; reflexivity].
      intros i p Hi. rewrite <- Hc1. now apply Hacc.
    + exists ((file, c) :: pairs). rewrite Hr, Hr1, Hm, Hm1, Hu, Hu1. simpl.
      rewrite <- List.app_assoc.
      split; [reflexivity|]. split; [now apply sublist_skip|].
      split; [|split; reflexivity].
      intros [|i] p Hi; simpl in Hi.
      * injection Hi as <-. simpl. now rewrite Nat.add_0_r.
      * specialize (Hacc i p Hi). rewrite Hc1 in Hacc.
        now replace (S (match_counter st + S i))
          with (S (S (match_counter st) + i)) by lia.
Qed.

(** A request that renders results ran the loop with the configuration
    read from its form. *)
Lemma index_render_config w req fx rs fx' :
  index w req fx = Ok (Render (Some rs), fx') ->
  exists thr minexp st,
    threshold_of req = Ok thr
    /\ min_experience_of req = Ok minexp
    /\ requirements_of req <> ""
    /\ loop w (requirements_of req) thr (filters_of req) minexp (required_of req)
         (getlist (files req) "resumes") (LoopState [] 0 fx) = Ok st
    /\ rs = sorted_reverse PyFloat.lt score (results st)
    /\ fx' = loop_fx st.
Proof.
  unfold index.
  destruct (NLP_MODEL w); [|discriminate].
  destruct (method req); [discriminate|].
  destruct (files req !! "resumes"); [|discriminate].
  fold (threshold_of req). fold (requirements_of req). fold (filters_of req).
  fold (required_of req).
  destruct (threshold_of req) as [thr|e]; [|discriminate]. simpl bind.
  destruct (match getlist (files req) "resumes" with
            | [] => true
            | file :: _ => String.eqb (filename file) ""
            end); [discriminate|].
  destruct (String.eqb_spec (requirements_of req) ""); [discriminate|].
  change (if filters_of req
          then if String.eqb (default "0" (get (form req) "experience")) ""
               then Ok PyFloat.zero
               else py_float (default "0" (get (form req) "experience"))
          else Ok PyFloat.zero) with (min_experience_of req).
  destruct (min_experience_of req) as [minexp|e]; [|discriminate].
  destruct (loop _ _ _ _ _ _ _ _) as [st|e] eqn:Hl; [|discriminate].
  simpl bind. intros [= <- <-]. exists thr, minexp, st. auto 10.
Qed.

(** The entries of a rendered list, each with the upload it comes from. *)
Lemma index_pairs w req fx rs fx' :
  index w req fx = Ok (Render (Some rs), fx') ->
  exists thr minexp (pairs : list (FileStorage * candidate)),
    threshold_of req = Ok thr
    /\ min_experience_of req = Ok minexp
    /\ requirements_of req <> ""
    /\ Permutation (map snd pairs) rs
    /\ sublist (map fst pairs) (getlist (files req) "resumes")
    /\ (forall i p,
          pairs !! i = Some p ->
          accepted_from w (requirements_of req) thr (filters_of req) minexp
            (required_of req) (S i) (fst p) (snd p))
    /\ match_folder fx' = fold_left (store_match w) pairs (match_folder fx)
    /\ upload_folder fx'
       = fold_left store_upload (getlist (files req) "resumes") (upload_folder fx).
Proof.
  intros H.
  destruct (index_render_config _ _ _ _ _ H)
    as (thr & minexp & st & Ht & Hm & Hreq & Hl & -> & ->).
  destruct (loop_pairs _ _ _ _ _ _ _ _ _ Hl)
    as (pairs & Hr & Hsub & Hacc & Hmf & Huf).
  simpl in Hr, Hacc, Hmf, Huf.
  exists thr, minexp, pairs. rewrite Hr.
  repeat split; auto.
  assert (Hok : List.Forall score_ok (map snd pairs)).
  { destruct (RunFacts.loop_run _ _ _ _ _ _ _ _ _ Hl) as (new & Hr' & _ & Hok & _).
    simpl in Hr'. rewrite Hr in Hr'. now rewrite Hr'. }
  apply (OrderFacts.sorted_reverse_scores _ Hok).
Qed.

Lemma accepted_in_pairs {P : FileStorage -> candidate -> Prop}
    (pairs : list (FileStorage * candidate)) (Q : nat -> FileStorage -> candidate -> Prop) :
  (forall i p, pairs !! i = Some p -> Q (S i) (fst p) (snd p)) ->
  (forall n f c, Q n f c -> P f c) ->
  forall c, In c (map snd pairs) -> exists f, In (f, c) pairs /\ P f c.
Proof.
  intros Hacc HQ c Hc. apply in_map_iff in Hc as ([f c'] & <- & Hin).
  exists f. split; [exact Hin|].
  apply list_elem_of_In, list_elem_of_lookup in Hin as (i & Hi).
  apply (HQ (S i)). exact (Hacc i _ Hi).
Qed.

End StepFacts.

(** ** File names *)

Module NameFacts.

Lemma str_app a b : str (a ++ b) = String.append (str a) (str b).
Proof.
  unfold str. induction a as [|c a IH]; simpl; [reflexivity|]. now rewrite IH.
Qed.

Lemma chars_append s t : chars (String.append s t) = chars s ++ chars t.
Proof.
  unfold chars. induction s as [|c s IH]; simpl; [reflexivity|]. now rewrite IH.
Qed.

Lemma str_chars s : str (chars s) = s.
Proof. apply string_of_list_ascii_of_string. Qed.

Lemma chars_str cs : chars (str cs) = cs.
Proof. apply list_ascii_of_string_of_list_ascii. Qed.

(** [rsplit_last] cuts at a separator and leaves none after the cut. *)
Lemma rsplit_last_spec sep cs :
  match rsplit_last sep cs with
  | Some (a, b) => cs = a ++ sep :: b /\ existsb (Ascii.eqb sep) b = false
  | None => existsb (Ascii.eqb sep) cs = false
  end.
Proof.
  induction cs as [|c cs IH]; simpl; [reflexivity|].
  destruct (rsplit_last sep cs) as [[a b]|].
  - destruct IH as [-> Hb]. split; [reflexivity|exact Hb].
  - rewrite (Ascii.eqb_sym sep c).
    destruct (Ascii.eqb_spec c sep) as [->|Hne]; simpl; auto.
Qed.

Lemma rsplit_last_none sep cs :
  existsb (Ascii.eqb sep) cs = false -> rsplit_last sep cs = None.
Proof.
  intros H. pose proof (rsplit_last_spec sep cs) as Hs.
  destruct (rsplit_last sep cs) as [[a b]|]; [|reflexivity].
  destruct Hs as [-> _]. rewrite existsb_app in H. simpl in H.
  rewrite Ascii.eqb_refl, orb_true_r in H. discriminate.
Qed.

Lemma rsplit_last_app sep a b :
  existsb (Ascii.eqb sep) b = false ->
  rsplit_last sep (a ++ sep :: b) = Some (a, b).
Proof.
  intros Hb. induction a as [|c a IH]; simpl.
  - now rewrite (rsplit_last_none _ _ Hb), Ascii.eqb_refl.
  - now rewrite IH.
Qed.

(** [name.rsplit(".", 1)[1]] of [stem + "." + ext] is [ext] when [ext] has
    no dot. *)
Lemma extension_of_append stem ext :
  contains "." ext = false ->
  item (rsplit1 "." (String.append stem (String "." ext))) 1 = Ok ext.
Proof.
  intros H. unfold rsplit1, contains in *.
  rewrite chars_append. simpl chars.
  change (list_ascii_of_string ext) with (chars ext).
  rewrite (rsplit_last_app _ _ _ H). unfold item. simpl nth_error.
  now rewrite str_chars.
Qed.

(** A name with an extension is its stem, a dot and the extension, which
    has no dot. *)
Lemma extension_inv name ext :
  item (rsplit1 "." name) 1 = Ok ext ->
  contains "." name = true
  /\ contains "." ext = false
  /\ exists stem, name = String.append stem (String "." ext).
Proof.
  unfold rsplit1, contains. pose proof (rsplit_last_spec "." (chars name)) as Hs.
  destruct (rsplit_last "." (chars name)) as [[a b]|]; [|discriminate].
  destruct Hs as [Hn Hb]. simpl. intros [= <-]. rewrite chars_str.
  split; [|split; [exact Hb|]].
  - rewrite Hn, existsb_app. simpl. now rewrite orb_true_r.
  - exists (str a). rewrite <- (str_chars name), Hn, str_app. reflexivity.
Qed.

Lemma no_extension name :
  contains "." name = false -> item (rsplit1 "." name) 1 = Raise IndexError.
Proof.
  unfold rsplit1, contains. intros H.
  now rewrite (rsplit_last_none _ _ H).
Qed.

Lemma allowed_of_extension name ext :
  item (rsplit1 "." name) 1 = Ok ext ->
  lower ext = "pdf" \/ lower ext = "docx" ->
  allowed_file name = true.
Proof.
  intros Hitem Hlow. unfold allowed_file.
  destruct (extension_inv _ _ Hitem) as (-> & _).
  rewrite Hitem. simpl. apply bool_decide_eq_true_2.
  unfold ALLOWED_EXTENSIONS. destruct Hlow as [-> | ->]; set_solver.
Qed.

Lemma allowed_extension name :
  allowed_file name = true ->
  exists ext, item (rsplit1 "." name) 1 = Ok ext
              /\ (lower ext = "pdf" \/ lower ext = "docx").
Proof.
  unfold allowed_file. intros H. apply andb_true_iff in H as [_ H].
  destruct (item (rsplit1 "." name) 1) as [ext|]; [|discriminate].
  exists ext. split; [reflexivity|].
  apply bool_decide_eq_true_1 in H. unfold ALLOWED_EXTENSIONS in H. set_solver.
Qed.

End NameFacts.

(** X1. [allowed_file] accepts exactly the names made of a stem, a dot and
    an extension without dot that is pdf or docx in any letter case. *)
Theorem allowed_file_iff_last_extension name :
  allowed_file name = true
  <-> exists stem ext,
        name = String.append stem (String "." ext)
        /\ contains "." ext = false
        /\ (lower ext = "pdf" \/ lower ext = "docx").
Proof.
  split.
  - intros H. destruct (NameFacts.allowed_extension _ H) as (ext & Hitem & Hlow).
    destruct (NameFacts.extension_inv _ _ Hitem) as (_ & Hext & stem & ->).
    exists stem, ext. auto.
  - intros (stem & ext & -> & Hext & Hlow).
    apply (NameFacts.allowed_of_extension _ ext); [|exact Hlow].
    now apply NameFacts.extension_of_append.
Qed.

(** X2. [extract_text_from_file] raises [IndexError] exactly for a name
    without a dot, and raises nothing else; for a name whose extension is
    neither pdf nor docx it returns the empty text, so a text that is not
    empty always comes from a name [allowed_file] accepts. *)
Theorem extract_text_from_file_by_extension w fx path name :
  match extract_text_from_file w fx path name with
  | Raise e => e = IndexError /\ contains "." name = false
  | Ok text => contains "." name = true
               /\ (text = "" \/ allowed_file name = true)
  end.
Proof.
  destruct (contains "." name) eqn:Hdot.
  - destruct (extract_text_from_file w fx path name) as [text|e] eqn:E.
    + split; [reflexivity|].
      destruct (String.eqb_spec text "") as [|Hne]; [now left|right].
      destruct (StepFacts.extract_nonempty _ _ _ _ _ E Hne) as (ext & Hi & Hl).
      now apply (NameFacts.allowed_of_extension _ ext).
    + unfold extract_text_from_file in E.
      destruct (item (rsplit1 "." name) 1) as [ext|e'] eqn:Hi.
      * simpl in E.
        destruct (String.eqb (lower ext) "pdf"); [discriminate|].
        destruct (String.eqb (lower ext) "docx"); discriminate.
      * unfold rsplit1, contains in *.
        pose proof (NameFacts.rsplit_last_spec "." (chars name)) as Hs.
        destruct (rsplit_last "." (chars name)) as [[a b]|]; [discriminate|].
        rewrite Hs in Hdot. discriminate.
  - unfold extract_text_from_file.
    rewrite (NameFacts.no_extension _ Hdot). simpl. auto.
Qed.

(** ** More on [find_experience] *)

Module CaseFacts.
Import FloatFacts ReFacts NumeralFacts ExperienceFacts.

Lemma lower_char_idem c : lower_char (lower_char c) = lower_char c.
Proof. each_char c. Qed.

Lemma is_digit_lower c : is_digit (lower_char c) = is_digit c.
Proof. each_char c. Qed.

Lemma is_space_lower c : is_space (lower_char c) = is_space c.
Proof. each_char c. Qed.

Lemma is_word_lower c : is_word (lower_char c) = is_word c.
Proof. each_char c. Qed.

Lemma digit_lower c : is_digit c = true -> lower_char c = c.
Proof. each_char c. Qed.

Lemma atom_match_lower a c :
  atom_match true a (lower_char c) = atom_match true a c.
Proof.
  destruct a; simpl.
  - now rewrite lower_char_idem.
  - apply is_digit_lower.
  - apply is_space_lower.
Qed.

Lemma word_at_lower cs : word_at (map lower_char cs) = word_at cs.
Proof. destruct cs; simpl; [reflexivity|apply is_word_lower]. Qed.

Section Lowered.
Context {R R' : Type} (f : R -> R').

Lemma star_lower a k k' rs :
  (forall m, k' (lower_state m) = option_map f (k m)) ->
  forall sn g,
    star true a k' (map lower_char sn) (map lower_char rs)
      (option_map (map lower_char) g)
    = option_map f (star true a k sn rs g).
Proof.
  intros Hk. induction rs as [|c rs IH]; intros sn g; simpl.
  - apply (Hk (MState sn [] g)).
  - rewrite atom_match_lower.
    destruct (atom_match true a c); [|apply (Hk (MState sn (c :: rs) g))].
    specialize (IH (c :: sn) g). simpl in IH. rewrite IH.
    destruct (star true a k (c :: sn) rs g); [reflexivity|].
    apply (Hk (MState sn (c :: rs) g)).
Qed.

Lemma one_lower a k k' s :
  (forall m, k' (lower_state m) = option_map f (k m)) ->
  one true a k' (lower_state s) = option_map f (one true a k s).
Proof.
  intros Hk. unfold one. destruct s as [sn [|c rs] g]; simpl; [reflexivity|].
  rewrite atom_match_lower.
  destruct (atom_match true a c); [|reflexivity].
  apply (Hk (MState (c :: sn) rs g)).
Qed.

Lemma or_else_map (x y : option R) :
  or_else (option_map f x) (option_map f y) = option_map f (or_else x y).
Proof. destruct x; reflexivity. Qed.

Lemma run_lower r :
  forall k k' s,
    (forall m, k' (lower_state m) = option_map f (k m)) ->
    run true r k' (lower_state s) = option_map f (run true r k s).
Proof.
  induction r as [|a|a|a|a| |r1 IH1 r2 IH2|r1 IH1 r2 IH2|r IH];
    intros k k' s Hk; simpl run.
  - apply Hk.
  - now apply one_lower.
  - rewrite (one_lower a k k' s Hk), (Hk s). apply or_else_map.
  - destruct s as [sn rs g]. now apply star_lower.
  - apply one_lower. intros [sn rs g]. now apply star_lower.
  - destruct s as [sn rs g]. simpl. rewrite !word_at_lower.
    destruct (xorb _ _); [apply (Hk (MState sn rs g))|reflexivity].
  - apply IH1. intros m. now apply IH2.
  - rewrite (IH1 k k' s Hk), (IH2 k k' s Hk). apply or_else_map.
  - apply IH. intros m. destruct s as [sn rs g], m as [sn' rs' g'].
    simpl. rewrite !length_map, firstn_map, <- map_rev.
    apply (Hk (MState sn' rs' (Some (rev (firstn (length sn' - length sn) sn'))))).
Qed.

End Lowered.

Lemma match_at_lower r sn rs :
  match_at true r (map lower_char sn) (map lower_char rs)
  = option_map lower_state (match_at true r sn rs).
Proof.
  unfold match_at.
  apply (run_lower lower_state r Some Some (MState sn rs None)).
  intros s. reflexivity.
Qed.

Lemma group_text_lower s : group_text (lower_state s) = lower (group_text s).
Proof.
  unfold group_text, lower. destruct s as [sn rs [g|]]; simpl; [|reflexivity].
  unfold chars, str. now rewrite list_ascii_of_string_of_list_ascii.
Qed.

Lemma findall_from_lower r fuel :
  forall sn rs,
    findall_from fuel true r (map lower_char sn) (map lower_char rs)
    = map lower (findall_from fuel true r sn rs).
Proof.
  induction fuel as [|fuel IH]; intros sn rs; simpl; [reflexivity|].
  rewrite match_at_lower.
  destruct (match_at true r sn rs) as [s'|]; simpl.
  - rewrite group_text_lower, !length_map. f_equal.
    destruct (length (rest s') <? length rs)%nat; [apply IH|].
    destruct rs as [|c rs]; [reflexivity|]. apply (IH (c :: sn) rs).
  - destruct rs as [|c rs]; [reflexivity|]. apply (IH (c :: sn) rs).
Qed.

Lemma chars_lower text : chars (lower text) = map lower_char (chars text).
Proof. unfold lower, chars, str. apply list_ascii_of_string_of_list_ascii. Qed.

Lemma length_chars text : length (chars text) = String.length text.
Proof.
  unfold chars. induction text as [|c text IH]; simpl; [reflexivity|].
  now rewrite IH.
Qed.

Lemma findall_lower r text :
  findall true r (lower text) = map lower (findall true r text).
Proof.
  unfold findall. rewrite chars_lower, <- !length_chars, chars_lower, length_map.
  apply (findall_from_lower r _ [] (chars text)).
Qed.

Lemma numeral_lower s : numeral (chars s) -> lower s = s.
Proof.
  intros (ds & fs & point & _ & Hds & Hfs & Hs).
  unfold lower. rewrite Hs.
  assert (Hd : forall l, forallb is_digit l = true -> map lower_char l = l).
  { induction l as [|c l IH]; simpl; [reflexivity|].
    intros H. apply andb_true_iff in H as [Hc Hl].
    now rewrite (digit_lower c Hc), IH. }
  rewrite map_app, (Hd ds Hds).
  replace (map lower_char (if point then "."%char :: fs else []))
    with (if point then "."%char :: fs else [])
    by (destruct point; simpl; [now rewrite (Hd fs Hfs)|reflexivity]).
  rewrite <- Hs. apply string_of_list_ascii_of_string.
Qed.

Lemma numerals_lower l :
  List.Forall (fun s => numeral (chars s)) l -> map lower l = l.
Proof.
  induction 1 as [|s l Hs Hl IH]; simpl; [reflexivity|].
  now rewrite (numeral_lower s Hs), IH.
Qed.

Lemma find_experience_lower text :
  find_experience (lower text) = find_experience text.
Proof.
  unfold find_experience. rewrite !findall_lower.
  now rewrite (numerals_lower _ (year_matches_numerals text)),
    (numerals_lower _ (month_matches_numerals text)).
Qed.

Lemma has_sign_ge_zero x : has_sign false x -> PyFloat.ge x PyFloat.zero = true.
Proof.
  destruct x as [s|s| |s m e]; simpl; intros H; try contradiction; subst;
    reflexivity.
Qed.

(** No match of the two patterns starts in a text without digits. *)
Lemma no_digit_no_match sn rs :
  forallb (fun c => negb (is_digit c)) rs = true ->
  match_at true year_pattern sn rs = None
  /\ match_at true month_pattern sn rs = None.
Proof.
  intros H.
  assert (Hc : forall c t rs', rs = (c :: t) ++ rs' -> is_digit c = true -> False).
  { intros c t rs' -> Hd. simpl in H. rewrite Hd in H. discriminate. }
  split.
  - destruct (match_at true year_pattern sn rs) as [s'|] eqn:E; [|reflexivity].
    exfalso. unfold match_at in E.
    apply run_sound in E as (s'' & Hr & _).
    destruct Hr as (m & (m0 & Hg & _) & _).
    destruct Hg as (m1 & (c & t & Hd & _ & Hrest & _) & _).
    simpl in Hrest. exact (Hc _ _ _ Hrest Hd).
  - destruct (match_at true month_pattern sn rs) as [s'|] eqn:E; [|reflexivity].
    exfalso. unfold match_at in E.
    apply run_sound in E as (s'' & Hr & _).
    destruct Hr as (m & (m0 & Hg & _) & _).
    destruct Hg as (c & t & Hd & _ & Hrest & _).
    simpl in Hrest. exact (Hc _ _ _ Hrest Hd).
Qed.

Lemma findall_from_no_match r fuel :
  forall sn rs,
    (forall sn' rs', forallb (fun c => negb (is_digit c)) rs' = true ->
                     match_at true r sn' rs' = None) ->
    forallb (fun c => negb (is_digit c)) rs = true ->
    findall_from fuel true r sn rs = [].
Proof.
  induction fuel as [|fuel IH]; intros sn rs Hr H; simpl; [reflexivity|].
  rewrite (Hr _ _ H). destruct rs as [|c rs]; [reflexivity|].
  simpl in H. apply andb_true_iff in H as [_ H]. now apply IH.
Qed.

End CaseFacts.

(** X3. [find_experience] returns on every text, without raising, a number
    that is neither NaN nor negative. *)
Theorem find_experience_returns_nonnegative text :
  exists x,
    find_experience text = Ok x
    /\ PyFloat.is_nan x = false
    /\ PyFloat.ge x PyFloat.zero = true.
Proof.
  destruct (ExperienceFacts.find_experience_sign text) as (x & Hx & Hs).
  exists x. split; [exact Hx|]. split.
  - apply (FloatFacts.has_sign_not_nan false), Hs.
  - apply CaseFacts.has_sign_ge_zero, Hs.
Qed.

(** X4. A text without any digit, the empty text among them, has the
    experience 0. *)
Theorem find_experience_without_digits text :
  forallb (fun c => negb (is_digit c)) (chars text) = true ->
  find_experience text = Ok PyFloat.zero.
Proof.
  intros H. unfold find_experience, findall.
  rewrite !CaseFacts.findall_from_no_match; auto.
  - intros sn rs Hrs. apply (CaseFacts.no_digit_no_match sn rs Hrs).
  - intros sn rs Hrs. apply (CaseFacts.no_digit_no_match sn rs Hrs).
Qed.

Lemma find_experience_without_digits_witness :
  find_experience "Seasoned engineer, many years in the field" = Ok PyFloat.zero.
Proof.
  apply find_experience_without_digits. vm_compute. reflexivity.
Defined.

(** X5. The profile does not depend on the letter case: two texts with the
    same lowercase form have the same experience and the same education
    levels. *)
Theorem profile_ignores_case text1 text2 :
  lower text1 = lower text2 ->
  find_experience text1 = find_experience text2
  /\ find_education text1 = find_education text2.
Proof.
  intros H. split.
  - rewrite <- (CaseFacts.find_experience_lower text1),
      <- (CaseFacts.find_experience_lower text2). now rewrite H.
  - unfold find_education. now rewrite H.
Qed.

Lemma profile_ignores_case_witness :
  find_experience "5 YEARS 6 Months, B.TECH" = find_experience "5 years 6 months, b.tech"
  /\ find_education "5 YEARS 6 Months, B.TECH" = find_education "5 years 6 months, b.tech".
Proof.
  apply profile_ignores_case. vm_compute. reflexivity.
Defined.

(** ** The entries of a rendered list *)

Module ResultFacts.
Import FloatFacts.

Lemma in_sorted {A} (lt : A -> A -> bool) x l : In x (sorted lt l) <-> In x l.
Proof.
  split; apply Permutation_in;
    [apply OrderFacts.sorted_perm|symmetry; apply OrderFacts.sorted_perm].
Qed.

Lemma in_elements (x : string) (X : gset string) : In x (elements X) <-> x ∈ X.
Proof. rewrite <- list_elem_of_In. apply elem_of_elements. Qed.

(** The labels of a text, sorted, for each of the eight outcomes of the
    three groups. *)
Lemma sorted_labels text :
  find_education text ⊆ {[ "UG"; "Masters"; "PG" ]}
  /\ sublist (sorted String.ltb (elements (find_education text))) EDUCATION_LABELS.
Proof.
  rewrite EducationFacts.find_education_spec.
  unfold spec_education, group_label.
  destruct (group_matches ug_patterns text),
    (group_matches masters_patterns text),
    (group_matches pg_patterns text);
    (split;
     [compute_done
     |vm_compute;
      repeat first [apply sublist_nil | apply sublist_skip | apply sublist_cons]]).
Qed.

(** Each entry of a rendered list is what the loop made of one of the
    uploads, under the configuration read from the form. *)
Lemma result_accepted w req fx rs fx' c :
  index w req fx = Ok (Render (Some rs), fx') ->
  In c rs ->
  exists thr minexp n file,
    threshold_of req = Ok thr
    /\ min_experience_of req = Ok minexp
    /\ In file (getlist (files req) "resumes")
    /\ accepted_from w (requirements_of req) thr (filters_of req) minexp
         (required_of req) n file c.
Proof.
  intros H Hc.
  destruct (StepFacts.index_pairs _ _ _ _ _ H)
    as (thr & minexp & pairs & Ht & Hm & _ & Hperm & Hsub & Hacc & _).
  apply (Permutation_in _ (Permutation_sym Hperm)) in Hc.
  apply in_map_iff in Hc as ([file c'] & Hc' & Hin). simpl in Hc'. subst c'.
  pose proof Hin as Hin'.
  apply list_elem_of_In, list_elem_of_lookup in Hin' as (i & Hi).
  exists thr, minexp, (S i), file. repeat split; auto.
  - apply list_elem_of_In. apply (elem_of_sublist (map fst pairs)); [|exact Hsub].
    apply list_elem_of_In, in_map_iff. exists (file, c). auto.
  - exact (Hacc i _ Hi).
Qed.

End ResultFacts.

(** X6. [find_education] yields no label but UG, Masters and PG, and the
    sorted list of its labels, as a result shows it, is a part of
    Masters, PG, UG in that order. *)
Theorem find_education_known_labels text :
  find_education text ⊆ {[ "UG"; "Masters"; "PG" ]}
  /\ sublist (sorted String.ltb (elements (find_education text))) EDUCATION_LABELS.
Proof. apply ResultFacts.sorted_labels. Qed.

(** X7. With the filters enabled, every entry of a rendered list passed
    them: its experience is not below the minimum read from the form (at
    least that minimum when it is a number), each required label is in
    its education list, and that list is a part of Masters, PG, UG. *)
Theorem results_pass_filters w req fx rs fx' c :
  index w req fx = Ok (Render (Some rs), fx') ->
  In c rs ->
  filters_of req = true ->
  exists minexp,
    min_experience_of req = Ok minexp
    /\ PyFloat.lt (experience c) minexp = false
    /\ (PyFloat.is_nan minexp = true \/ PyFloat.ge (experience c) minexp = true)
    /\ (forall label, label ∈ required_of req -> In label (education c))
    /\ sublist (education c) EDUCATION_LABELS.
Proof.
  intros H Hc Hf.
  destruct (ResultFacts.result_accepted _ _ _ _ _ _ H Hc)
    as (thr & minexp & n & file & _ & Hm & _ & Hacc).
  destruct Hacc as (text & model & ext & _ & _ & _ & _ & _ & _ & Hx & He
                    & _ & _ & _ & Hfilters).
  destruct (Hfilters Hf) as [Hlt Hsub].
  exists minexp. split; [exact Hm|]. split; [exact Hlt|]. split; [|split].
  - destruct (PyFloat.is_nan minexp) eqn:Hn; [now left|right].
    destruct (ExperienceFacts.find_experience_sign text) as (x & Hx' & Hs).
    rewrite Hx in Hx'. injection Hx' as <-.
    rewrite (FloatFacts.ge_not_lt _ _ (FloatFacts.has_sign_not_nan _ _ Hs) Hn).
    now rewrite Hlt.
  - intros label Hl. rewrite He.
    apply ResultFacts.in_sorted, ResultFacts.in_elements. now apply Hsub.
  - rewrite He. apply ResultFacts.sorted_labels.
Qed.

Lemma results_pass_filters_witness :
  let c := first_result (index example_world filtered_request no_effects) in
    exists minexp,
      min_experience_of filtered_request = Ok minexp
      /\ PyFloat.lt (experience c) minexp = false
      /\ (PyFloat.is_nan minexp = true \/ PyFloat.ge (experience c) minexp = true)
      /\ (forall label, label ∈ required_of filtered_request ->
                        In label (education c))
      /\ sublist (education c) EDUCATION_LABELS.
Proof.
  apply (results_pass_filters example_world filtered_request no_effects
           (results_of (index example_world filtered_request no_effects))
           (effects_of (index example_world filtered_request no_effects))
           (first_result (index example_world filtered_request no_effects))).
  - vm_compute. reflexivity.
  - vm_compute. left. reflexivity.
  - vm_compute. reflexivity.
Defined.

(** X8. Every entry of a rendered list records the score the model gives
    to the text of one of the uploads against the stripped requirements,
    rounded to 3 decimals; that score is at least the threshold read from
    the form, and the recorded score is a number. *)
Theorem results_reach_threshold w req fx rs fx' c :
  index w req fx = Ok (Render (Some rs), fx') ->
  In c rs ->
  exists thr model file text,
    threshold_of req = Ok thr
    /\ NLP_MODEL w = Some model
    /\ In file (getlist (files req) "resumes")
    /\ original_filename c = secure_filename (filename file)
    /\ document_text w file = Ok text
    /\ PyFloat.ge (model text (requirements_of req)) thr = true
    /\ score c = PyFloat.round (model text (requirements_of req)) 3
    /\ PyFloat.is_nan (score c) = false.
Proof.
  intros H Hc.
  destruct (ResultFacts.result_accepted _ _ _ _ _ _ H Hc)
    as (thr & minexp & n & file & Ht & _ & Hin & Hacc).
  destruct Hacc as (text & model & ext & _ & Ho & _ & _ & Hd & _ & _ & _
                    & Hm & Hge & Hs & _).
  exists thr, model, file, text. repeat split; auto.
  rewrite Hs. apply RunFacts.round_not_nan.
  apply (FloatFacts.ge_true_not_nan _ _ Hge).
Qed.

Lemma results_reach_threshold_witness :
  let c := first_result (index example_world example_request no_effects) in
    exists thr model file text,
      threshold_of example_request = Ok thr
      /\ NLP_MODEL example_world = Some model
      /\ In file (getlist (files example_request) "resumes")
      /\ original_filename c = secure_filename (filename file)
      /\ document_text example_world file = Ok text
      /\ PyFloat.ge (model text (requirements_of example_request)) thr = true
      /\ score c = PyFloat.round (model text (requirements_of example_request)) 3
      /\ PyFloat.is_nan (score c) = false.
Proof.
  apply (results_reach_threshold example_world example_request no_effects
           (results_of (index example_world example_request no_effects))
           (effects_of (index example_world example_request no_effects))
           (first_result (index example_world example_request no_effects))).
  - vm_compute. reflexivity.
  - vm_compute. left. reflexivity.
Defined.

(** X9. A threshold that is NaN, as the form value "nan" gives, accepts
    nothing: a run that renders results renders the empty list. *)
Theorem nan_threshold_accepts_nothing w req fx rs fx' thr :
  index w req fx = Ok (Render (Some rs), fx') ->
  threshold_of req = Ok thr ->
  PyFloat.is_nan thr = true ->
  rs = [].
Proof.
  intros H Ht Hn. destruct rs as [|c rs]; [reflexivity|exfalso].
  destruct (ResultFacts.result_accepted _ _ _ _ _ _ H (or_introl eq_refl))
    as (thr' & minexp & n & file & Ht' & _ & _ & Hacc).
  rewrite Ht in Ht'. injection Ht' as <-.
  destruct Hacc as (text & model & ext & _ & _ & _ & _ & _ & _ & _ & _
                    & _ & Hge & _).
  destruct (FloatFacts.ge_true_not_nan _ _ Hge) as [_ Hthr]. congruence.
Qed.

Lemma nan_threshold_accepts_nothing_witness :
  results_of (index example_world nan_threshold_request no_effects) = [].
Proof.
  apply (nan_threshold_accepts_nothing example_world nan_threshold_request
           no_effects
           (results_of (index example_world nan_threshold_request no_effects))
           (effects_of (index example_world nan_threshold_request no_effects))
           PyFloat.nan).
  - vm_compute. reflexivity.
  - vm_compute. reflexivity.
  - reflexivity.
Defined.

(** X10. With the filters enabled, a required label other than UG, Masters
    and PG rejects every document: a run that renders results renders the
    empty list. *)
Theorem unknown_required_label_rejects_all w req fx rs fx' label :
  index w req fx = Ok (Render (Some rs), fx') ->
  filters_of req = true ->
  label ∈ required_of req ->
  label ∉ ({[ "UG"; "Masters"; "PG" ]} : gset string) ->
  rs = [].
Proof.
  intros H Hf Hl Hnot. destruct rs as [|c rs]; [reflexivity|exfalso].
  destruct (ResultFacts.result_accepted _ _ _ _ _ _ H (or_introl eq_refl))
    as (thr & minexp & n & file & _ & _ & _ & Hacc).
  destruct Hacc as (text & model & ext & _ & _ & _ & _ & _ & _ & _ & _
                    & _ & _ & _ & Hfilters).
  destruct (Hfilters Hf) as [_ Hsub].
  apply Hnot. apply (proj1 (ResultFacts.sorted_labels text)). now apply Hsub.
Qed.

Lemma unknown_required_label_rejects_all_witness :
  results_of (index example_world unknown_label_request no_effects) = [].
Proof.
  apply (unknown_required_label_rejects_all example_world unknown_label_request
           no_effects
           (results_of (index example_world unknown_label_request no_effects))
           (effects_of (index example_world unknown_label_request no_effects))
           "Doctorate").
  - vm_compute. reflexivity.
  - vm_compute. reflexivity.
  - compute_done.
  - compute_done.
Defined.

(** ** New file names *)

Module NamingFacts.
Import NameFacts.

Lemma chars_format n s ext :
  chars (format_new_filename n s ext)
  = (chars (PyFloat.zero_pad 6 (PyFloat.digits (Z.of_nat n)))
     ++ "_"%char :: chars (PyFloat.format_f s 2))
    ++ "."%char :: chars ext.
Proof.
  unfold format_new_filename. rewrite !chars_append. simpl.
  now rewrite <- !List.app_assoc.
Qed.

Lemma extension_of_format n s ext :
  contains "." ext = false ->
  item (rsplit1 "." (format_new_filename n s ext)) 1 = Ok ext.
Proof.
  intros H. unfold rsplit1, contains in *. rewrite chars_format.
  rewrite (rsplit_last_app _ _ _ H). unfold item. simpl nth_error.
  now rewrite str_chars.
Qed.

Lemma before_underscore_app a x :
  forallb (fun c => negb (Ascii.eqb c "_")) a = true ->
  before_underscore (a ++ "_"%char :: x) = a.
Proof.
  induction a as [|c a IH]; simpl; [reflexivity|].
  intros H. apply andb_true_iff in H as [Hc Ha].
  destruct (Ascii.eqb c "_"); [discriminate|]. now rewrite IH.
Qed.

Lemma uint_chars d :
  forallb (fun c => negb (Ascii.eqb c "_")) (chars (NilEmpty.string_of_uint d))
  = true.
Proof. induction d; simpl; auto. Qed.

Lemma zeros_chars k :
  forallb (fun c => negb (Ascii.eqb c "_")) (repeat "0"%char k) = true.
Proof. induction k; simpl; auto. Qed.

Lemma uint_zeros k s d :
  NilEmpty.uint_of_string s = Some d ->
  exists d',
    NilEmpty.uint_of_string (String.append (str (repeat "0"%char k)) s) = Some d'
    /\ N.of_uint d' = N.of_uint d.
Proof.
  intros H. induction k as [|k (d' & Hd & Hn)]; simpl; [eauto|].
  exists (Decimal.D0 d'). unfold str in *. simpl. rewrite Hd. simpl.
  split; [reflexivity|exact Hn].
Qed.

Lemma to_uint_nonnil n : N.to_uint n <> Decimal.Nil.
Proof.
  destruct n; simpl; [discriminate|apply DecimalPos.Unsigned.to_uint_nonnil].
Qed.

(** The six-digit counter reads back as the number it was made from. *)
Lemma read_padded n :
  let pad := PyFloat.zero_pad 6 (PyFloat.digits (Z.of_nat n)) in
  forallb (fun c => negb (Ascii.eqb c "_")) (chars pad) = true
  /\ exists d, NilZero.uint_of_string pad = Some d
               /\ N.of_uint d = N.of_nat n.
Proof.
  unfold PyFloat.zero_pad, PyFloat.digits.
  replace (Z.to_N (Z.of_nat n)) with (N.of_nat n) by (destruct n; reflexivity).
  pose proof (to_uint_nonnil (N.of_nat n)) as Hnil.
  pose proof (DecimalN.Unsigned.of_to (N.of_nat n)) as Hval.
  set (d := N.to_uint (N.of_nat n)) in *.
  assert (Hs : NilZero.string_of_uint d = NilEmpty.string_of_uint d)
    by (destruct d; [contradiction|reflexivity..]).
  rewrite Hs.
  assert (Hne : forall s, s <> "" ->
                          NilZero.uint_of_string s = NilEmpty.uint_of_string s)
    by (intros [|c s] H; [contradiction|reflexivity]).
  assert (Hd : NilEmpty.string_of_uint d <> "") by (destruct d; [contradiction|discriminate..]).
  destruct (6 - String.length (NilEmpty.string_of_uint d))%nat as [|k]; simpl.
  - split; [apply uint_chars|]. exists d. rewrite (Hne _ Hd).
    split; [apply NilEmpty.usu|exact Hval].
  - split; [rewrite chars_append; simpl; unfold chars; rewrite list_ascii_of_string_of_list_ascii;
            rewrite forallb_app, zeros_chars; apply uint_chars|].
    destruct (uint_zeros k _ _ (NilEmpty.usu d)) as (d' & Hd' & Hn').
    exists (Decimal.D0 d'). split; [|simpl; rewrite <- Hval, <- Hn'; reflexivity].
    unfold str in Hd'. now rewrite Hd'.
Qed.

Lemma counter_of_format n s ext :
  counter_of_name (format_new_filename n s ext) = Some (N.of_nat n).
Proof.
  unfold counter_of_name. rewrite chars_format, <- List.app_assoc. simpl.
  destruct (read_padded n) as (Hpad & d & Hd & Hn).
  rewrite (before_underscore_app _ _ Hpad), str_chars, Hd. now rewrite Hn.
Qed.

(** Entries named by their positions have pairwise distinct names. *)
Lemma names_distinct (pairs : list (FileStorage * candidate)) :
  (forall i p, pairs !! i = Some p ->
               exists s ext, new_filename (snd p) = format_new_filename (S i) s ext) ->
  NoDup (map (fun p => new_filename (snd p)) pairs).
Proof.
  intros H. apply NoDup_alt. intros i j name Hi Hj.
  change (map ?f pairs) with (f <$> pairs) in Hi, Hj.
  rewrite list_lookup_fmap in Hi, Hj.
  destruct (pairs !! i) as [p|] eqn:Ei; [|discriminate].
  destruct (pairs !! j) as [q|] eqn:Ej; [|discriminate].
  simpl in Hi, Hj. injection Hi as Hi. injection Hj as Hj.
  destruct (H i p Ei) as (s & e & Hp). destruct (H j q Ej) as (s' & e' & Hq).
  assert (Hc : counter_of_name name = Some (N.of_nat (S i))).
  { rewrite <- Hi, Hp. apply counter_of_format. }
  rewrite <- Hj, Hq, counter_of_format in Hc. injection Hc as Hc.
  apply SuccNat2Pos.inj in Hc. now symmetry.
Qed.

Lemma accepted_named w rt thr fe minexp reqedu n file c :
  accepted_from w rt thr fe minexp reqedu n file c ->
  exists s ext, new_filename c = format_new_filename n s ext.
Proof. intros (text & model & ext & _ & _ & _ & Hn & _). eauto. Qed.

(** The name and the new name of an accepted upload are allowed file
    names with the same extension. *)
Lemma accepted_names_allowed w rt thr fe minexp reqedu n file c :
  accepted_from w rt thr fe minexp reqedu n file c ->
  allowed_file (original_filename c) = true
  /\ allowed_file (new_filename c) = true
  /\ item (rsplit1 "." (new_filename c)) 1
     = item (rsplit1 "." (original_filename c)) 1.
Proof.
  intros (text & model & ext & _ & Ho & Hitem & Hn & Hd & Hne & _).
  unfold document_text in Hd. rewrite <- Ho in Hd.
  destruct (StepFacts.extract_nonempty _ _ _ _ _ Hd Hne) as (ext' & Hitem' & Hlow).
  rewrite Hitem in Hitem'. injection Hitem' as <-.
  destruct (extension_inv _ _ Hitem) as (_ & Hext & _).
  pose proof (extension_of_format n (score c) ext Hext) as Hnew.
  rewrite <- Hn in Hnew.
  split; [now apply (allowed_of_extension _ ext)|].
  split; [now apply (allowed_of_extension _ ext)|].
  now rewrite Hnew, Hitem.
Qed.

End NamingFacts.

(** X11. Every entry of a rendered list has an allowed original name and
    an allowed new name, and the new name keeps the extension of the
    original name. *)
Theorem results_keep_extension w req fx rs fx' c :
  index w req fx = Ok (Render (Some rs), fx') ->
  In c rs ->
  allowed_file (original_filename c) = true
  /\ allowed_file (new_filename c) = true
  /\ item (rsplit1 "." (new_filename c)) 1
     = item (rsplit1 "." (original_filename c)) 1.
Proof.
  intros H Hc.
  destruct (ResultFacts.result_accepted _ _ _ _ _ _ H Hc)
    as (thr & minexp & n & file & _ & _ & _ & Hacc).
  exact (NamingFacts.accepted_names_allowed _ _ _ _ _ _ _ _ _ Hacc).
Qed.

Lemma results_keep_extension_witness :
  let c := first_result (index example_world example_request no_effects) in
  allowed_file (original_filename c) = true
  /\ allowed_file (new_filename c) = true
  /\ item (rsplit1 "." (new_filename c)) 1
     = item (rsplit1 "." (original_filename c)) 1.
Proof.
  apply (results_keep_extension example_world example_request no_effects
           (results_of (index example_world example_request no_effects))
           (effects_of (index example_world example_request no_effects))
           (first_result (index example_world example_request no_effects))).
  - vm_compute. reflexivity.
  - vm_compute. left. reflexivity.
Defined.

(** X12. The match number can be read back from a new file name: the
    digits before its first underscore are the counter, for every
    counter, also above 999999, whatever the score and the extension. *)
Theorem counter_read_back n s ext :
  counter_of_name (format_new_filename n s ext) = Some (N.of_nat n).
Proof. apply NamingFacts.counter_of_format. Qed.

(** X13. The new file names of a rendered list are pairwise distinct. *)
Theorem new_filenames_distinct w req fx rs fx' :
  index w req fx = Ok (Render (Some rs), fx') ->
  NoDup (map new_filename rs).
Proof.
  intros H.
  destruct (StepFacts.index_pairs _ _ _ _ _ H)
    as (thr & minexp & pairs & _ & _ & _ & Hperm & _ & Hacc & _).
  rewrite <- (Permutation_map new_filename Hperm).
  rewrite map_map. apply NamingFacts.names_distinct.
  intros i p Hi. exact (NamingFacts.accepted_named _ _ _ _ _ _ _ _ _ (Hacc i p Hi)).
Qed.

Lemma new_filenames_distinct_witness :
  NoDup (map new_filename
           (results_of (index example_world example_request no_effects))).
Proof.
  apply (new_filenames_distinct example_world example_request no_effects
           (results_of (index example_world example_request no_effects))
           (effects_of (index example_world example_request no_effects))).
  vm_compute. reflexivity.
Defined.

(** ** The folders after a run *)

Module FolderFacts.

Lemma fold_store_other w pairs :
  forall (m : gmap string string) k,
    (forall p, In p pairs -> new_filename (snd p) <> k) ->
    fold_left (store_match w) pairs m !! k = m !! k.
Proof.
  induction pairs as [|p pairs IH]; intros m k H; simpl; [reflexivity|].
  rewrite IH by (intros q Hq; apply H; now right).
  unfold store_match. destruct (copy_error w _ _).
  - apply lookup_partial_alter_ne, H. now left.
  - apply lookup_insert_ne, H. now left.
Qed.

Lemma fold_store_in w pairs :
  NoDup (map (fun p => new_filename (snd p)) pairs) ->
  forall (m : gmap string string) p,
    In p pairs ->
    copy_error w (original_filename (snd p)) (new_filename (snd p)) = None ->
    fold_left (store_match w) pairs m !! new_filename (snd p)
    = Some (stream (fst p)).
Proof.
  induction pairs as [|q pairs IH]; intros Hnd m p Hin Hc; [destruct Hin|].
  simpl in Hnd. apply NoDup_cons in Hnd as [Hq Hnd]. simpl.
  destruct Hin as [->|Hin]; [|exact (IH Hnd _ p Hin Hc)].
  rewrite fold_store_other.
  - unfold store_match. rewrite Hc. apply lookup_insert_eq.
  - intros r Hr E. apply Hq. rewrite <- E.
    apply list_elem_of_In, in_map_iff. exists r. auto.
Qed.

(** The upload folder after the loop holds, under a name, the bytes of an
    allowed upload with that sanitized name, or what it held before when
    there is no such upload. *)
Lemma fold_upload_lookup files :
  forall (m : gmap string string) k,
    (exists file,
       In file files
       /\ allowed_file (filename file) = true
       /\ secure_filename (filename file) = k
       /\ fold_left store_upload files m !! k = Some (stream file))
    \/ ((forall file, In file files -> allowed_file (filename file) = true ->
                      secure_filename (filename file) <> k)
        /\ fold_left store_upload files m !! k = m !! k).
Proof.
  induction files as [|f files IH]; intros m k; simpl.
  - right. split; [intros file []|reflexivity].
  - destruct (IH (store_upload m f) k) as [(file & Hin & Ha & Hk & Hl) | [Hno Hl]].
    + left. exists file. auto.
    + rewrite Hl. unfold store_upload.
      destruct (allowed_file (filename f)) eqn:Ha.
      * destruct (decide (secure_filename (filename f) = k)) as [Hk|Hk].
        -- subst k. left. exists f. rewrite lookup_insert_eq. auto.
        -- right. split; [|now apply lookup_insert_ne].
           intros file [<-|Hin] Hfa; [exact Hk|now apply Hno].
      * right. split; [|reflexivity].
        intros file [<-|Hin] Hfa; [congruence|now apply Hno].
Qed.

Lemma sublist_filter_length {A} (P : A -> bool) l k :
  sublist l k -> List.Forall (fun x => P x = true) l ->
  (length l <= length (List.filter P k))%nat.
Proof.
  induction 1 as [|x l k Hs IH|x l k Hs IH]; intros Hl; simpl.
  - lia.
  - inversion Hl as [|? ? Hx Hl']; subst. rewrite Hx. simpl.
    specialize (IH Hl'). lia.
  - specialize (IH Hl). destruct (P x); simpl; lia.
Qed.

End FolderFacts.

(** X14. After a run that renders results, the entries of the list pair
    with the uploads they come from, in the order of the uploads, each
    entry being what the loop makes of the text, the score and the name of
    its upload; the match folder holds under the new name of every entry
    whose copy succeeded the bytes of its upload, and every name that is
    not the new name of an entry is as it was. Nothing is said of the new
    name of an entry whose copy failed: the copy may have left anything
    there. *)
Theorem match_folder_after_run w req fx rs fx' :
  index w req fx = Ok (Render (Some rs), fx') ->
  exists thr minexp (pairs : list (FileStorage * candidate)),
    threshold_of req = Ok thr
    /\ min_experience_of req = Ok minexp
    /\ Permutation (map snd pairs) rs
    /\ sublist (map fst pairs) (getlist (files req) "resumes")
    /\ (forall i file c,
          pairs !! i = Some (file, c) ->
          accepted_from w (requirements_of req) thr (filters_of req) minexp
            (required_of req) (S i) file c
          /\ (copy_error w (original_filename c) (new_filename c) = None ->
              match_folder fx' !! new_filename c = Some (stream file)))
    /\ (forall name,
          (forall c, In c rs -> new_filename c <> name) ->
          match_folder fx' !! name = match_folder fx !! name).
Proof.
  intros H.
  destruct (StepFacts.index_pairs _ _ _ _ _ H)
    as (thr & minexp & pairs & Ht & Hmin & _ & Hperm & Hsub & Hacc & Hm & _).
  assert (Hnd : NoDup (map (fun p => new_filename (snd p)) pairs)).
  { apply NamingFacts.names_distinct. intros i p Hi.
    exact (NamingFacts.accepted_named _ _ _ _ _ _ _ _ _ (Hacc i p Hi)). }
  exists thr, minexp, pairs. rewrite Hm.
  split; [exact Ht|]. split; [exact Hmin|]. split; [exact Hperm|].
  split; [exact Hsub|]. split.
  - intros i file c Hi. split; [exact (Hacc i _ Hi)|].
    intros Hc.
    apply (FolderFacts.fold_store_in w pairs Hnd _ (file, c)); [|exact Hc].
    apply list_elem_of_In, list_elem_of_lookup. eauto.
  - intros name Hname. apply FolderFacts.fold_store_other.
    intros p Hp. apply Hname. apply (Permutation_in _ Hperm).
    apply in_map_iff. exists p. auto.
Qed.

Lemma match_folder_after_run_witness :
  let run := index example_world example_request no_effects in
  exists thr minexp (pairs : list (FileStorage * candidate)),
    threshold_of example_request = Ok thr
    /\ min_experience_of example_request = Ok minexp
    /\ Permutation (map snd pairs) (results_of run)
    /\ sublist (map fst pairs) (getlist (files example_request) "resumes")
    /\ (forall i file c,
          pairs !! i = Some (file, c) ->
          accepted_from example_world (requirements_of example_request) thr
            (filters_of example_request) minexp (required_of example_request)
            (S i) file c
          /\ (copy_error example_world (original_filename c) (new_filename c)
              = None ->
              match_folder (effects_of run) !! new_filename c
              = Some (stream file)))
    /\ (forall name,
          (forall c, In c (results_of run) -> new_filename c <> name) ->
          match_folder (effects_of run) !! name
          = match_folder no_effects !! name).
Proof.
  apply (match_folder_after_run example_world example_request no_effects
           (results_of (index example_world example_request no_effects))
           (effects_of (index example_world example_request no_effects))).
  vm_compute. reflexivity.
Defined.

(** A copy that fails may still have written: in the world where every
    copy fails and leaves an empty file, the match folder holds an empty
    file under the new name of the first entry, and the entry is there. *)
Example failed_copy_may_truncate :
  let run := index failing_copy_world example_request no_effects in
  length (results_of run) = 2%nat
  /\ match_folder (effects_of run) !! new_filename (first_result run) = Some "".
Proof. split; vm_compute; reflexivity. Qed.

(** X15. After a run that renders results, the upload folder holds under
    the sanitized name of every allowed upload the bytes of an allowed
    upload of the batch with that sanitized name, whether the document
    was accepted or not; a name that no allowed upload sanitizes to is as
    it was. *)
Theorem upload_folder_after_run w req fx rs fx' :
  index w req fx = Ok (Render (Some rs), fx') ->
  (forall file,
     In file (getlist (files req) "resumes") ->
     allowed_file (filename file) = true ->
     exists file',
       In file' (getlist (files req) "resumes")
       /\ allowed_file (filename file') = true
       /\ secure_filename (filename file') = secure_filename (filename file)
       /\ upload_folder fx' !! secure_filename (filename file)
          = Some (stream file'))
  /\ (forall name,
        (forall file, In file (getlist (files req) "resumes") ->
                      allowed_file (filename file) = true ->
                      secure_filename (filename file) <> name) ->
        upload_folder fx' !! name = upload_folder fx !! name).
Proof.
  intros H.
  destruct (StepFacts.index_pairs _ _ _ _ _ H)
    as (thr & minexp & pairs & _ & _ & _ & _ & _ & _ & _ & Hu).
  rewrite Hu. split.
  - intros file Hin Ha.
    destruct (FolderFacts.fold_upload_lookup (getlist (files req) "resumes")
                (upload_folder fx) (secure_filename (filename file)))
      as [(file' & Hin' & Ha' & Hk & Hl) | [Hno _]].
    + exists file'. auto.
    + exfalso. exact (Hno file Hin Ha eq_refl).
  - intros name Hname.
    destruct (FolderFacts.fold_upload_lookup (getlist (files req) "resumes")
                (upload_folder fx) name)
      as [(file' & Hin' & Ha' & Hk & Hl) | [_ Hl]]; [|exact Hl].
    exfalso. exact (Hname file' Hin' Ha' Hk).
Qed.

Lemma upload_folder_after_run_witness :
  let run := index example_world filtered_request no_effects in
  (forall file,
     In file (getlist (files filtered_request) "resumes") ->
     allowed_file (filename file) = true ->
     exists file',
       In file' (getlist (files filtered_request) "resumes")
       /\ allowed_file (filename file') = true
       /\ secure_filename (filename file') = secure_filename (filename file)
       /\ upload_folder (effects_of run) !! secure_filename (filename file)
          = Some (stream file'))
  /\ (forall name,
        (forall file, In file (getlist (files filtered_request) "resumes") ->
                      allowed_file (filename file) = true ->
                      secure_filename (filename file) <> name) ->
        upload_folder (effects_of run) !! name = upload_folder no_effects !! name).
Proof.
  apply (upload_folder_after_run example_world filtered_request no_effects
           (results_of (index example_world filtered_request no_effects))
           (effects_of (index example_world filtered_request no_effects))).
  vm_compute. reflexivity.
Defined.

(** X16. A rendered list has at most one entry for each upload with an
    allowed name. *)
Theorem results_at_most_allowed_uploads w req fx rs fx' :
  index w req fx = Ok (Render (Some rs), fx') ->
  (length rs
   <= length (List.filter (fun file => allowed_file (filename file))
                (getlist (files req) "resumes")))%nat.
Proof.
  intros H.
  destruct (StepFacts.index_pairs _ _ _ _ _ H)
    as (thr & minexp & pairs & _ & _ & _ & Hperm & Hsub & Hacc & _).
  rewrite <- (Permutation_length Hperm), length_map,
    <- (length_map fst pairs).
  apply FolderFacts.sublist_filter_length; [exact Hsub|].
  apply List.Forall_forall. intros file Hin.
  apply in_map_iff in Hin as (p & <- & Hp).
  apply list_elem_of_In, list_elem_of_lookup in Hp as (i & Hi).
  destruct (Hacc i p Hi) as (text & model & ext & Ha & _). exact Ha.
Qed.

Lemma results_at_most_allowed_uploads_witness :
  (length (results_of (index example_world example_request no_effects))
   <= length (List.filter (fun file => allowed_file (filename file))
                (getlist (files example_request) "resumes")))%nat.
Proof.
  apply (results_at_most_allowed_uploads example_world example_request no_effects
           (results_of (index example_world example_request no_effects))
           (effects_of (index example_world example_request no_effects))).
  vm_compute. reflexivity.
Defined.

(** ** What the answer does not depend on *)

Module IndependenceFacts.

Lemma loop_body_same_results w rt thr fe minexp reqedu file st1 st2 :
  same_results st1 st2 ->
  same_results_outcome
    (loop_body w rt thr fe minexp reqedu file st1)
    (loop_body w rt thr fe minexp reqedu file st2).
Proof.
  intros (Hr & Hc). unfold loop_body.
  destruct (negb (String.eqb (filename file) "") && allowed_file (filename file));
    [|split; assumption].
  set (name := secure_filename (filename file)).
  rewrite (StepFacts.extract_after_save w file name (loop_fx st1)),
    (StepFacts.extract_after_save w file name (loop_fx st2)).
  assert (Hskip : forall fx1 fx2,
             same_results_outcome
               (Ok (LoopState (results st1) (match_counter st1) fx1))
               (Ok (LoopState (results st2) (match_counter st2) fx2))).
  { intros fx1 fx2. split; assumption. }
  destruct (extract_text_from_file _ _ name name) as [text|e]; [|reflexivity].
  simpl bind.
  destruct (String.eqb text ""); [apply Hskip|].
  destruct (find_experience text) as [x|e]; [|reflexivity]. simpl bind.
  destruct (fe && PyFloat.lt x minexp); [apply Hskip|].
  destruct (fe && negb (bool_decide (reqedu ⊆ find_education text)));
    [apply Hskip|].
  destruct (passed _); [|apply Hskip].
  destruct (item (rsplit1 "." name) 1) as [ext|e]; [|reflexivity].
  simpl bind. rewrite Hr, Hc. split; reflexivity.
Qed.

Lemma loop_same_results w rt thr fe minexp reqedu files :
  forall st1 st2,
    same_results st1 st2 ->
    same_results_outcome
      (loop w rt thr fe minexp reqedu files st1)
      (loop w rt thr fe minexp reqedu files st2).
Proof.
  induction files as [|file files IH]; simpl; intros st1 st2 H; [exact H|].
  pose proof (loop_body_same_results w rt thr fe minexp reqedu file _ _ H) as Hb.
  destruct (loop_body w rt thr fe minexp reqedu file st1),
    (loop_body w rt thr fe minexp reqedu file st2);
    simpl in *; try contradiction; auto.
Qed.

Lemma loop_not_allowed w rt thr fe minexp reqedu files :
  List.Forall (fun file => allowed_file (filename file) = false) files ->
  forall st, loop w rt thr fe minexp reqedu files st = Ok st.
Proof.
  induction 1 as [|file files Hf Hfs IH]; intros st; simpl; [reflexivity|].
  rewrite (LoopFacts.loop_body_not_allowed _ _ _ _ _ _ _ _ Hf). simpl. apply IH.
Qed.

End IndependenceFacts.

(** X17. The response does not depend on the effects the run starts from:
    whatever the flashes and the two folders hold, the same request in the
    same world gets the same rendered list, or the same redirect, or the
    same exception; so a second run of a request gives the results of the
    first. *)
Theorem response_independent_of_effects w req fx1 fx2 :
  response_of (index w req fx1) = response_of (index w req fx2).
Proof.
  unfold index.
  destruct (NLP_MODEL w); [|reflexivity].
  destruct (method req); [reflexivity|].
  destruct (files req !! "resumes"); [|reflexivity].
  destruct (match get (form req) "threshold" with
            | Some s => py_float s
            | None => Ok (PyFloat.of_ratio false 6 10)
            end) as [thr|e]; [|reflexivity].
  simpl bind.
  destruct (match getlist (files req) "resumes" with
            | [] => true
            | file :: _ => String.eqb (filename file) ""
            end); [reflexivity|].
  destruct (String.eqb _ ""); [reflexivity|].
  match goal with
  | |- context [match ?x with Ok _ => _ | Raise _ => _ end] =>
      destruct x as [minexp|e]; [|reflexivity]
  end.
  match goal with
  | |- context [loop ?w ?rt ?thr ?fe ?mn ?re ?fs (LoopState [] 0 fx1)] =>
      pose proof (IndependenceFacts.loop_same_results w rt thr fe mn re fs
                    (LoopState [] 0 fx1) (LoopState [] 0 fx2)
                    (conj eq_refl eq_refl)) as Hl;
      destruct (loop w rt thr fe mn re fs (LoopState [] 0 fx1)) as [st1|e1],
        (loop w rt thr fe mn re fs (LoopState [] 0 fx2)) as [st2|e2];
      simpl in Hl; try contradiction
  end.
  - destruct Hl as (Hr & _). simpl. now rewrite Hr.
  - simpl. now rewrite Hl.
Qed.

(** X18. A POST whose files all have names that [allowed_file] refuses is
    not an error: with the model loaded, a first file name that is not
    empty, requirements that are not empty and numeric form values, the
    handler renders the empty list and changes no folder and no flash. *)
Theorem unsupported_files_render_nothing w req fx file files' thr minexp :
  NLP_MODEL w <> None ->
  method req = POST ->
  files req !! "resumes" = Some (file :: files') ->
  filename file <> "" ->
  List.Forall (fun f => allowed_file (filename f) = false) (file :: files') ->
  requirements_of req <> "" ->
  threshold_of req = Ok thr ->
  min_experience_of req = Ok minexp ->
  index w req fx = Ok (Render (Some []), fx).
Proof.
  intros Hw Hm Hfiles Hname Hall Hreq Ht Hmin. unfold index.
  destruct (NLP_MODEL w); [|contradiction].
  rewrite Hm, Hfiles.
  fold (threshold_of req). fold (requirements_of req). fold (filters_of req).
  fold (required_of req). rewrite Ht. simpl bind.
  unfold getlist. rewrite Hfiles.
  destruct (String.eqb_spec (filename file) ""); [contradiction|].
  destruct (String.eqb_spec (requirements_of req) ""); [contradiction|].
  change (if filters_of req
          then if String.eqb (default "0" (get (form req) "experience")) ""
               then Ok PyFloat.zero
               else py_float (default "0" (get (form req) "experience"))
          else Ok PyFloat.zero) with (min_experience_of req).
  rewrite Hmin.
  rewrite (IndependenceFacts.loop_not_allowed _ _ _ _ _ _ _ Hall). reflexivity.
Qed.

Lemma unsupported_files_render_nothing_witness :
  index example_world notes_request no_effects = Ok (Render (Some []), no_effects).
Proof.
  apply (unsupported_files_render_nothing example_world notes_request no_effects
           {| filename := "notes.txt"; stream := "5 years, B.Tech" |}
           [ {| filename := "README"; stream := "PhD" |} ]
           (PyFloat.of_ratio false 6 10) PyFloat.zero).
  - discriminate.
  - reflexivity.
  - vm_compute. reflexivity.
  - discriminate.
  - repeat constructor.
  - vm_compute. discriminate.
  - vm_compute. reflexivity.
  - vm_compute. reflexivity.
Defined.

(** X19. The threshold is read before the request is checked: in a POST
    with a file part and the model loaded, a threshold that [float]
    rejects makes the handler raise [ValueError], whatever the files, the
    requirements and the filters are. *)
Theorem bad_threshold_raises w req fx s :
  NLP_MODEL w <> None ->
  method req = POST ->
  files req !! "resumes" <> None ->
  get (form req) "threshold" = Some s ->
  py_float s = Raise ValueError ->
  index w req fx = Raise ValueError.
Proof.
  intros Hw Hm Hfiles Hs Hf. unfold index.
  destruct (NLP_MODEL w); [|contradiction].
  rewrite Hm. destruct (files req !! "resumes"); [|contradiction].
  rewrite Hs, Hf. reflexivity.
Qed.

Lemma bad_threshold_raises_witness :
  index example_world bad_threshold_request no_effects = Raise ValueError.
Proof.
  apply (bad_threshold_raises example_world bad_threshold_request no_effects "high").
  - discriminate.
  - reflexivity.
  - vm_compute. discriminate.
  - vm_compute. reflexivity.
  - vm_compute. reflexivity.
Defined.

(** X20. A higher threshold is stricter: a resume that passes under a
    threshold passes, with the same grade, under every threshold that is
    not above it. *)
Theorem lower_threshold_keeps_pass text criteria nlp_model thr thr' :
  passed (grade_resume_nlp text criteria nlp_model thr) = true ->
  PyFloat.ge thr thr' = true ->
  grade_resume_nlp text criteria nlp_model thr'
  = grade_resume_nlp text criteria nlp_model thr.
Proof.
  unfold grade_resume_nlp.
  destruct (criteria !! "requirements_text") as [req|]; [|discriminate].
  destruct nlp_model as [model|]; [|discriminate].
  destruct (String.eqb req ""); [discriminate|].
  destruct (PyFloat.ge (model text req) thr) eqn:E; [|discriminate].
  intros _ Hthr.
  destruct (FloatFacts.ge_true_not_nan _ _ E) as [Hs Ht].
  destruct (FloatFacts.ge_true_not_nan _ _ Hthr) as [_ Ht'].
  now rewrite (OrderFacts.ge_trans _ _ _ Hs Ht Ht' E Hthr).
Qed.

Lemma lower_threshold_keeps_pass_witness :
  grade_resume_nlp "5 years, B.Tech degree"
    {[ "requirements_text" := "python developer" ]} (Some example_model)
    (PyFloat.of_ratio false 6 10)
  = grade_resume_nlp "5 years, B.Tech degree"
      {[ "requirements_text" := "python developer" ]} (Some example_model)
      (PyFloat.of_ratio false 7 10).
Proof.
  apply (lower_threshold_keeps_pass "5 years, B.Tech degree"
           {[ "requirements_text" := "python developer" ]} (Some example_model)
           (PyFloat.of_ratio false 7 10) (PyFloat.of_ratio false 6 10)).
  - vm_compute. reflexivity.
  - vm_compute. reflexivity.
Defined.
